(** * The text editor of tabi-tabi-os: state, persistence and timers

    A shallow embedding of [src/components/apps/textEditor.tsx].  The
    component is a React function component; its hooks are modelled as an
    explicit state record, its effects as functions that run when one of
    their dependencies changed between two renders, and the browser it talks
    to (persistent store, timers, clipboard, downloads, console) as an
    environment record that is threaded through every handler.

    What the model fixes: the props of an instance do not change while it is
    mounted; React renders once per event, after the handler has returned
    (the updates a handler queues are applied together); a timer fires at
    its due time, the event loop taking the timer that is due first, and of
    those due at the same time the one that was set up first; time is
    counted in whole milliseconds.  Whether the page has the Clipboard API
    is a parameter, as are the constants of the modules that are not among
    the sources. *)

From stdpp Require Import base strings gmap list numbers pretty.
From Stdlib Require Import Ascii Floats.

Local Open Scope Z_scope.

(** ** Data model *)

(** [EditorSettings["textAlign"]]. *)
Inductive TextAlign := AlignLeft | AlignCenter | AlignRight | AlignJustify.

(** The [EditorSettings] interface.  Integer-valued fields are [Z]; the line
    height is a JavaScript number. *)
Record EditorSettings := mkEditorSettings {
  fontFamily : string;
  fontSize : Z;
  lineHeight : float;
  isBold : bool;
  isItalic : bool;
  isUnderline : bool;
  textAlign : TextAlign;
  textColor : string;
  backgroundColor : string;
  wordWrap : bool;
  tabSize : Z;
  autoSaveInterval : Z
}.

(** [keyof EditorSettings]. *)
Inductive SettingKey :=
| K_fontFamily | K_fontSize | K_lineHeight | K_isBold | K_isItalic
| K_isUnderline | K_textAlign | K_textColor | K_backgroundColor
| K_wordWrap | K_tabSize | K_autoSaveInterval.

#[global] Instance SettingKey_eq_dec : EqDecision SettingKey.
Proof. solve_decision. Defined.

(** [EditorSettings[K]]. *)
Definition field_type (k : SettingKey) : Type :=
  match k with
  | K_fontFamily | K_textColor | K_backgroundColor => string
  | K_fontSize | K_tabSize | K_autoSaveInterval => Z
  | K_lineHeight => float
  | K_isBold | K_isItalic | K_isUnderline | K_wordWrap => bool
  | K_textAlign => TextAlign
  end.

(** [settings[key]]. *)
Definition get_field (k : SettingKey) (s : EditorSettings) : field_type k :=
  match k with
  | K_fontFamily => fontFamily s
  | K_fontSize => fontSize s
  | K_lineHeight => lineHeight s
  | K_isBold => isBold s
  | K_isItalic => isItalic s
  | K_isUnderline => isUnderline s
  | K_textAlign => textAlign s
  | K_textColor => textColor s
  | K_backgroundColor => backgroundColor s
  | K_wordWrap => wordWrap s
  | K_tabSize => tabSize s
  | K_autoSaveInterval => autoSaveInterval s
  end.

(** The object spread [{ ...prev, [key]: value }]. *)
Definition set_field (k : SettingKey) : field_type k -> EditorSettings -> EditorSettings :=
  match k with
  | K_fontFamily => fun v s =>
      mkEditorSettings v (fontSize s) (lineHeight s) (isBold s) (isItalic s)
        (isUnderline s) (textAlign s) (textColor s) (backgroundColor s)
        (wordWrap s) (tabSize s) (autoSaveInterval s)
  | K_fontSize => fun v s =>
      mkEditorSettings (fontFamily s) v (lineHeight s) (isBold s) (isItalic s)
        (isUnderline s) (textAlign s) (textColor s) (backgroundColor s)
        (wordWrap s) (tabSize s) (autoSaveInterval s)
  | K_lineHeight => fun v s =>
      mkEditorSettings (fontFamily s) (fontSize s) v (isBold s) (isItalic s)
        (isUnderline s) (textAlign s) (textColor s) (backgroundColor s)
        (wordWrap s) (tabSize s) (autoSaveInterval s)
  | K_isBold => fun v s =>
      mkEditorSettings (fontFamily s) (fontSize s) (lineHeight s) v (isItalic s)
        (isUnderline s) (textAlign s) (textColor s) (backgroundColor s)
        (wordWrap s) (tabSize s) (autoSaveInterval s)
  | K_isItalic => fun v s =>
      mkEditorSettings (fontFamily s) (fontSize s) (lineHeight s) (isBold s) v
        (isUnderline s) (textAlign s) (textColor s) (backgroundColor s)
        (wordWrap s) (tabSize s) (autoSaveInterval s)
  | K_isUnderline => fun v s =>
      mkEditorSettings (fontFamily s) (fontSize s) (lineHeight s) (isBold s)
        (isItalic s) v (textAlign s) (textColor s) (backgroundColor s)
        (wordWrap s) (tabSize s) (autoSaveInterval s)
  | K_textAlign => fun v s =>
      mkEditorSettings (fontFamily s) (fontSize s) (lineHeight s) (isBold s)
        (isItalic s) (isUnderline s) v (textColor s) (backgroundColor s)
        (wordWrap s) (tabSize s) (autoSaveInterval s)
  | K_textColor => fun v s =>
      mkEditorSettings (fontFamily s) (fontSize s) (lineHeight s) (isBold s)
        (isItalic s) (isUnderline s) (textAlign s) v (backgroundColor s)
        (wordWrap s) (tabSize s) (autoSaveInterval s)
  | K_backgroundColor => fun v s =>
      mkEditorSettings (fontFamily s) (fontSize s) (lineHeight s) (isBold s)
        (isItalic s) (isUnderline s) (textAlign s) (textColor s) v
        (wordWrap s) (tabSize s) (autoSaveInterval s)
  | K_wordWrap => fun v s =>
      mkEditorSettings (fontFamily s) (fontSize s) (lineHeight s) (isBold s)
        (isItalic s) (isUnderline s) (textAlign s) (textColor s)
        (backgroundColor s) v (tabSize s) (autoSaveInterval s)
  | K_tabSize => fun v s =>
      mkEditorSettings (fontFamily s) (fontSize s) (lineHeight s) (isBold s)
        (isItalic s) (isUnderline s) (textAlign s) (textColor s)
        (backgroundColor s) (wordWrap s) v (autoSaveInterval s)
  | K_autoSaveInterval => fun v s =>
      mkEditorSettings (fontFamily s) (fontSize s) (lineHeight s) (isBold s)
        (isItalic s) (isUnderline s) (textAlign s) (textColor s)
        (backgroundColor s) (wordWrap s) (tabSize s) v
  end.

(** The component's props, with the defaults of the destructuring pattern
    ([initialContent = ""], [editorId = "default"]). *)
Record Props := mkProps {
  initialContent : string;
  editorId : string
}.

Definition default_props (initialContent editorId : option string) : Props :=
  mkProps (default "" initialContent) (default "default" editorId).

(** ** The browser environment *)

(** What the store holds under a key: the content string or a settings
    record (the serialization is the store's own). *)
Inductive StoreValue :=
| VString (s : string)
| VSettings (s : EditorSettings).

(** [new Blob(parts, { type })]. *)
Record Blob := mkBlob {
  blobParts : list string;
  blobType : string
}.

(** The text a blob holds: its parts, concatenated. *)
Definition blob_text (b : Blob) : string :=
  foldr String.append "" (blobParts b).

(** A click on an anchor with [href] an object URL of a blob and a
    [download] attribute. *)
Record Download := mkDownload {
  href : Blob;
  download : string
}.

(** The two callbacks the component hands to timers. *)
Inductive Callback :=
| ClearStatus   (* () => setStatusMessage("") *)
| AutoSaved.    (* () => showStatusMessage("Auto-saved") *)

#[global] Instance Callback_eq_dec : EqDecision Callback.
Proof. solve_decision. Defined.

(** A pending timer: [period] is [None] for [setTimeout], the delay for
    [setInterval]; [due] is the time in milliseconds at which it fires
    next. *)
Record Timer := mkTimer {
  timerId : nat;
  due : Z;
  period : option Z;
  callback : Callback
}.

Record Env := mkEnv {
  store : gmap string StoreValue;          (* the persistent key-value store *)
  saves : list (string * StoreValue);      (* every call of saveFeatureState *)
  timers : list Timer;                     (* pending timers, oldest first *)
  nextTimerId : nat;
  now : Z;                                 (* milliseconds *)
  clipboard : string;
  pendingWrites : list string;             (* clipboard writes not yet settled *)
  downloads : list Download;
  consoleErrors : list string
}.

Definition with_store (f : gmap string StoreValue -> gmap string StoreValue)
    (g : list (string * StoreValue) -> list (string * StoreValue)) (e : Env) : Env :=
  mkEnv (f (store e)) (g (saves e)) (timers e) (nextTimerId e) (now e)
    (clipboard e) (pendingWrites e) (downloads e) (consoleErrors e).

Definition with_timers (f : list Timer -> list Timer) (n : nat) (e : Env) : Env :=
  mkEnv (store e) (saves e) (f (timers e)) n (now e)
    (clipboard e) (pendingWrites e) (downloads e) (consoleErrors e).

Definition with_now (t : Z) (e : Env) : Env :=
  mkEnv (store e) (saves e) (timers e) (nextTimerId e) t
    (clipboard e) (pendingWrites e) (downloads e) (consoleErrors e).

Definition with_clipboard (c : string) (p : list string) (e : Env) : Env :=
  mkEnv (store e) (saves e) (timers e) (nextTimerId e) (now e)
    c p (downloads e) (consoleErrors e).

Definition with_downloads (d : list Download) (e : Env) : Env :=
  mkEnv (store e) (saves e) (timers e) (nextTimerId e) (now e)
    (clipboard e) (pendingWrites e) d (consoleErrors e).

Definition with_consoleErrors (c : list string) (e : Env) : Env :=
  mkEnv (store e) (saves e) (timers e) (nextTimerId e) (now e)
    (clipboard e) (pendingWrites e) (downloads e) c.

(** A browser that has just opened the page: the store is whatever earlier
    sessions left, nothing is pending, timer ids start at 1. *)
Definition fresh_env (st : gmap string StoreValue) (t0 : Z) : Env :=
  mkEnv st [] [] 1 t0 "" [] [] [].

(** *** Timers *)


(** A number as a 32-bit signed integer: it is wrapped into the range. *)
Definition to_int32 (x : Z) : Z := (x + 2 ^ 31) `mod` 2 ^ 32 - 2 ^ 31.

(** The delay a timer is set up with.  The [timeout] argument of
    [setTimeout] and [setInterval] is a 32-bit signed integer (Web IDL
    [long]), and a negative one counts as 0: a delay up to
    [MAX_TIMER_DELAY] is taken as it is, a larger one wraps around.  (The
    floor of 4 ms for timers nested more than five levels deep is left out;
    it only bears on delays below 4 ms.) *)
Definition timer_delay (timeout : Z) : Z := Z.max 0 (to_int32 timeout).

Arguments timer_delay : simpl never.

(** [setTimeout(cb, delay)]: returns the new id. *)
Definition setTimeout (cb : Callback) (delay : Z) (e : Env) : nat * Env :=
  (nextTimerId e,
   with_timers
     (fun ts => ts ++ [mkTimer (nextTimerId e) (now e + timer_delay delay) None cb])
     (S (nextTimerId e)) e).

(** [setInterval(cb, delay)]: returns the new id. *)
Definition setInterval (cb : Callback) (delay : Z) (e : Env) : nat * Env :=
  (nextTimerId e,
   with_timers
     (fun ts => ts ++ [mkTimer (nextTimerId e) (now e + timer_delay delay)
                         (Some (timer_delay delay)) cb])
     (S (nextTimerId e)) e).

(** [clearInterval(id)]: a no-op when no timer has that id. *)
Definition clearInterval (id : nat) (e : Env) : Env :=
  with_timers (filter (fun t => timerId t <> id)) (nextTimerId e) e.

(** A timer that fires again. *)
Definition recurring (t : Timer) : Prop := is_Some (period t).

#[global] Instance recurring_dec t : Decision (recurring t).
Proof. unfold recurring. apply _. Defined.

(** The timer the event loop runs next, and the timers left: the one that is
    due first, the oldest among those due at the same time. *)
Fixpoint extract_next (ts : list Timer) : option (Timer * list Timer) :=
  match ts with
  | [] => None
  | t :: rest =>
      match extract_next rest with
      | None => Some (t, [])
      | Some (m, rest') =>
          if due t <=? due m then Some (t, rest) else Some (m, t :: rest')
      end
  end.

(** ** The modules the component imports *)

(** The constants [atoms/textEditorAtom] exports.  That module is not among
    the sources, so the two key prefixes and the default settings record are
    parameters of the development. *)
Class textEditorAtom := {
  TEXT_EDITOR_STORAGE_KEY : string;
  TEXT_EDITOR_SETTINGS_KEY : string;
  defaultEditorSettings : EditorSettings
}.

(** What the page's [navigator] offers: [navigator.clipboard] is defined in
    a secure context and [undefined] elsewhere.  It is the same for as long
    as the page lives, so it is a parameter of the development too. *)
Class Navigator := {
  clipboardApi : bool
}.

Section Component.

Context `{atom : textEditorAtom} `{nav : Navigator}.

(** [`${TEXT_EDITOR_STORAGE_KEY}_${editorId}`]. *)
Definition contentKey (editorId : string) : string :=
  TEXT_EDITOR_STORAGE_KEY +:+ "_" +:+ editorId.

(** [`${TEXT_EDITOR_SETTINGS_KEY}_${editorId}`]. *)
Definition settingsKey (editorId : string) : string :=
  TEXT_EDITOR_SETTINGS_KEY +:+ "_" +:+ editorId.

(** Modelled from the spec: [saveFeatureState] of [utils/storage], which is
    not among the sources.  "Save is fire-and-forget, synchronous from the
    caller's perspective, side-effecting the persistent store".  The call
    itself is recorded in [saves]. *)
Definition saveFeatureState (key : string) (v : StoreValue) (e : Env) : Env :=
  with_store (insert key v) (fun l => l ++ [(key, v)]) e.

(** Modelled from the spec: [loadEditorSettings] of [atoms/textEditorAtom],
    which is not among the sources.  "Load failure or absence yields
    defaults (a fixed default settings record ...)". *)
Definition loadEditorSettings (editorId : string) (e : Env) : EditorSettings :=
  match store e !! settingsKey editorId with
  | Some (VSettings s) => s
  | _ => defaultEditorSettings
  end.

(** Modelled from the spec: [loadEditorContent] of [atoms/textEditorAtom],
    which is not among the sources.  "Load failure or absence yields
    defaults (... empty string content falling back to a caller-supplied
    initial value)": the loader yields the empty string, the fallback is the
    component's. *)
Definition loadEditorContent (editorId : string) (e : Env) : string :=
  match store e !! contentKey editorId with
  | Some (VString c) => c
  | _ => ""
  end.

(** JavaScript's [a || b] on strings: the empty string is falsy. *)
Definition js_or (a b : string) : string :=
  if bool_decide (a = "") then b else a.

(** ** The component's state *)

(** The values the hooks hold between renders.  [settingsRef] is the identity
    of the settings object (effects compare dependencies with [Object.is]);
    [autoSaveCleanup] says whether the last run of the auto-save effect
    returned a cleanup function. *)
Record Hooks := mkHooks {
  content : string;
  editorSettings : EditorSettings;
  settingsRef : nat;
  statusMessage : string;
  initialLoadDone : bool;
  autoSaveTimerRef : option nat;
  autoSaveCleanup : bool
}.

(** The [useState] initial values and [useRef(null)]. *)
Definition initial_hooks : Hooks :=
  mkHooks "" defaultEditorSettings 0 "" false None false.

(** A call of one of the four state setters; [setEditorSettings] takes an
    updater. *)
Inductive StateUpdate :=
| SetContent (v : string)
| SetEditorSettings (f : EditorSettings -> EditorSettings)
| SetStatusMessage (v : string)
| SetInitialLoadDone (v : bool).

(** React applies a queued update to the state; a [setEditorSettings] call
    installs a new object. *)
Definition apply_update (h : Hooks) (u : StateUpdate) : Hooks :=
  match u with
  | SetContent v =>
      mkHooks v (editorSettings h) (settingsRef h) (statusMessage h)
        (initialLoadDone h) (autoSaveTimerRef h) (autoSaveCleanup h)
  | SetEditorSettings f =>
      mkHooks (content h) (f (editorSettings h)) (S (settingsRef h)) (statusMessage h)
        (initialLoadDone h) (autoSaveTimerRef h) (autoSaveCleanup h)
  | SetStatusMessage v =>
      mkHooks (content h) (editorSettings h) (settingsRef h) v
        (initialLoadDone h) (autoSaveTimerRef h) (autoSaveCleanup h)
  | SetInitialLoadDone v =>
      mkHooks (content h) (editorSettings h) (settingsRef h) (statusMessage h)
        v (autoSaveTimerRef h) (autoSaveCleanup h)
  end.

Definition with_autoSave (ref : option nat) (cleanup : bool) (h : Hooks) : Hooks :=
  mkHooks (content h) (editorSettings h) (settingsRef h) (statusMessage h)
    (initialLoadDone h) ref cleanup.

(** One mounted (or unmounted) instance in its browser. *)
Record State := mkState {
  props : Props;
  hooks : Hooks;
  env : Env;
  mounted : bool
}.

(** ** Effects *)

(** "Load state on mount": the three setter calls of the effect.  Whether
    the loaded settings are a new object or the default one makes no
    difference to the effects that follow: [initialLoadDone] changes in the
    same render and is a dependency of each of them. *)
Definition load_effect (p : Props) (e : Env) : list StateUpdate :=
  let savedSettings := loadEditorSettings (editorId p) e in
  let savedContent := loadEditorContent (editorId p) e in
  [ SetEditorSettings (fun _ => savedSettings);
    SetContent (js_or savedContent (initialContent p));
    SetInitialLoadDone true ].

(** "Save content effect". *)
Definition save_content_effect (p : Props) (h : Hooks) (e : Env) : Env :=
  if initialLoadDone h
  then saveFeatureState (contentKey (editorId p)) (VString (content h)) e
  else e.

(** "Save settings effect". *)
Definition save_settings_effect (p : Props) (h : Hooks) (e : Env) : Env :=
  if initialLoadDone h
  then saveFeatureState (settingsKey (editorId p)) (VSettings (editorSettings h)) e
  else e.

(** [if (autoSaveTimerRef.current) clearInterval(autoSaveTimerRef.current)]:
    [null] and the id 0 are falsy. *)
Definition clear_autoSaveTimer (h : Hooks) (e : Env) : Env :=
  match autoSaveTimerRef h with
  | Some id => if bool_decide (id = 0%nat) then e else clearInterval id e
  | None => e
  end.

(** [showStatusMessage]: one setter call and one timeout that nothing
    keeps the id of. *)
Definition showStatusMessage (message : string) (e : Env) : list StateUpdate * Env :=
  ([SetStatusMessage message], snd (setTimeout ClearStatus 2000 e)).

(** "Auto-save effect": the body. *)
Definition auto_save_effect (h : Hooks) (e : Env) : Hooks * Env :=
  if negb (initialLoadDone h) || bool_decide (autoSaveInterval (editorSettings h) <= 0)
  then (with_autoSave (autoSaveTimerRef h) false h, clear_autoSaveTimer h e)
  else
    let e1 := clear_autoSaveTimer h e in
    let '(id, e2) := setInterval AutoSaved (autoSaveInterval (editorSettings h) * 1000) e1 in
    (with_autoSave (Some id) true h, e2).

(** "Auto-save effect": the cleanup the body returned, if it returned one. *)
Definition auto_save_cleanup (h : Hooks) (e : Env) : Env :=
  if autoSaveCleanup h then clear_autoSaveTimer h e else e.

(** A render with state [next] after one with state [prev]: the effects whose
    dependency array changed run again, cleanups first, bodies in source
    order.  The props of an instance do not change, so [editorId] and the
    stable [showStatusMessage] never differ.
    - save content: [[content, editorId, initialLoadDone]]
    - save settings: [[editorSettings, editorId, initialLoadDone]]
    - auto-save: [[editorSettings.autoSaveInterval, editorId,
      showStatusMessage, initialLoadDone]] *)
Definition commit (p : Props) (prev next : Hooks) (e : Env) : Hooks * Env :=
  let loaded := negb (bool_decide (initialLoadDone prev = initialLoadDone next)) in
  let content_deps := negb (bool_decide (content prev = content next)) || loaded in
  let settings_deps := negb (bool_decide (settingsRef prev = settingsRef next)) || loaded in
  let autosave_deps :=
    negb (bool_decide (autoSaveInterval (editorSettings prev)
                       = autoSaveInterval (editorSettings next))) || loaded in
  let e1 := if autosave_deps then auto_save_cleanup next e else e in
  let e2 := if content_deps then save_content_effect p next e1 else e1 in
  let e3 := if settings_deps then save_settings_effect p next e2 else e2 in
  if autosave_deps then auto_save_effect next e3 else (next, e3).

(** React processes the updates a handler queued, in order, and renders;
    setters of an unmounted instance do nothing. *)
Definition flush (s : State) (r : list StateUpdate * Env) : State :=
  if mounted s then
    let '(h, e) := commit (props s) (hooks s) (foldl apply_update (hooks s) (fst r)) (snd r) in
    mkState (props s) h e true
  else mkState (props s) (hooks s) (snd r) false.

(** The effects of the first render, which see [initial_hooks]: the load
    effect queues its updates, the two save effects and the auto-save effect
    run under [initialLoadDone = false]. *)
Definition mount_effects (p : Props) (e : Env) : Hooks * (list StateUpdate * Env) :=
  let q := load_effect p e in
  let e1 := save_content_effect p initial_hooks e in
  let e2 := save_settings_effect p initial_hooks e1 in
  let '(h, e3) := auto_save_effect initial_hooks e2 in
  (h, (q, e3)).

(** Mounting: first render, its effects, then the render the load effect's
    updates cause (the [Uninitialized -> Loaded] transition). *)
Definition mount (p : Props) (e : Env) : State :=
  let '(h, r) := mount_effects p e in
  flush (mkState p h (snd r) true) r.

(** Unmounting runs the cleanups. *)
Definition unmount (s : State) : State :=
  mkState (props s) (hooks s) (auto_save_cleanup (hooks s) (env s)) false.

(** ** Handlers *)

(** [handleSaveToFile]: the anchor is appended to the body, clicked and
    removed again, and the object URL revoked, so that of the document only
    the download remains. *)
Definition handleSaveToFile (p : Props) (h : Hooks) (e : Env) : list StateUpdate * Env :=
  let blob := mkBlob [content h] "text/plain" in
  let a := mkDownload blob (editorId p +:+ "_note.txt") in
  showStatusMessage "Content saved to file" (with_downloads (downloads e ++ [a]) e).

(** [handleCopyToClipboard], up to the [await].  Where [navigator.clipboard]
    is defined, [writeText] returns a promise and the handler suspends: the
    write is pending.  Where it is [undefined], evaluating
    [navigator.clipboard.writeText] throws before anything is awaited, and
    the [catch] block runs within the call. *)
Definition handleCopyToClipboard (h : Hooks) (e : Env) : list StateUpdate * Env :=
  if clipboardApi
  then ([], with_clipboard (clipboard e) (pendingWrites e ++ [content h]) e)
  else showStatusMessage "Failed to copy content!"
         (with_consoleErrors (consoleErrors e ++ ["Failed to copy text: "]) e).

(** [handleCopyToClipboard], after the [await]: the oldest pending write
    resolved ([ok]) or rejected. *)
Definition clipboard_settled (ok : bool) (e : Env) : option (list StateUpdate * Env) :=
  match pendingWrites e with
  | [] => None
  | text :: rest =>
      if ok
      then Some (showStatusMessage "Content copied to clipboard!"
                   (with_clipboard text rest e))
      else Some (showStatusMessage "Failed to copy content!"
                   (with_consoleErrors (consoleErrors e ++ ["Failed to copy text: "])
                      (with_clipboard (clipboard e) rest e)))
  end.

(** [handleClearText]; [confirmed] is what [window.confirm] returned. *)
Definition handleClearText (confirmed : bool) (e : Env) : list StateUpdate * Env :=
  if confirmed
  then let '(q, e') := showStatusMessage "All text cleared" e in (SetContent "" :: q, e')
  else ([], e).

(** [updateSetting]. *)
Definition updateSetting (k : SettingKey) (v : field_type k) : list StateUpdate :=
  [SetEditorSettings (set_field k v)].

(** The text-style toggle group's [onValueChange]: three [updateSetting]
    calls in one handler. *)
Definition textStylesChanged (values : list string) : list StateUpdate :=
  updateSetting K_isBold (bool_decide ("bold" ∈ values))
  ++ updateSetting K_isItalic (bool_decide ("italic" ∈ values))
  ++ updateSetting K_isUnderline (bool_decide ("underline" ∈ values)).

Record KeyboardEvent := mkKeyboardEvent {
  ctrlKey : bool;
  key : string;
  defaultPrevented : bool
}.

Definition preventDefault (ev : KeyboardEvent) : KeyboardEvent :=
  mkKeyboardEvent (ctrlKey ev) (key ev) true.

(** [handleKeyDown].  [selection] is [None] when [window.getSelection()] is
    [null] and otherwise the selection's [toString()]; the optional chain
    then yields [undefined], which is not [=== ""]. *)
Definition handleKeyDown (ev : KeyboardEvent) (selection : option string)
    (p : Props) (h : Hooks) (e : Env) : KeyboardEvent * (list StateUpdate * Env) :=
  let '(ev1, (q1, e1)) :=
    if ctrlKey ev && bool_decide (key ev = "s")
    then (preventDefault ev, handleSaveToFile p h e)
    else (ev, ([], e)) in
  let '(ev2, (q2, e2)) :=
    if ctrlKey ev1 && bool_decide (key ev1 = "c") && bool_decide (selection = Some "")
    then (preventDefault ev1, handleCopyToClipboard h e1)
    else (ev1, ([], e1)) in
  (ev2, (q1 ++ q2, e2)).

(** A handler that shows a status message, and the render that follows
    (how every action of the component ends). *)
Definition showStatus (message : string) (s : State) : State :=
  flush s (showStatusMessage message (env s)).

(** ** Timers firing *)

Definition run_callback (cb : Callback) (e : Env) : list StateUpdate * Env :=
  match cb with
  | ClearStatus => ([SetStatusMessage ""], e)
  | AutoSaved => showStatusMessage "Auto-saved" e
  end.

(** A timeout is gone once it fired; an interval is due again one period
    later. *)
Definition rearm (t : Timer) (rest : list Timer) : list Timer :=
  match period t with
  | Some d => rest ++ [mkTimer (timerId t) (due t + d) (Some d) (callback t)]
  | None => rest
  end.

(** The timer task: the callback runs, then an interval is set up again,
    so that it comes after the timers its callback has set; React renders
    afterwards.  (Neither callback clears a timer, so it makes no difference
    that the interval is off the list while its callback runs.) *)
Definition timer_task (t : Timer) (rest : list Timer) (e : Env) : list StateUpdate * Env :=
  let '(q, e1) :=
    run_callback (callback t) (with_timers (fun _ => rest) (nextTimerId e) e) in
  (q, with_timers (rearm t) (nextTimerId e1) e1).

Definition fire_timer (t : Timer) (rest : list Timer) (s : State) : State :=
  flush s (timer_task t rest (env s)).

(** ** Events *)

Inductive Event :=
| Typed (text : string)                           (* textarea onChange *)
| SettingChanged (k : SettingKey) (v : field_type k)  (* a toolbar control *)
| TextStylesChanged (values : list string)        (* the bold/italic/underline group *)
| ClickSave
| ClickCopy
| ClickClear (confirmed : bool)
| KeyDown (ev : KeyboardEvent) (selection : option string)
| ClipboardSettled (ok : bool)
| Wait (dt : Z)                                   (* time passes *)
| Fire                                            (* the next timer fires *)
| Unmount.

(** The keydown listener: the event as the handler leaves it, and the state. *)
Definition keydown (ev : KeyboardEvent) (selection : option string) (s : State)
    : KeyboardEvent * State :=
  let '(ev', r) := handleKeyDown ev selection (props s) (hooks s) (env s) in
  (ev', flush s r).

Definition set_now (t : Z) (s : State) : State :=
  mkState (props s) (hooks s) (with_now t (env s)) (mounted s).

(** One event.  The interface exists only while mounted; time may pass up to
    the next timer's due time; the timer that is due first fires once its
    time has come. *)
Definition step (ev : Event) (s : State) : option State :=
  match ev with
  | Typed text =>
      if mounted s then Some (flush s ([SetContent text], env s)) else None
  | SettingChanged k v =>
      if mounted s then Some (flush s (updateSetting k v, env s)) else None
  | TextStylesChanged values =>
      if mounted s then Some (flush s (textStylesChanged values, env s)) else None
  | ClickSave =>
      if mounted s then Some (flush s (handleSaveToFile (props s) (hooks s) (env s))) else None
  | ClickCopy =>
      if mounted s then Some (flush s (handleCopyToClipboard (hooks s) (env s))) else None
  | ClickClear confirmed =>
      if mounted s then Some (flush s (handleClearText confirmed (env s))) else None
  | KeyDown ev selection =>
      if mounted s then Some (snd (keydown ev selection s)) else None
  | ClipboardSettled ok =>
      flush s <$> clipboard_settled ok (env s)
  | Wait dt =>
      if bool_decide (0 <= dt)
         && forallb (fun t => bool_decide (now (env s) + dt <= due t)) (timers (env s))
      then Some (set_now (now (env s) + dt) s)
      else None
  | Fire =>
      match extract_next (timers (env s)) with
      | Some (t, rest) =>
          if bool_decide (due t <= now (env s)) then Some (fire_timer t rest s) else None
      | None => None
      end
  | Unmount =>
      if mounted s then Some (unmount s) else None
  end.

(** A sequence of events. *)
Fixpoint run (evs : list Event) (s : State) : option State :=
  match evs with
  | [] => Some s
  | ev :: rest =>
      match step ev s with
      | Some s' => run rest s'
      | None => None
      end
  end.

(** The states an instance mounted with props [p] goes through. *)
Inductive Reachable (p : Props) : State -> Prop :=
| reach_mount st t0 :
    Reachable p (mount p (fresh_env st t0))
| reach_step s ev s' :
    Reachable p s -> step ev s = Some s' -> Reachable p s'.

(** ** Invariants of the reachable states *)

Definition recurring_timers (e : Env) : list Timer :=
  filter recurring (timers e).

(** The handlers queue only content, settings and status updates. *)
Definition user_update (u : StateUpdate) : Prop :=
  match u with
  | SetInitialLoadDone _ => False
  | _ => True
  end.

(** The auto-save interval is armed exactly when the interval is positive:
    then it is the only recurring timer, the ref holds its id, its period is
    the interval in milliseconds and the effect has a cleanup registered. *)
Definition autosave_state (n : Z) (ref : option nat) (cleanup : bool) (e : Env) : Prop :=
  if bool_decide (0 < n)
  then exists t, recurring_timers e = [t]
         /\ ref = Some (timerId t) /\ timerId t <> 0%nat
         /\ period t = Some (timer_delay (n * 1000)) /\ callback t = AutoSaved
         /\ cleanup = true
  else recurring_timers e = [].

(** What holds of the timers of an instance: ids are never 0, no pending
    timer is overdue, and the auto-save interval is in step with the setting
    while the instance is mounted and gone afterwards. *)
Definition timers_inv (m : bool) (h : Hooks) (e : Env) : Prop :=
  nextTimerId e <> 0%nat
  /\ Forall (fun t => now e <= due t) (timers e)
  /\ if m
     then autosave_state (autoSaveInterval (editorSettings h))
            (autoSaveTimerRef h) (autoSaveCleanup h) e
     else recurring_timers e = [].

(** What a handler hands to React: updates of content, settings and status
    only, and an environment whose timers are in order. *)
Definition handler_ok (m : bool) (h : Hooks) (r : list StateUpdate * Env) : Prop :=
  Forall user_update (fst r) /\ timers_inv m h (snd r).

Record Inv (s : State) : Prop := mkInv {
  inv_loaded : initialLoadDone (hooks s) = true;
  inv_timers : timers_inv (mounted s) (hooks s) (env s)
}.

(** The store mirrors the in-memory records of the instance. *)
Definition store_mirrors (s : State) : Prop :=
  store (env s) !! contentKey (editorId (props s)) = Some (VString (content (hooks s)))
  /\ store (env s) !! settingsKey (editorId (props s))
     = Some (VSettings (editorSettings (hooks s))).

(** The calls of [saveFeatureState] a render makes when the state goes from
    [prev] to [next]: one per record that changed. *)
Definition content_write (p : Props) (prev next : Hooks) : list (string * StoreValue) :=
  if bool_decide (content prev = content next) then []
  else [(contentKey (editorId p), VString (content next))].

Definition settings_write (p : Props) (prev next : Hooks) : list (string * StoreValue) :=
  if bool_decide (settingsRef prev = settingsRef next) then []
  else [(settingsKey (editorId p), VSettings (editorSettings next))].

(** The two save effects of a render, apart from what the auto-save effect
    does to the timers. *)
Definition render_saves (p : Props) (prev next : Hooks) (e : Env) : Env :=
  let e2 := if bool_decide (content prev = content next) then e
            else save_content_effect p next e in
  if bool_decide (settingsRef prev = settingsRef next) then e2
  else save_settings_effect p next e2.

End Component.

(** ** Sessions, the status bar, downloads, the clipboard and pending timers *)

(** The store after the calls of [saveFeatureState] in [ws], oldest first. *)
Definition replay (ws : list (string * StoreValue)) (st : gmap string StoreValue)
    : gmap string StoreValue :=
  foldl (fun m kv => <[kv.1 := kv.2]> m) st ws.

(** The messages [showStatusMessage] is called with, in source order. *)
Definition shown_messages : list string :=
  [ "Auto-saved"; "Content saved to file"; "Content copied to clipboard!";
    "Failed to copy content!"; "All text cleared" ].

(** An update that leaves the status message among the component's own. *)
Definition status_update_ok (u : StateUpdate) : Prop :=
  match u with
  | SetStatusMessage m => m = "" \/ m ∈ shown_messages
  | _ => True
  end.

(** The status bar: [{statusMessage || "Ready"}]. *)
Definition statusBarText (h : Hooks) : string :=
  js_or (statusMessage h) "Ready".

(** A download the component makes for an instance with props [p]: a plain
    text file named after the instance. *)
Definition note_download (p : Props) (d : Download) : Prop :=
  download d = editorId p +:+ "_note.txt" /\ blobType (href d) = "text/plain".

(** The events that start a clipboard write or settle one: a click on Copy,
    Ctrl+C with an empty selection, and the settling itself. *)
Definition clipboard_event (ev : Event) : bool :=
  match ev with
  | ClickCopy | ClipboardSettled _ => true
  | KeyDown k selection =>
      ctrlKey k && bool_decide (key k = "c") && bool_decide (selection = Some "")
  | _ => false
  end.

(** Timer ids are issued in increasing order, the ref holds an id that was
    issued, and it is never the id of a timeout. *)
Definition ids_inv (h : Hooks) (e : Env) : Prop :=
  Forall (fun t => (timerId t < nextTimerId e)%nat
                   /\ (period t = None -> autoSaveTimerRef h <> Some (timerId t)))
    (timers e)
  /\ forall id, autoSaveTimerRef h = Some id -> (id < nextTimerId e)%nat.

(** A clear of the status message that is pending and due within two
    seconds. *)
Definition clear_due (e : Env) (t : Timer) : Prop :=
  callback t = ClearStatus /\ period t = None /\ due t <= now e + 2000.

(** A message that is shown has its clear pending. *)
Definition clear_pending (h : Hooks) (e : Env) : Prop :=
  statusMessage h <> "" -> Exists (clear_due e) (timers e).

(** The timeouts of [e] are still pending in [e']. *)
Definition timeouts_kept (e e' : Env) : Prop :=
  forall t, t ∈ timers e -> period t = None -> t ∈ timers e'.

(** ** The toolbar and the text area *)

(** *** The platform's number conversions

    Strings are sequences of bytes, a character outside ASCII being its
    UTF-8 encoding. *)

(** [Number.MAX_SAFE_INTEGER]: up to it every integer is a number. *)
Definition MAX_SAFE_INTEGER : Z := 2 ^ 53 - 1.

(** [Number.prototype.toString()] of an integer-valued number, which up to
    [10 ^ 21] is printed with all its decimal digits, a minus sign first
    when it is negative. *)
Definition number_toString (n : Z) : string := pretty n.

Definition code (a : Ascii.ascii) : N := Ascii.N_of_ascii a.

(** White space and line terminators of one byte: TAB, LF, VT, FF, CR, SP. *)
Definition white_space1 (a : Ascii.ascii) : bool :=
  ((code a =? 9) || (code a =? 10) || (code a =? 11) || (code a =? 12)
   || (code a =? 13) || (code a =? 32))%N.

(** Of two bytes: U+00A0. *)
Definition white_space2 (a b : Ascii.ascii) : bool :=
  ((code a =? 194) && (code b =? 160))%N.

(** Of three bytes: U+1680, U+2000 to U+200A, U+2028, U+2029, U+202F,
    U+205F, U+3000 and U+FEFF. *)
Definition white_space3 (a b c : Ascii.ascii) : bool :=
  ((code a =? 225) && (code b =? 154) && (code c =? 128)
   || (code a =? 226) && (code b =? 128)
      && ((128 <=? code c) && (code c <=? 138)
          || (code c =? 168) || (code c =? 169) || (code c =? 175))
   || (code a =? 226) && (code b =? 129) && (code c =? 159)
   || (code a =? 227) && (code b =? 128) && (code c =? 128)
   || (code a =? 239) && (code b =? 187) && (code c =? 191))%N.

(** [TrimString(string, start)]. *)
Fixpoint trim_start (s : string) : string :=
  match s with
  | String a r1 =>
      if white_space1 a then trim_start r1
      else match r1 with
           | String b r2 =>
               if white_space2 a b then trim_start r2
               else match r2 with
                    | String c r3 =>
                        if white_space3 a b c then trim_start r3 else s
                    | EmptyString => s
                    end
           | EmptyString => s
           end
  | EmptyString => s
  end.

(** The value of a digit or letter as a digit, if it is one in radix [R]. *)
Definition radix_digit (R : Z) (a : Ascii.ascii) : option Z :=
  let c := Z.of_N (code a) in
  let d := if (48 <=? c) && (c <=? 57) then Some (c - 48)
           else if (97 <=? c) && (c <=? 122) then Some (c - 87)
           else if (65 <=? c) && (c <=? 90) then Some (c - 55)
           else None in
  match d with
  | Some d => if d <? R then Some d else None
  | None => None
  end.

(** The integer the longest prefix of radix-[R] digits stands for; [acc] is
    the value of the digits read so far, [None] as long as there is none. *)
Fixpoint parse_digits (R : Z) (s : string) (acc : option Z) : option Z :=
  match s with
  | String a rest =>
      match radix_digit R a with
      | Some d => parse_digits R rest (Some (default 0 acc * R + d))
      | None => acc
      end
  | EmptyString => acc
  end.

(** The sign [parseInt] reads, and the string after it. *)
Definition parse_sign (s : string) : Z * string :=
  match s with
  | String "-"%char r => (-1, r)
  | String "+"%char r => (1, r)
  | _ => (1, s)
  end.

(** The radix [parseInt] chooses when it is given none, and the string
    after the prefix. *)
Definition parse_radix (s : string) : Z * string :=
  match s with
  | String "0"%char (String "x"%char r)
  | String "0"%char (String "X"%char r) => (16, r)
  | _ => (10, s)
  end.

(** [parseInt(string)], no radix given: [None] is [NaN].  The result is the
    integer the digits stand for; up to [MAX_SAFE_INTEGER] that is the
    number JavaScript returns. *)
Definition parseInt (string : string) : option Z :=
  let '(sign, s1) := parse_sign (trim_start string) in
  let '(R, s2) := parse_radix s1 in
  Z.mul sign <$> parse_digits R s2 None.

(** *** The font-size select *)

Definition fontSizes : list Z := [10; 12; 14; 16; 18; 20; 24; 30; 36].

(** [value={editorSettings.fontSize.toString()}]. *)
Definition fontSizeValue (st : EditorSettings) : string :=
  number_toString (fontSize st).

(** The [value] of the items: [size.toString()]. *)
Definition fontSizeItems : list string := number_toString <$> fontSizes.

(** [onValueChange={(value) => updateSetting("fontSize", parseInt(value))}];
    the integer model of [fontSize] has no place for [NaN]. *)
Definition fontSizeChanged (value : string) : option (list StateUpdate) :=
  (fun n : Z => updateSetting K_fontSize n) <$> parseInt value.

(** *** The text-style toggle group *)

(** [[isBold ? "bold" : "", isItalic ? "italic" : "",
    isUnderline ? "underline" : ""].filter(Boolean)]: the empty string is
    falsy. *)
Definition textStylesValue (st : EditorSettings) : list string :=
  filter (fun v => v <> "")
    [ if isBold st then "bold" else "";
      if isItalic st then "italic" else "";
      if isUnderline st then "underline" else "" ].

(** *** The text-align toggle group *)

(** The strings of [EditorSettings["textAlign"]]. *)
Definition textAlignValue (a : TextAlign) : string :=
  match a with
  | AlignLeft => "left"
  | AlignCenter => "center"
  | AlignRight => "right"
  | AlignJustify => "justify"
  end.

(** [value as EditorSettings["textAlign"]]: the cast holds of the four
    strings the items carry. *)
Definition as_textAlign (value : string) : option TextAlign :=
  if bool_decide (value = "left") then Some AlignLeft
  else if bool_decide (value = "center") then Some AlignCenter
  else if bool_decide (value = "right") then Some AlignRight
  else if bool_decide (value = "justify") then Some AlignJustify
  else None.

(** [onValueChange={(value) => updateSetting("textAlign",
    value as EditorSettings["textAlign"] || "left")}]. *)
Definition textAlignChanged (value : string) : option (list StateUpdate) :=
  if bool_decide (value = "") then Some (updateSetting K_textAlign AlignLeft)
  else (fun a : TextAlign => updateSetting K_textAlign a) <$> as_textAlign value.

(** *** The text area *)

(** The [style] object of the [Textarea], and its [wrap] attribute. *)
Record TextareaStyle := mkTextareaStyle {
  style_fontFamily : string;
  style_fontSize : string;
  style_lineHeight : float;
  style_fontWeight : string;
  style_fontStyle : string;
  style_textDecoration : string;
  style_textAlign : string;
  style_color : string;
  style_backgroundColor : string;
  style_tabSize : Z
}.

Definition textareaStyle (st : EditorSettings) : TextareaStyle :=
  mkTextareaStyle
    (fontFamily st)
    (number_toString (fontSize st) +:+ "px")
    (lineHeight st)
    (if isBold st then "bold" else "normal")
    (if isItalic st then "italic" else "normal")
    (if isUnderline st then "underline" else "none")
    (textAlignValue (textAlign st))
    (textColor st)
    (backgroundColor st)
    (tabSize st).

Definition textareaWrap (st : EditorSettings) : string :=
  if wordWrap st then "soft" else "off".

(** A string that starts with a decimal digit, or is empty. *)
Definition starts_digit (s : string) : Prop :=
  exists d r, (d < 10)%N /\ s = String (pretty_N_char d) r.

Definition digit_or_end (s : string) : Prop := s = "" \/ starts_digit s.

(** ** A concrete instance *)

Definition demoSettings : EditorSettings :=
  mkEditorSettings "monospace" 14 1.5%float false false false AlignLeft
    "#000000" "#ffffff" true 2 30.

Definition demoAtom : textEditorAtom :=
  {| TEXT_EDITOR_STORAGE_KEY := "textEditorContent";
     TEXT_EDITOR_SETTINGS_KEY := "textEditorSettings";
     defaultEditorSettings := demoSettings |}.

(** The same atom with the auto-save interval switched off. *)
Definition quietAtom : textEditorAtom :=
  {| TEXT_EDITOR_STORAGE_KEY := "textEditorContent";
     TEXT_EDITOR_SETTINGS_KEY := "textEditorSettings";
     defaultEditorSettings := set_field K_autoSaveInterval 0 demoSettings |}.

(** A page in a secure context, where the Clipboard API is defined, and a
    page in an insecure one, where it is not. *)
Definition secureContext : Navigator := {| clipboardApi := true |}.

Definition insecureContext : Navigator := {| clipboardApi := false |}.

Definition demoProps : Props := default_props None None.

Definition notesProps : Props := default_props None (Some "notes").

(** A first visit: nothing stored, the clock at 0. *)
Definition demoState : State := mount (atom := demoAtom) demoProps (fresh_env ∅ 0).

Definition quietState : State := mount (atom := quietAtom) demoProps (fresh_env ∅ 0).

(** The demo instance after the user typed [hello]. *)
Definition helloState : State :=
  default demoState (step (atom := demoAtom) (nav := secureContext) (Typed "hello") demoState).

(** The instance [notes] after the user typed [hello]. *)
Definition notesHelloState : State :=
  default demoState
    (step (atom := demoAtom) (nav := secureContext) (Typed "hello")
       (mount (atom := demoAtom) notesProps (fresh_env ∅ 0))).

(** Ctrl+C, not yet handled. *)
Definition ctrlC : KeyboardEvent := mkKeyboardEvent true "c" false.

(** The demo instance after the user typed [hello] and then cleared the
    text: the store now holds the empty string as content. *)
Definition clearedState : State :=
  default demoState (run (atom := demoAtom) (nav := secureContext) [Typed "hello"; ClickClear true] demoState).

(** The next visit, by a caller that passes an initial content. *)
Definition revisitProps : Props := default_props (Some "welcome") None.

Definition revisitState : State :=
  mount (atom := demoAtom) revisitProps (fresh_env (store (env clearedState)) 5000).

(** The quiet instance after a save at 0 ms and a confirmed clear at
    1000 ms, and a second later, when the next timer has fired. *)
Definition quietSaved : State :=
  default quietState
    (run (atom := quietAtom) (nav := secureContext) [ClickSave; Wait 1000; ClickClear true] quietState).

Definition quietBlank : State :=
  default quietState (run (atom := quietAtom) (nav := secureContext) [Wait 1000; Fire] quietSaved).


(** A store that another application has written to, and the demo instance
    in that browser after the user typed [hello] and cleared the text. *)
Definition sharedStore : gmap string StoreValue :=
  {[ "todoList" := VString "milk" ]}.

Definition sharedCleared : State :=
  default demoState
    (run (atom := demoAtom) (nav := secureContext) [Typed "hello"; ClickClear true]
       (mount (atom := demoAtom) demoProps (fresh_env sharedStore 0))).

(** The demo instance unmounted while a clipboard write is pending, and two
    seconds later, when the write has settled and the timer that set has
    fired. *)
Definition unmountedState : State :=
  default demoState (run (atom := demoAtom) (nav := secureContext) [ClickCopy; Unmount] helloState).

Definition lateState : State :=
  default demoState
    (run (atom := demoAtom) (nav := secureContext) [ClipboardSettled true; Wait 2000; Fire] unmountedState).

(** The demo instance beside another application's record, after [hello]
    was typed. *)
Definition sharedHello : State :=
  default demoState
    (run (atom := demoAtom) (nav := secureContext) [Typed "hello"]
       (mount (atom := demoAtom) demoProps (fresh_env sharedStore 0))).

(** The demo instance after [hello] was typed and Save clicked. *)
Definition helloSaved : State :=
  default demoState
    (step (atom := demoAtom) (nav := secureContext) ClickSave helloState).

(** The demo instance after [hello] was typed and Copy clicked, and after
    the user has gone on to type [bye] and closed the editor while the
    write is pending. *)
Definition copyingState : State :=
  default demoState
    (step (atom := demoAtom) (nav := secureContext) ClickCopy helloState).

Definition byeState : State :=
  default demoState
    (run (atom := demoAtom) (nav := secureContext) [Typed "bye"; Unmount] copyingState).

(** The same click on a page without the Clipboard API. *)
Definition copyFailedState : State :=
  default demoState
    (step (atom := demoAtom) (nav := insecureContext) ClickCopy helloState).

(** The instance [notes] after [hello] was typed and Save clicked, and two
    seconds later, when the clear of the message has fired. *)
Definition notesSaved : State :=
  default demoState
    (step (atom := demoAtom) (nav := secureContext) ClickSave notesHelloState).

Definition notesBlank : State :=
  default demoState
    (run (atom := demoAtom) (nav := secureContext) [Wait 2000; Fire] notesSaved).









(** ** Proof automation *)

(** Adding one-shot timers does not change the recurring ones. *)
Ltac solve_recurring :=
  unfold recurring_timers, showStatusMessage; cbn;
  rewrite ?list.filter_app, ?(filter_cons_False _ (mkTimer _ _ None _)),
    ?filter_nil, ?app_nil_r by (by intros []);
  done.

(** Lists of the updates a handler queues, element by element. *)
Ltac solve_updates :=
  repeat first [apply Forall_nil_2 | apply Forall_cons_2];
  first [exact I | by left | right; unfold shown_messages; by repeat constructor].

(** The ten decimal digits, one by one. *)
Ltac digit_cases d Hd :=
  let H := fresh in
  assert (d = 0 \/ d = 1 \/ d = 2 \/ d = 3 \/ d = 4 \/ d = 5 \/ d = 6 \/ d = 7
          \/ d = 8 \/ d = 9)%N as H by lia;
  clear Hd; repeat destruct H as [->|H]; try subst d.

(** ** Properties *)

Section Properties.

Context `{atom : textEditorAtom} `{nav : Navigator}.

(** *** Settings records *)

Lemma get_set_field_eq k v s : get_field k (set_field k v s) = v.
Proof. destruct k; reflexivity. Qed.

Lemma get_set_field_ne k k' v s :
  k' <> k -> get_field k' (set_field k v s) = get_field k' s.
Proof. intros Hne. destruct k, k'; try reflexivity; congruence. Qed.

(** *** Storage keys *)

Lemma append_cons (x : Ascii.ascii) (a b : string) :
  String x a +:+ b = String x (a +:+ b).
Proof. reflexivity. Qed.

Lemma append_inj_r (a b c : string) : a +:+ b = a +:+ c -> b = c.
Proof.
  induction a as [|x a IH]; [done|].
  rewrite !append_cons. intros [= H]. auto.
Qed.

Lemma append_length (a b : string) :
  String.length (a +:+ b) = (String.length a + String.length b)%nat.
Proof.
  induction a as [|x a IH]; [done|].
  rewrite append_cons. cbn [String.length]. by rewrite IH.
Qed.

Lemma append_inj_l (a b c : string) : a +:+ c = b +:+ c -> a = b.
Proof.
  revert b. induction a as [|x a IH]; intros [|y b]; try done.
  - intros H. apply (f_equal String.length) in H.
    rewrite !append_length in H. cbn in H. lia.
  - intros H. apply (f_equal String.length) in H.
    rewrite !append_length in H. cbn in H. lia.
  - rewrite !append_cons. intros [= -> H]. f_equal. auto.
Qed.

Lemma contentKey_inj a b : contentKey a = contentKey b -> a = b.
Proof. unfold contentKey. intros H. by do 2 apply append_inj_r in H. Qed.

Lemma settingsKey_inj a b : settingsKey a = settingsKey b -> a = b.
Proof. unfold settingsKey. intros H. by do 2 apply append_inj_r in H. Qed.

Lemma keys_distinct id :
  TEXT_EDITOR_STORAGE_KEY <> TEXT_EDITOR_SETTINGS_KEY ->
  contentKey id <> settingsKey id.
Proof.
  intros Hne H. apply Hne. unfold contentKey, settingsKey in H.
  by apply append_inj_l in H.
Qed.

(** *** Timers *)

Lemma timer_delay_nonneg d : 0 <= timer_delay d.
Proof. unfold timer_delay. lia. Qed.


Lemma timer_delay_2000 : timer_delay 2000 = 2000.
Proof. reflexivity. Qed.

(** The delay of a status clear is within range. *)
Ltac norm_delay := change (timer_delay 2000) with 2000 in *.

Lemma Forall_filter_timers (P Q : Timer -> Prop) `{!forall t, Decision (Q t)}
    (ts : list Timer) :
  Forall P ts -> Forall P (filter Q ts).
Proof.
  induction 1 as [|t ts Ht Hts IH]; [constructor|].
  rewrite filter_cons. case_decide; [constructor|]; done.
Qed.

Lemma filter_comm_timers (P Q : Timer -> Prop)
    `{!forall t, Decision (P t)} `{!forall t, Decision (Q t)} (ts : list Timer) :
  filter P (filter Q ts) = filter Q (filter P ts).
Proof.
  induction ts as [|t ts IH]; [done|].
  rewrite !filter_cons.
  destruct (decide (Q t)), (decide (P t)); rewrite ?filter_cons;
    repeat case_decide; try done; by rewrite IH.
Qed.

Lemma recurring_timers_clearInterval id e :
  recurring_timers (clearInterval id e)
  = filter (fun t => timerId t <> id) (recurring_timers e).
Proof. unfold recurring_timers. cbn. apply filter_comm_timers. Qed.

Lemma with_timers_id e : with_timers (fun l => l) (nextTimerId e) e = e.
Proof. by destruct e. Qed.

Lemma clear_autoSaveTimer_frame h e :
  exists f, clear_autoSaveTimer h e = with_timers f (nextTimerId e) e.
Proof.
  unfold clear_autoSaveTimer.
  destruct (autoSaveTimerRef h) as [id|]; [case_bool_decide|];
    try (exists (fun l => l); by rewrite with_timers_id).
  by eexists.
Qed.

Lemma auto_save_cleanup_frame h e :
  exists f, auto_save_cleanup h e = with_timers f (nextTimerId e) e.
Proof.
  unfold auto_save_cleanup. destruct (autoSaveCleanup h).
  - apply clear_autoSaveTimer_frame.
  - exists (fun l => l). by rewrite with_timers_id.
Qed.

Lemma auto_save_effect_frame h e :
  exists r c f n, auto_save_effect h e = (with_autoSave r c h, with_timers f n e).
Proof.
  unfold auto_save_effect.
  destruct (clear_autoSaveTimer_frame h e) as [f ->].
  destruct (_ || _).
  - by exists (autoSaveTimerRef h), false, f, (nextTimerId e).
  - by exists (Some (nextTimerId e)), true,
      (fun l => f l ++ [mkTimer (nextTimerId e)
                          (now e + timer_delay (autoSaveInterval (editorSettings h) * 1000))
                          (Some (timer_delay (autoSaveInterval (editorSettings h) * 1000))) AutoSaved]),
      (S (nextTimerId e)).
Qed.

Lemma recurring_clear_nil h e :
  recurring_timers e = [] -> recurring_timers (clear_autoSaveTimer h e) = [].
Proof.
  intros H. unfold clear_autoSaveTimer.
  destruct (autoSaveTimerRef h) as [id|]; [case_bool_decide|]; try done.
  by rewrite recurring_timers_clearInterval, H.
Qed.

Lemma recurring_clear_armed h e t :
  recurring_timers e = [t] -> autoSaveTimerRef h = Some (timerId t) ->
  timerId t <> 0%nat ->
  recurring_timers (clear_autoSaveTimer h e) = [].
Proof.
  intros H Href Hid. unfold clear_autoSaveTimer. rewrite Href.
  rewrite bool_decide_false by done.
  rewrite recurring_timers_clearInterval, H.
  by rewrite filter_cons_False by (intros ?; done).
Qed.

Lemma cleanup_clears h e n :
  autosave_state n (autoSaveTimerRef h) (autoSaveCleanup h) e ->
  recurring_timers (auto_save_cleanup h e) = [].
Proof.
  unfold autosave_state, auto_save_cleanup. case_bool_decide.
  - intros (t & Ht & Href & Hid & _ & _ & ->). eauto using recurring_clear_armed.
  - intros Hr. destruct (autoSaveCleanup h); [|done]. by apply recurring_clear_nil.
Qed.

Lemma due_clear h e :
  Forall (fun t => now e <= due t) (timers e) ->
  Forall (fun t => now (clear_autoSaveTimer h e) <= due t)
    (timers (clear_autoSaveTimer h e)).
Proof.
  intros H. unfold clear_autoSaveTimer.
  destruct (autoSaveTimerRef h) as [id|]; [case_bool_decide|]; try done.
  cbn. by apply Forall_filter_timers.
Qed.

Lemma due_cleanup h e :
  Forall (fun t => now e <= due t) (timers e) ->
  Forall (fun t => now (auto_save_cleanup h e) <= due t)
    (timers (auto_save_cleanup h e)).
Proof.
  intros H. unfold auto_save_cleanup.
  destruct (autoSaveCleanup h); [|done]. by apply due_clear.
Qed.

Lemma nextTimerId_clear h e :
  nextTimerId (clear_autoSaveTimer h e) = nextTimerId e.
Proof. destruct (clear_autoSaveTimer_frame h e) as [f ->]. done. Qed.

Lemma now_clear h e : now (clear_autoSaveTimer h e) = now e.
Proof. destruct (clear_autoSaveTimer_frame h e) as [f ->]. done. Qed.

(** The body of the auto-save effect, run when no interval is pending,
    leaves the interval armed exactly when the setting asks for it. *)
Lemma effect_arms h e h' e' :
  initialLoadDone h = true -> recurring_timers e = [] -> nextTimerId e <> 0%nat ->
  Forall (fun t => now e <= due t) (timers e) ->
  auto_save_effect h e = (h', e') ->
  autosave_state (autoSaveInterval (editorSettings h'))
    (autoSaveTimerRef h') (autoSaveCleanup h') e'
  /\ nextTimerId e' <> 0%nat
  /\ Forall (fun t => now e' <= due t) (timers e').
Proof.
  intros Hl Hrec Hnext Hdue. unfold auto_save_effect, autosave_state.
  rewrite Hl. cbn [negb orb].
  pose proof (recurring_clear_nil h e Hrec) as Hc.
  pose proof (due_clear h e Hdue) as Hd.
  pose proof (nextTimerId_clear h e) as Hn.
  pose proof (now_clear h e) as Hnow.
  destruct (bool_decide_reflect (autoSaveInterval (editorSettings h) <= 0)) as [Hle|Hle];
    cbn; intros [= <- <-]; cbn.
  - rewrite bool_decide_false by lia. by rewrite Hn.
  - rewrite bool_decide_true by lia. split_and!; [|done|].
    + eexists. unfold recurring_timers in *. cbn.
      rewrite list.filter_app, Hc.
      rewrite filter_cons_True by (by eexists). rewrite filter_nil.
      split_and!; try done. cbn. by rewrite Hn.
    + apply Forall_app. split; [done|]. repeat constructor. cbn.
      pose proof (timer_delay_nonneg (autoSaveInterval (editorSettings h) * 1000)). lia.
Qed.

(** *** Renders *)

Lemma with_store_id e : with_store (fun st => st) (fun l => l) e = e.
Proof. by destruct e. Qed.

Lemma save_content_effect_frame p h e :
  exists F G, save_content_effect p h e = with_store F G e.
Proof.
  unfold save_content_effect. destruct (initialLoadDone h).
  - by repeat eexists.
  - exists (fun st => st), (fun l => l). by rewrite with_store_id.
Qed.

Lemma save_settings_effect_frame p h e :
  exists F G, save_settings_effect p h e = with_store F G e.
Proof.
  unfold save_settings_effect. destruct (initialLoadDone h).
  - by repeat eexists.
  - exists (fun st => st), (fun l => l). by rewrite with_store_id.
Qed.

Lemma foldl_apply_update_ref h q :
  autoSaveTimerRef (foldl apply_update h q) = autoSaveTimerRef h
  /\ autoSaveCleanup (foldl apply_update h q) = autoSaveCleanup h.
Proof.
  revert h. induction q as [|u q IH]; intros h; [done|].
  cbn [foldl]. destruct (IH (apply_update h u)) as [-> ->]. by destruct u.
Qed.

Lemma foldl_apply_update_loaded h q :
  Forall user_update q ->
  initialLoadDone (foldl apply_update h q) = initialLoadDone h.
Proof.
  intros Hq. revert h. induction Hq as [|u q Hu Hq IH]; intros h; [done|].
  cbn [foldl]. rewrite IH. by destruct u.
Qed.

(** A render after the instance is loaded keeps the auto-save interval in
    step with the setting. *)
Lemma commit_inv p prev next e h' e' :
  initialLoadDone prev = true -> initialLoadDone next = true ->
  autoSaveTimerRef next = autoSaveTimerRef prev ->
  autoSaveCleanup next = autoSaveCleanup prev ->
  autosave_state (autoSaveInterval (editorSettings prev))
    (autoSaveTimerRef prev) (autoSaveCleanup prev) e ->
  nextTimerId e <> 0%nat ->
  Forall (fun t => now e <= due t) (timers e) ->
  commit p prev next e = (h', e') ->
  initialLoadDone h' = true
  /\ autosave_state (autoSaveInterval (editorSettings h'))
       (autoSaveTimerRef h') (autoSaveCleanup h') e'
  /\ nextTimerId e' <> 0%nat
  /\ Forall (fun t => now e' <= due t) (timers e').
Proof.
  intros Hp Hn Href Hcl Hauto Hnext Hdue. unfold commit.
  rewrite Hp, Hn. rewrite (bool_decide_true (true = true)) by done.
  cbn [negb]. rewrite !orb_false_r.
  set (e1 := if negb _ then auto_save_cleanup next e else e).
  set (e2 := if negb _ then save_content_effect p next e1 else e1).
  set (e3 := if negb _ then save_settings_effect p next e2 else e2).
  assert (exists F G, e3 = with_store F G e1) as (F & G & He3).
  { subst e3 e2.
    destruct (save_content_effect_frame p next e1) as (F1 & G1 & ->).
    destruct (save_settings_effect_frame p next (with_store F1 G1 e1)) as (F2 & G2 & E2).
    destruct (save_settings_effect_frame p next e1) as (F3 & G3 & E3).
    do 2 case_bool_decide; cbn [negb]; rewrite ?E2, ?E3.
    - exists (fun st => st), (fun l => l). by rewrite with_store_id.
    - by exists F1, G1.
    - by exists F3, G3.
    - by exists (fun st => F2 (F1 st)), (fun l => G2 (G1 l)). }
  clearbody e3. subst e3 e1. clear e2.
  case_bool_decide as Hint; cbn [negb].
  - intros [= <- <-]. rewrite Href, Hcl, <- Hint. by split_and!.
  - intros Heff.
    assert (initialLoadDone h' = true) as Hl'.
    { destruct (auto_save_effect_frame next (with_store F G (auto_save_cleanup next e)))
        as (r & c & f & n & E). rewrite E in Heff. by simplify_eq. }
    assert (recurring_timers (with_store F G (auto_save_cleanup next e)) = []) as Hrec.
    { unfold recurring_timers. cbn. eapply cleanup_clears. by rewrite Href, Hcl. }
    assert (nextTimerId (with_store F G (auto_save_cleanup next e)) <> 0%nat) as Hnx.
    { cbn. by destruct (auto_save_cleanup_frame next e) as [f ->]. }
    assert (Forall (fun t => now (with_store F G (auto_save_cleanup next e)) <= due t)
              (timers (with_store F G (auto_save_cleanup next e)))) as Hd.
    { cbn. by apply due_cleanup. }
    by destruct (effect_arms _ _ _ _ Hn Hrec Hnx Hd Heff) as (? & ? & ?).
Qed.

Lemma commit_frame p prev next e :
  initialLoadDone prev = initialLoadDone next ->
  exists r c f n,
    commit p prev next e
    = (with_autoSave r c next, with_timers f n (render_saves p prev next e)).
Proof.
  intros Hl. unfold commit, render_saves. rewrite Hl.
  rewrite (bool_decide_true (initialLoadDone next = initialLoadDone next)) by done.
  cbn [negb]. rewrite !orb_false_r.
  destruct (auto_save_cleanup_frame next e) as [f1 E1]. rewrite E1.
  assert (forall f n, save_content_effect p next (with_timers f n e)
                      = with_timers f n (save_content_effect p next e)) as Hc.
  { intros. unfold save_content_effect. destruct (initialLoadDone next); reflexivity. }
  assert (forall f n e, save_settings_effect p next (with_timers f n e)
                        = with_timers f n (save_settings_effect p next e)) as Hs.
  { intros. unfold save_settings_effect. destruct (initialLoadDone next); reflexivity. }
  assert (with_autoSave (autoSaveTimerRef next) (autoSaveCleanup next) next = next) as Hid.
  { by destruct next. }
  case_bool_decide as Hint; cbn [negb].
  - exists (autoSaveTimerRef next), (autoSaveCleanup next), (fun l => l), (nextTimerId e).
    rewrite Hid. do 2 case_bool_decide; cbn [negb]; f_equal;
      (destruct (save_content_effect_frame p next e) as (F1 & G1 & ->) ||
       destruct (save_settings_effect_frame p next e) as (F1 & G1 & ->) ||
       idtac); try by destruct e.
    destruct (save_settings_effect_frame p next (with_store F1 G1 e)) as (F2 & G2 & ->).
    by destruct e.
  - set (e3 := if negb _ then _ else _).
    assert (e3 = with_timers f1 (nextTimerId e)
                   (if bool_decide (settingsRef prev = settingsRef next)
                    then if bool_decide (content prev = content next) then e
                         else save_content_effect p next e
                    else save_settings_effect p next
                           (if bool_decide (content prev = content next) then e
                            else save_content_effect p next e))) as ->.
    { subst e3. do 2 case_bool_decide; cbn [negb]; by rewrite ?Hc, ?Hs. }
    match goal with |- context [auto_save_effect next ?x] =>
      destruct (auto_save_effect_frame next x) as (r & c & f & n & ->) end.
    by exists r, c, (fun l => f (f1 l)), n.
Qed.

Lemma saves_render_saves p prev next e :
  initialLoadDone next = true ->
  saves (render_saves p prev next e)
  = saves e ++ content_write p prev next ++ settings_write p prev next.
Proof.
  intros Hl. unfold render_saves, content_write, settings_write,
    save_content_effect, save_settings_effect. rewrite Hl.
  do 2 case_bool_decide; cbn; by rewrite ?app_nil_r, <- ?app_assoc.
Qed.

Lemma flush_frame s q e :
  mounted s = true -> Forall user_update q ->
  exists r c f n,
    flush s (q, e)
    = mkState (props s)
        (with_autoSave r c (foldl apply_update (hooks s) q))
        (with_timers f n
           (render_saves (props s) (hooks s) (foldl apply_update (hooks s) q) e))
        true.
Proof.
  intros Hm Hq. unfold flush. rewrite Hm. cbn [fst snd].
  destruct (commit_frame (props s) (hooks s) (foldl apply_update (hooks s) q) e)
    as (r & c & f & n & ->).
  { by rewrite foldl_apply_update_loaded. }
  by exists r, c, f, n.
Qed.

(** *** The invariant *)

Lemma timers_inv_showStatusMessage m h e message :
  timers_inv m h e -> timers_inv m h (snd (showStatusMessage message e)).
Proof.
  intros (Hn & Hd & Ha). unfold timers_inv, autosave_state, recurring_timers in *.
  cbn. rewrite list.filter_app.
  rewrite (filter_cons_False _ (mkTimer _ _ None _)) by (by intros []).
  rewrite filter_nil, app_nil_r. split_and!; [done| |done].
  apply Forall_app. split; [done|]. repeat constructor. cbn.
  rewrite timer_delay_2000. lia.
Qed.

Lemma flush_inv s q e :
  initialLoadDone (hooks s) = true -> Forall user_update q ->
  timers_inv (mounted s) (hooks s) e ->
  Inv (flush s (q, e)).
Proof.
  intros Hl Hq (Hn & Hd & Ha). unfold flush. destruct (mounted s) eqn:Hm.
  - cbn [fst snd].
    destruct (commit _ _ _ _) as [h' e'] eqn:E.
    destruct (foldl_apply_update_ref (hooks s) q) as [Href Hcl].
    apply commit_inv in E as (? & ? & ? & ?); try done.
    + by rewrite foldl_apply_update_loaded.
  - by constructor; cbn; rewrite ?Hm.
Qed.

Lemma extract_next_None ts : extract_next ts = None -> ts = [].
Proof.
  destruct ts as [|t ts]; [done|]. cbn.
  destruct (extract_next ts) as [[m r]|]; [case_match|]; done.
Qed.

Lemma extract_next_split ts t rest :
  extract_next ts = Some (t, rest) ->
  exists l1 l2, ts = l1 ++ t :: l2 /\ rest = l1 ++ l2.
Proof.
  revert t rest. induction ts as [|a ts IH]; intros t rest; [done|]. cbn.
  destruct (extract_next ts) as [[m r]|] eqn:E.
  - case_match; intros [= <- <-].
    + by exists [], ts.
    + destruct (IH _ _ eq_refl) as (l1 & l2 & -> & ->). by exists (a :: l1), l2.
  - intros [= <- <-]. apply extract_next_None in E as ->. by exists [], [].
Qed.

Lemma recurring_rearm ts t rest :
  extract_next ts = Some (t, rest) ->
  match period t with
  | Some d =>
      exists F1 F2, filter recurring ts = F1 ++ t :: F2
        /\ filter recurring (rearm t rest)
           = F1 ++ F2 ++ [mkTimer (timerId t) (due t + d) (Some d) (callback t)]
  | None => filter recurring (rearm t rest) = filter recurring ts
  end.
Proof.
  intros Hx. apply extract_next_split in Hx as (l1 & l2 & -> & ->).
  unfold rearm. destruct (period t) as [d|] eqn:Hp.
  - exists (filter recurring l1), (filter recurring l2).
    rewrite !list.filter_app.
    rewrite (filter_cons_True _ t) by (unfold recurring; rewrite Hp; by eexists).
    rewrite (filter_cons_True _ (mkTimer _ _ _ _)) by (by eexists).
    by rewrite filter_nil, <- app_assoc.
  - rewrite !list.filter_app.
    by rewrite (filter_cons_False _ t) by (unfold recurring; rewrite Hp; by intros []).
Qed.

Lemma recurring_rearm_snoc t rest c :
  period c = None ->
  filter recurring (rearm t (rest ++ [c])) = filter recurring (rearm t rest).
Proof.
  intros Hc. unfold rearm.
  assert (filter recurring (rest ++ [c]) = filter recurring rest) as H.
  { rewrite list.filter_app, filter_cons_False, filter_nil, app_nil_r; [done|].
    unfold recurring. rewrite Hc. by intros []. }
  destruct (period t); [|done].
  rewrite (list.filter_app recurring (rest ++ [c])), H. by rewrite list.filter_app.
Qed.

(** What the timer task hands to React, spelled out. *)
Lemma timer_task_eq t rest e :
  timer_task t rest e
  = match callback t with
    | ClearStatus =>
        ([SetStatusMessage ""], with_timers (fun _ => rearm t rest) (nextTimerId e) e)
    | AutoSaved =>
        ([SetStatusMessage "Auto-saved"],
         with_timers
           (fun _ => rearm t (rest ++ [mkTimer (nextTimerId e) (now e + 2000) None
                                         ClearStatus]))
           (S (nextTimerId e)) e)
    end.
Proof. unfold timer_task. by destruct (callback t). Qed.

Lemma timers_inv_rearm m h e t rest :
  timers_inv m h e -> extract_next (timers e) = Some (t, rest) ->
  timers_inv m h (with_timers (fun _ => rearm t rest) (nextTimerId e) e).
Proof.
  intros (Hn & Hd & Ha) Hx.
  pose proof (recurring_rearm _ _ _ Hx) as Hr.
  apply extract_next_split in Hx as (l1 & l2 & Hts & ->).
  rewrite Hts in Hd. apply Forall_app in Hd as [Hd1 Hd2].
  apply Forall_cons_1 in Hd2 as [Hdt Hd2].
  assert (Forall (fun x => now e <= due x) (l1 ++ l2)) as Hd12
    by (apply Forall_app; by split).
  unfold timers_inv, autosave_state, recurring_timers in *. cbn.
  destruct (period t) as [d|] eqn:Hp.
  - destruct Hr as (F1 & F2 & HR & HR'). rewrite HR in Ha. rewrite HR'.
    assert (m = true /\ 0 < autoSaveInterval (editorSettings h)) as [-> Hpos].
    { destruct m; [case_bool_decide|]; try done; by destruct F1. }
    rewrite bool_decide_true in * by done.
    destruct Ha as (r & Hr & Href & Hid & Hpr & Hcb & Hcl).
    assert (F1 = [] /\ F2 = [] /\ t = r) as (-> & -> & ->).
    { destruct F1 as [|x F1]; cbn in Hr; [|by destruct F1].
      by injection Hr as -> <-. }
    assert (d = timer_delay (autoSaveInterval (editorSettings h) * 1000)) as -> by congruence.
    pose proof (timer_delay_nonneg (autoSaveInterval (editorSettings h) * 1000)).
    split_and!; [done| |].
    + unfold rearm. rewrite Hp. apply Forall_app. split; [done|].
      repeat constructor. cbn. lia.
    + eexists. by split_and!.
  - rewrite Hr. split_and!; [done| |done].
    unfold rearm. by rewrite Hp.
Qed.

Lemma timer_task_ok m h e t rest :
  timers_inv m h e -> extract_next (timers e) = Some (t, rest) ->
  handler_ok m h (timer_task t rest e).
Proof.
  intros Ht Hx. pose proof (timers_inv_rearm m h e t rest Ht Hx) as (Hn & Hd & Ha).
  rewrite timer_task_eq. destruct (callback t); (split; [by repeat constructor|]).
  - by split_and!.
  - cbn [snd]. unfold timers_inv, autosave_state, recurring_timers in *.
    cbn in *. rewrite recurring_rearm_snoc by done. split_and!; [done| |done].
    revert Hd. unfold rearm. destruct (period t).
    + rewrite !Forall_app. intros [H1 H2]. split_and!; try done.
      repeat constructor. cbn. lia.
    + intros H1. apply Forall_app. split; [done|]. repeat constructor. cbn. lia.
Qed.

Lemma flush_ok s r :
  initialLoadDone (hooks s) = true -> handler_ok (mounted s) (hooks s) r ->
  Inv (flush s r).
Proof. destruct r as [q e]. intros Hl [Hq Ht]. by apply flush_inv. Qed.

Lemma showStatusMessage_ok m h e message :
  timers_inv m h e -> handler_ok m h (showStatusMessage message e).
Proof.
  intros Ht. split; [by repeat constructor|].
  by apply timers_inv_showStatusMessage.
Qed.

Lemma handleSaveToFile_ok m h p h0 e :
  timers_inv m h e -> handler_ok m h (handleSaveToFile p h0 e).
Proof. intros Ht. unfold handleSaveToFile. by apply showStatusMessage_ok. Qed.

Lemma handleCopyToClipboard_ok m h h0 e :
  timers_inv m h e -> handler_ok m h (handleCopyToClipboard h0 e).
Proof.
  intros Ht. unfold handleCopyToClipboard. destruct clipboardApi.
  - split; [constructor|exact Ht].
  - apply showStatusMessage_ok. exact Ht.
Qed.

Lemma handleClearText_ok m h confirmed e :
  timers_inv m h e -> handler_ok m h (handleClearText confirmed e).
Proof.
  intros Ht. unfold handleClearText. destruct confirmed.
  - destruct (showStatusMessage_ok m h e "All text cleared" Ht) as [Hq He].
    split; [by repeat constructor|exact He].
  - split; [constructor|exact Ht].
Qed.

Lemma clipboard_settled_ok m h ok e r :
  timers_inv m h e -> clipboard_settled ok e = Some r -> handler_ok m h r.
Proof.
  intros Ht. unfold clipboard_settled.
  destruct (pendingWrites e) as [|text rest]; [done|].
  destruct ok; intros [= <-]; by apply showStatusMessage_ok.
Qed.

Lemma handleKeyDown_ok m h ev selection p h0 e :
  timers_inv m h e -> handler_ok m h (snd (handleKeyDown ev selection p h0 e)).
Proof.
  intros Ht. unfold handleKeyDown.
  destruct (ctrlKey ev && bool_decide (key ev = "s")).
  - destruct (handleSaveToFile_ok m h p h0 e Ht) as [Hq He].
    destruct (handleSaveToFile p h0 e) as [q1 e1]. cbn [fst snd] in *.
    destruct (_ && _).
    + destruct (handleCopyToClipboard_ok m h h0 e1 He) as [Hq2 He2].
      destruct (handleCopyToClipboard h0 e1) as [q2 e2]. cbn [fst snd] in *.
      split; [by apply Forall_app|exact He2].
    + cbn [fst snd]. split; [by rewrite app_nil_r|exact He].
  - destruct (_ && _).
    + destruct (handleCopyToClipboard_ok m h h0 e Ht) as [Hq2 He2].
      destruct (handleCopyToClipboard h0 e) as [q2 e2]. cbn [fst snd] in *.
      split; [done|exact He2].
    + split; [constructor|exact Ht].
Qed.

Lemma run_callback_ok m h cb e :
  timers_inv m h e -> handler_ok m h (run_callback cb e).
Proof.
  intros Ht. destruct cb; cbn.
  - split; [by repeat constructor|exact Ht].
  - by apply showStatusMessage_ok.
Qed.

Lemma mount_eq p e :
  mount p e =
  let next := mkHooks (js_or (loadEditorContent (editorId p) e) (initialContent p))
                (loadEditorSettings (editorId p) e) 1 "" true None false in
  let e3 := saveFeatureState (settingsKey (editorId p)) (VSettings (editorSettings next))
              (saveFeatureState (contentKey (editorId p)) (VString (content next)) e) in
  mkState p (fst (auto_save_effect next e3)) (snd (auto_save_effect next e3)) true.
Proof.
  unfold mount, mount_effects, flush, commit. cbn.
  rewrite !orb_true_r. cbn.
  by destruct (auto_save_effect _ _).
Qed.

Lemma mount_inv p st t0 : Inv (mount p (fresh_env st t0)).
Proof.
  rewrite mount_eq. cbn zeta.
  match goal with |- context [auto_save_effect ?h ?e] =>
    destruct (auto_save_effect_frame h e) as (r & c & f & n & Ef);
    destruct (auto_save_effect h e) as [h' e'] eqn:E end.
  apply effect_arms in E as (Ha & Hn & Hd); try done.
  simplify_eq. by constructor.
Qed.

Lemma step_inv ev s s' : Inv s -> step ev s = Some s' -> Inv s'.
Proof.
  intros [Hl Ht] Hstep. destruct ev; cbn in Hstep.
  - destruct (mounted s) eqn:Hm; simplify_eq.
    apply flush_ok; [done|]. rewrite Hm. split; [by repeat constructor|exact Ht].
  - destruct (mounted s) eqn:Hm; simplify_eq.
    apply flush_ok; [done|]. rewrite Hm. split; [by repeat constructor|exact Ht].
  - destruct (mounted s) eqn:Hm; simplify_eq.
    apply flush_ok; [done|]. rewrite Hm. split; [by repeat constructor|exact Ht].
  - destruct (mounted s) eqn:Hm; simplify_eq.
    apply flush_ok; [done|]. rewrite Hm. by apply handleSaveToFile_ok.
  - destruct (mounted s) eqn:Hm; simplify_eq.
    apply flush_ok; [done|]. rewrite Hm. by apply handleCopyToClipboard_ok.
  - destruct (mounted s) eqn:Hm; simplify_eq.
    apply flush_ok; [done|]. rewrite Hm. by apply handleClearText_ok.
  - destruct (mounted s) eqn:Hm; simplify_eq.
    unfold keydown.
    pose proof (handleKeyDown_ok _ _ ev selection (props s) (hooks s) _ Ht) as Hk.
    destruct (handleKeyDown _ _ _ _ _) as [ev' r]. cbn [snd] in *.
    apply flush_ok; [done|]. by rewrite Hm.
  - destruct (clipboard_settled ok (env s)) as [r|] eqn:E; cbn in Hstep; simplify_eq.
    apply flush_ok; [done|]. by eapply clipboard_settled_ok.
  - destruct (_ && _) eqn:Hg; simplify_eq.
    apply andb_prop in Hg as [Hdt Hall].
    destruct Ht as (Hn & Hd & Ha).
    constructor; [done|]. split_and!; [done| |exact Ha].
    cbn. clear -Hall. induction (timers (env s)) as [|t ts IH]; [constructor|].
    cbn in Hall. apply andb_prop in Hall as [H1 H2].
    apply bool_decide_eq_true in H1. constructor; auto.
  - destruct (extract_next _) as [[t rest]|] eqn:Hx; [|done].
    case_bool_decide; simplify_eq.
    apply flush_ok; [done|]. by apply timer_task_ok.
  - destruct (mounted s) eqn:Hm; simplify_eq.
    destruct Ht as (Hn & Hd & Ha).
    constructor; [done|]. unfold unmount. cbn. split_and!.
    + by destruct (auto_save_cleanup_frame (hooks s) (env s)) as [f ->].
    + by apply due_cleanup.
    + by eapply cleanup_clears.
Qed.

Lemma reachable_inv p s : Reachable p s -> Inv s.
Proof. induction 1; eauto using mount_inv, step_inv. Qed.

Lemma flush_props s r : props (flush s r) = props s.
Proof. unfold flush. destruct (mounted s); [destruct (commit _ _ _ _)|]; done. Qed.

Lemma flush_mounted s r : mounted (flush s r) = mounted s.
Proof. unfold flush. destruct (mounted s); [destruct (commit _ _ _ _)|]; done. Qed.

Lemma step_props ev s s' : step ev s = Some s' -> props s' = props s.
Proof.
  intros Hstep. destruct ev; cbn in Hstep;
    try (destruct (mounted s); simplify_eq; by rewrite ?flush_props).
  - destruct (mounted s); simplify_eq. unfold keydown.
    destruct (handleKeyDown _ _ _ _ _). cbn. by rewrite flush_props.
  - destruct (clipboard_settled _ _); cbn in Hstep; simplify_eq.
    by rewrite flush_props.
  - case_match; by simplify_eq.
  - destruct (extract_next _) as [[t rest]|]; [|done].
    case_bool_decide; simplify_eq. unfold fire_timer. by rewrite flush_props.
Qed.

Lemma reachable_props p s : Reachable p s -> props s = p.
Proof.
  induction 1 as [st t0|s ev s' Hr IH Hstep].
  - by rewrite mount_eq.
  - rewrite <- IH. by eapply step_props.
Qed.

(** *** Exact renders *)

Lemma state_eta s : mkState (props s) (hooks s) (env s) (mounted s) = s.
Proof. by destruct s. Qed.

Lemma commit_same p h e : commit p h h e = (h, e).
Proof. unfold commit. by rewrite !bool_decide_true by done. Qed.

Lemma flush_nil s e :
  mounted s = true -> flush s ([], e) = mkState (props s) (hooks s) e true.
Proof. intros Hm. unfold flush. rewrite Hm. cbn. by rewrite commit_same. Qed.

Lemma flush_status s message e :
  mounted s = true ->
  flush s ([SetStatusMessage message], e)
  = mkState (props s) (apply_update (hooks s) (SetStatusMessage message)) e true.
Proof.
  intros Hm. unfold flush, commit. rewrite Hm. cbn.
  by rewrite !bool_decide_true by done.
Qed.

Lemma flush_unmounted s r :
  mounted s = false -> flush s r = mkState (props s) (hooks s) (snd r) false.
Proof. intros Hm. unfold flush. by rewrite Hm. Qed.

(** *** What a step does to the store *)

Lemma settingsRef_foldl h q :
  (settingsRef h <= settingsRef (foldl apply_update h q))%nat
  /\ (settingsRef (foldl apply_update h q) = settingsRef h ->
      editorSettings (foldl apply_update h q) = editorSettings h).
Proof.
  revert h. induction q as [|u q IH]; intros h; [done|]. cbn [foldl].
  destruct (IH (apply_update h u)) as [Hle Heq].
  assert (settingsRef h <= settingsRef (apply_update h u))%nat as Hu
    by (destruct u; cbn; lia).
  split; [lia|]. intros Hr.
  rewrite Heq by lia. destruct u; cbn in *; try done. lia.
Qed.

Lemma flush_saves s q e :
  initialLoadDone (hooks s) = true -> Forall user_update q ->
  saves (env (flush s (q, e)))
  = saves e ++ content_write (props s) (hooks s) (hooks (flush s (q, e)))
      ++ settings_write (props s) (hooks s) (hooks (flush s (q, e))).
Proof.
  intros Hl Hq. destruct (mounted s) eqn:Hm.
  - destruct (flush_frame s q e Hm Hq) as (r & c & f & n & ->). cbn.
    rewrite saves_render_saves by (by rewrite foldl_apply_update_loaded).
    done.
  - rewrite flush_unmounted by done. cbn.
    unfold content_write, settings_write.
    rewrite !bool_decide_true by done. by rewrite !app_nil_r.
Qed.

(** Every step is either a render of what a handler queued, on an
    environment whose store the handler left alone, or leaves hooks and
    store as they are. *)
Lemma step_cases ev s s' :
  step ev s = Some s' ->
  (exists q e, s' = flush s (q, e) /\ Forall user_update q
     /\ store e = store (env s) /\ saves e = saves (env s))
  \/ (hooks s' = hooks s /\ store (env s') = store (env s)
      /\ saves (env s') = saves (env s)).
Proof.
  intros Hstep. destruct ev; cbn in Hstep.
  - destruct (mounted s); simplify_eq. left. do 2 eexists.
    split_and!; [done| |done..]. by repeat constructor.
  - destruct (mounted s); simplify_eq. left. do 2 eexists.
    split_and!; [done| |done..]. by repeat constructor.
  - destruct (mounted s); simplify_eq. left. do 2 eexists.
    split_and!; [done| |done..]. by repeat constructor.
  - destruct (mounted s); simplify_eq. left. do 2 eexists.
    split_and!; [done| |done..]. by repeat constructor.
  - destruct (mounted s); simplify_eq. left. unfold handleCopyToClipboard.
    destruct clipboardApi; cbn; do 2 eexists;
      (split_and!; [done| |done..]); by repeat constructor.
  - destruct (mounted s); simplify_eq. left. destruct confirmed.
    + do 2 eexists. split_and!; [done| |done..]. by repeat constructor.
    + do 2 eexists. split_and!; [done| |done..]. by repeat constructor.
  - destruct (mounted s); simplify_eq. left. unfold keydown, handleKeyDown.
    destruct (ctrlKey ev && _), (ctrlKey _ && _ && _); cbn;
      unfold handleCopyToClipboard; try destruct clipboardApi; cbn;
      do 2 eexists; (split_and!; [done| |done..]); by repeat constructor.
  - unfold clipboard_settled in Hstep.
    destruct (pendingWrites (env s)) as [|text rest]; [done|].
    left. destruct ok; cbn in Hstep; simplify_eq;
      do 2 eexists; (split_and!; [done| |done..]); by repeat constructor.
  - case_match; simplify_eq. by right.
  - destruct (extract_next _) as [[t rest]|]; [|done].
    case_bool_decide; simplify_eq. left. unfold fire_timer.
    rewrite timer_task_eq. destruct (callback t); cbn;
      do 2 eexists; (split_and!; [done| |done..]); by repeat constructor.
  - destruct (mounted s); simplify_eq. right. unfold unmount. cbn.
    by destruct (auto_save_cleanup_frame (hooks s) (env s)) as [f ->].
Qed.

Lemma step_saves ev s s' :
  initialLoadDone (hooks s) = true -> step ev s = Some s' ->
  saves (env s')
  = saves (env s) ++ content_write (props s) (hooks s) (hooks s')
      ++ settings_write (props s) (hooks s) (hooks s').
Proof.
  intros Hl Hstep.
  destruct (step_cases _ _ _ Hstep) as [(q & e & -> & Hq & _ & <-)|(-> & _ & ->)].
  - by apply flush_saves.
  - unfold content_write, settings_write.
    rewrite !bool_decide_true by done. by rewrite !app_nil_r.
Qed.

Lemma flush_mirrors s q e :
  TEXT_EDITOR_STORAGE_KEY <> TEXT_EDITOR_SETTINGS_KEY ->
  initialLoadDone (hooks s) = true -> Forall user_update q ->
  store e = store (env s) -> store_mirrors s -> store_mirrors (flush s (q, e)).
Proof.
  intros Hk Hl Hq He [Hc Hs]. apply (keys_distinct (editorId (props s))) in Hk.
  destruct (mounted s) eqn:Hm.
  - destruct (flush_frame s q e Hm Hq) as (r & c & f & n & ->).
    unfold store_mirrors, render_saves, save_content_effect, save_settings_effect.
    rewrite foldl_apply_update_loaded, Hl by done. cbn.
    destruct (settingsRef_foldl (hooks s) q) as [_ Hsame].
    assert (settingsKey (editorId (props s)) <> contentKey (editorId (props s)))
      as Hk' by done.
    do 2 case_bool_decide; cbn; rewrite ?He;
      (split; repeat (rewrite lookup_insert_eq || rewrite lookup_insert_ne by done);
       rewrite ?Hsame by done; congruence).
  - rewrite flush_unmounted by done. unfold store_mirrors. cbn. by rewrite He.
Qed.

Lemma reachable_mirrors p s :
  TEXT_EDITOR_STORAGE_KEY <> TEXT_EDITOR_SETTINGS_KEY ->
  Reachable p s -> store_mirrors s.
Proof.
  intros Hk. induction 1 as [st t0|s ev s' Hr IH Hstep].
  - rewrite mount_eq. cbn zeta.
    match goal with |- context [auto_save_effect ?h ?e] =>
      destruct (auto_save_effect_frame h e) as (r & c & f & n & ->) end.
    unfold store_mirrors. cbn.
    apply (keys_distinct (editorId p)) in Hk.
    by rewrite lookup_insert_eq, lookup_insert_ne, lookup_insert_eq.
  - apply reachable_inv in Hr as [Hl _].
    destruct (step_cases _ _ _ Hstep) as [(q & e & -> & Hq & He & _)|(Hh & He & _)].
    + by apply flush_mirrors.
    + unfold store_mirrors. apply step_props in Hstep. by rewrite Hstep, Hh, He.
Qed.

(** X1. In every reachable state the store mirrors the memory of the
    instance: under [contentKey editorId] it holds the content the hooks
    hold, under [settingsKey editorId] the settings record (nothing is
    buffered between an event and the store).  The two key prefixes are
    taken to differ. *)
Theorem store_mirrors_memory p s :
  TEXT_EDITOR_STORAGE_KEY <> TEXT_EDITOR_SETTINGS_KEY -> Reachable p s ->
  store (env s) !! contentKey (editorId p) = Some (VString (content (hooks s)))
  /\ store (env s) !! settingsKey (editorId p)
     = Some (VSettings (editorSettings (hooks s))).
Proof.
  intros Hk Hr. destruct (reachable_mirrors _ _ Hk Hr) as [Hc Hs].
  by rewrite (reachable_props _ _ Hr) in Hc, Hs.
Qed.

(** *** Persistence (C1, C2, C6) *)

Lemma flush_hooks s q e :
  mounted s = true -> Forall user_update q ->
  exists r c, hooks (flush s (q, e)) = with_autoSave r c (foldl apply_update (hooks s) q).
Proof.
  intros Hm Hq. destruct (flush_frame s q e Hm Hq) as (r & c & f & n & ->).
  by exists r, c.
Qed.

Lemma mount_effects_quiet p e :
  initialLoadDone (fst (mount_effects p e)) = false
  /\ saves (snd (snd (mount_effects p e))) = saves e
  /\ store (snd (snd (mount_effects p e))) = store e.
Proof. unfold mount_effects. cbn. by destruct e. Qed.

(** The [Loaded] transition itself writes both records once. *)
Lemma mount_saves p e :
  saves (env (mount p e))
  = saves e
    ++ [ (contentKey (editorId p), VString (content (hooks (mount p e))));
         (settingsKey (editorId p), VSettings (editorSettings (hooks (mount p e)))) ].
Proof.
  rewrite mount_eq. cbn zeta.
  match goal with |- context [auto_save_effect ?h ?e] =>
    destruct (auto_save_effect_frame h e) as (r & c & f & n & ->) end.
  cbn. by rewrite <- app_assoc.
Qed.

(** C1. Before the [Loaded] transition an instance writes nothing: the
    effects of its first render leave the store and the list of
    [saveFeatureState] calls as they were, with [initialLoadDone] still
    false.  Every reachable state is loaded, and there an event makes exactly
    the calls its mutations ask for: one of the content record under
    [contentKey editorId] when the content changed, one of the settings
    record under [settingsKey editorId] when a settings update was made,
    each carrying the record's new value, and nothing else.  So typing a new
    text makes the one content write and no settings write, and an
    [updateSetting] (or the three of the text-style group, which React
    renders together) makes the one settings write and no content write. *)
Theorem saves_follow_mutations p s ev s' :
  Reachable p s -> step ev s = Some s' ->
  (forall e, initialLoadDone (fst (mount_effects p e)) = false
             /\ saves (snd (snd (mount_effects p e))) = saves e
             /\ store (snd (snd (mount_effects p e))) = store e)
  /\ initialLoadDone (hooks s) = true
  /\ saves (env s')
     = saves (env s) ++ content_write p (hooks s) (hooks s')
         ++ settings_write p (hooks s) (hooks s')
  /\ (forall text, ev = Typed text -> text <> content (hooks s) ->
        content (hooks s') = text
        /\ saves (env s') = saves (env s) ++ [(contentKey (editorId p), VString text)])
  /\ (forall k v, ev = SettingChanged k v ->
        editorSettings (hooks s') = set_field k v (editorSettings (hooks s))
        /\ saves (env s')
           = saves (env s)
             ++ [(settingsKey (editorId p),
                  VSettings (set_field k v (editorSettings (hooks s))))])
  /\ (forall values, ev = TextStylesChanged values ->
        saves (env s')
        = saves (env s)
          ++ [(settingsKey (editorId p), VSettings (editorSettings (hooks s')))]).
Proof.
  intros Hr Hstep.
  pose proof (reachable_inv _ _ Hr) as [Hl _].
  pose proof (reachable_props _ _ Hr) as Hp.
  pose proof (step_saves _ _ _ Hl Hstep) as Hsaves. rewrite Hp in Hsaves.
  split_and!; [apply mount_effects_quiet|done|done|..].
  - intros text -> Hne. cbn [step] in Hstep.
    destruct (mounted s) eqn:Hm; simplify_eq.
    destruct (flush_hooks s [SetContent text] (env s)) as (r & c & Hh);
      [done|by repeat constructor|].
    rewrite Hsaves, Hh. unfold content_write, settings_write. cbn.
    rewrite bool_decide_false by done. by rewrite bool_decide_true by done.
  - intros k v ->. cbn [step] in Hstep.
    destruct (mounted s) eqn:Hm; simplify_eq.
    destruct (flush_hooks s (updateSetting k v) (env s)) as (r & c & Hh);
      [done|by repeat constructor|].
    rewrite Hsaves, Hh. unfold content_write, settings_write. cbn.
    rewrite bool_decide_true by done. by rewrite bool_decide_false by lia.
  - intros values ->. cbn [step] in Hstep.
    destruct (mounted s) eqn:Hm; simplify_eq.
    destruct (flush_hooks s (textStylesChanged values) (env s)) as (r & c & Hh);
      [done|by repeat constructor|].
    rewrite Hsaves, Hh. unfold content_write, settings_write. cbn.
    rewrite bool_decide_true by done. by rewrite bool_decide_false by lia.
Qed.

(** C2. [updateSetting(k, v)] on a mounted, loaded instance sets field [k]
    of the settings record to [v], leaves every other field as it was, and
    the render it causes saves the new settings record (one
    [saveFeatureState] call under [settingsKey editorId], which the store
    then holds); the content is not touched. *)
Theorem updateSetting_sets_one_field p s k v :
  Reachable p s -> mounted s = true ->
  exists s',
    step (SettingChanged k v) s = Some s'
    /\ editorSettings (hooks s') = set_field k v (editorSettings (hooks s))
    /\ get_field k (editorSettings (hooks s')) = v
    /\ (forall k', k' <> k ->
          get_field k' (editorSettings (hooks s'))
          = get_field k' (editorSettings (hooks s)))
    /\ content (hooks s') = content (hooks s)
    /\ saves (env s')
       = saves (env s)
         ++ [(settingsKey (editorId p), VSettings (editorSettings (hooks s')))]
    /\ store (env s') !! settingsKey (editorId p)
       = Some (VSettings (editorSettings (hooks s'))).
Proof.
  intros Hr Hm. eexists. split; [cbn; by rewrite Hm|].
  pose proof (reachable_inv _ _ Hr) as [Hl _].
  pose proof (reachable_props _ _ Hr) as Hp.
  destruct (flush_frame s (updateSetting k v) (env s)) as (r & c & f & n & ->);
    [done|by repeat constructor|].
  cbn. split_and!; try done.
  - apply get_set_field_eq.
  - intros k' Hne. by apply get_set_field_ne.
  - rewrite saves_render_saves by exact Hl.
    unfold content_write, settings_write. cbn.
    rewrite bool_decide_true by done. rewrite bool_decide_false by lia.
    by rewrite Hp.
  - unfold render_saves, save_settings_effect. cbn.
    rewrite bool_decide_false by lia.
    rewrite Hl. cbn. by rewrite Hp, lookup_insert_eq.
Qed.

(** C6. [clearText()] when the user declines the confirmation changes
    nothing at all: hooks, store and the rest of the environment stay as
    they are.  When the user confirms, the content becomes the empty string,
    the store holds the empty string under [contentKey editorId], and the
    settings record is the same in memory and in the store. *)
Theorem clearText_confirmation p s :
  TEXT_EDITOR_STORAGE_KEY <> TEXT_EDITOR_SETTINGS_KEY ->
  Reachable p s -> mounted s = true ->
  step (ClickClear false) s = Some s
  /\ exists s',
       step (ClickClear true) s = Some s'
       /\ content (hooks s') = ""
       /\ store (env s') !! contentKey (editorId p) = Some (VString "")
       /\ editorSettings (hooks s') = editorSettings (hooks s)
       /\ store (env s') !! settingsKey (editorId p)
          = store (env s) !! settingsKey (editorId p)
       /\ statusMessage (hooks s') = "All text cleared".
Proof.
  intros Hk Hr Hm. split.
  - cbn. rewrite Hm. cbn. rewrite flush_nil by done. rewrite <- Hm. by rewrite state_eta.
  - destruct (step (ClickClear true) s) as [s'|] eqn:Hstep; [|cbn in Hstep; by rewrite Hm in Hstep].
    exists s'. split; [done|].
    assert (Reachable p s') as Hr' by (by eapply reach_step).
    destruct (reachable_mirrors _ _ Hk Hr') as [Hc' Hs'].
    destruct (reachable_mirrors _ _ Hk Hr) as [Hc Hs].
    rewrite (reachable_props _ _ Hr') in Hc', Hs'.
    rewrite (reachable_props _ _ Hr) in Hc, Hs.
    cbn in Hstep. rewrite Hm in Hstep. simplify_eq.
    destruct (flush_hooks s (SetContent "" :: [SetStatusMessage "All text cleared"])
                (snd (setTimeout ClearStatus 2000 (env s)))) as (r & c & Hh);
      [done|by repeat constructor|].
    cbn in Hh. unfold handleClearText in *. cbn in *.
    rewrite Hh in *. cbn in *. split_and!; try done. by rewrite Hs.
Qed.

(** *** Clipboard and keyboard (C8, C9, C10) *)

Lemma append_nil_r (a : string) : a +:+ "" = a.
Proof. induction a as [|x a IH]; [done|]. by rewrite append_cons, IH. Qed.

Lemma step_ClickSave s :
  mounted s = true ->
  step ClickSave s
  = Some (mkState (props s)
            (apply_update (hooks s) (SetStatusMessage "Content saved to file"))
            (snd (setTimeout ClearStatus 2000
                    (with_downloads
                       (downloads (env s)
                        ++ [mkDownload (mkBlob [content (hooks s)] "text/plain")
                              (editorId (props s) +:+ "_note.txt")])
                       (env s))))
            true).
Proof.
  intros Hm. cbn [step]. rewrite Hm. unfold handleSaveToFile, showStatusMessage.
  by rewrite flush_status.
Qed.

Lemma step_ClickCopy s :
  mounted s = true -> clipboardApi = true ->
  step ClickCopy s
  = Some (mkState (props s) (hooks s)
            (with_clipboard (clipboard (env s))
               (pendingWrites (env s) ++ [content (hooks s)]) (env s))
            true).
Proof.
  intros Hm Hapi. cbn [step]. rewrite Hm. unfold handleCopyToClipboard.
  rewrite Hapi. by rewrite flush_nil.
Qed.

Lemma step_ClickCopy_no_api s :
  mounted s = true -> clipboardApi = false ->
  step ClickCopy s
  = Some (mkState (props s)
            (apply_update (hooks s) (SetStatusMessage "Failed to copy content!"))
            (snd (setTimeout ClearStatus 2000
                    (with_consoleErrors
                       (consoleErrors (env s) ++ ["Failed to copy text: "]) (env s))))
            true).
Proof.
  intros Hm Hapi. cbn [step]. rewrite Hm. unfold handleCopyToClipboard.
  rewrite Hapi. unfold showStatusMessage. by rewrite flush_status.
Qed.

Lemma handleKeyDown_save ev selection p h e :
  ctrlKey ev = true -> key ev = "s" ->
  handleKeyDown ev selection p h e = (preventDefault ev, handleSaveToFile p h e).
Proof.
  intros Hctrl Hkey. unfold handleKeyDown, handleSaveToFile, showStatusMessage.
  rewrite Hctrl, Hkey. rewrite (bool_decide_true ("s" = "s")) by done.
  cbn. rewrite Hctrl, Hkey. by rewrite (bool_decide_false ("s" = "c")) by done.
Qed.

Lemma handleKeyDown_copy ev p h e :
  ctrlKey ev = true -> key ev = "c" ->
  handleKeyDown ev (Some "") p h e = (preventDefault ev, handleCopyToClipboard h e).
Proof.
  intros Hctrl Hkey. unfold handleKeyDown, handleCopyToClipboard.
  rewrite Hctrl, Hkey. rewrite (bool_decide_false ("c" = "s")) by done.
  cbn. rewrite Hctrl, Hkey. rewrite (bool_decide_true ("c" = "c")) by done.
  rewrite (bool_decide_true (Some "" = Some "")) by done.
  cbn. by destruct clipboardApi.
Qed.

Lemma handleKeyDown_none ev selection p h e :
  ctrlKey ev && bool_decide (key ev = "s") = false ->
  ctrlKey ev && bool_decide (key ev = "c") && bool_decide (selection = Some "") = false ->
  handleKeyDown ev selection p h e = (ev, ([], e)).
Proof. intros Hs Hc. unfold handleKeyDown. by rewrite Hs, Hc. Qed.

Lemma keydown_untouched s ev selection :
  mounted s = true ->
  ctrlKey ev && bool_decide (key ev = "s") = false ->
  ctrlKey ev && bool_decide (key ev = "c") && bool_decide (selection = Some "") = false ->
  keydown ev selection s = (ev, s).
Proof.
  intros Hm Hs Hc. unfold keydown. rewrite handleKeyDown_none by done.
  rewrite flush_nil by done. by rewrite <- Hm, state_eta.
Qed.

(** C8, as the code has it.  On a mounted instance, for a keydown event
    whose default is not yet prevented: Ctrl+S prevents the default and does
    what the save button does; Ctrl+C prevents the default and starts the
    clipboard write exactly when the document's selection object is present
    and its text is the empty string (where the page has no Clipboard API,
    what it starts is the copy that fails at once, as the button does);
    with a non-empty selection, and likewise with no selection object at
    all, the event and the state are left untouched; so is every other
    key. *)
Theorem keydown_shortcuts s ev selection :
  mounted s = true -> defaultPrevented ev = false ->
  (ctrlKey ev = true -> key ev = "s" ->
     defaultPrevented (fst (keydown ev selection s)) = true
     /\ step (KeyDown ev selection) s = step ClickSave s)
  /\ (ctrlKey ev = true -> key ev = "c" ->
        (defaultPrevented (fst (keydown ev selection s)) = true
         /\ step (KeyDown ev selection) s = step ClickCopy s
         /\ (if clipboardApi
             then pendingWrites (env (snd (keydown ev selection s)))
                  = pendingWrites (env s) ++ [content (hooks s)]
             else pendingWrites (env (snd (keydown ev selection s)))
                  = pendingWrites (env s)
                  /\ statusMessage (hooks (snd (keydown ev selection s)))
                     = "Failed to copy content!")
         <-> selection = Some "")
        /\ (selection <> Some "" -> keydown ev selection s = (ev, s)))
  /\ (ctrlKey ev = false \/ (key ev <> "s" /\ key ev <> "c") ->
        keydown ev selection s = (ev, s)).
Proof.
  intros Hm Hd. split_and!.
  - intros Hctrl Hkey. cbn [step]. rewrite Hm.
    unfold keydown. by rewrite handleKeyDown_save.
  - intros Hctrl Hkey.
    assert (selection <> Some "" -> keydown ev selection s = (ev, s)) as Hno.
    { intros Hsel. apply keydown_untouched; [done|..].
      - rewrite Hkey. by rewrite andb_false_r.
      - rewrite (bool_decide_false (selection = _)) by done. by rewrite andb_false_r. }
    split; [|done]. split.
    + intros (Hp & _ & _). destruct (decide (selection = Some "")) as [|Hsel]; [done|].
      rewrite Hno in Hp by done. cbn in Hp. congruence.
    + intros ->. cbn [step]. rewrite Hm.
      unfold keydown. rewrite handleKeyDown_copy by done.
      unfold handleCopyToClipboard. destruct clipboardApi.
      * by rewrite flush_nil.
      * unfold showStatusMessage. by rewrite flush_status.
  - intros Hother. apply keydown_untouched; [done|..].
    + destruct Hother as [->|[Hs _]]; [done|].
      rewrite bool_decide_false by done. by rewrite andb_false_r.
    + destruct Hother as [->|[_ Hc]]; [done|].
      rewrite (bool_decide_false (key ev = _)) by done. by rewrite andb_false_r.
Qed.

(** C10. Ctrl+C while [window.getSelection()] is [null]: the optional chain
    yields [undefined], the strict comparison with the empty string fails,
    so the handler neither prevents the default nor starts a clipboard
    write; event and state are exactly as before.  With a selection object
    the copy starts exactly when its text is empty. *)
Theorem keydown_copy_without_selection_object s ev :
  mounted s = true -> ctrlKey ev = true -> key ev = "c" ->
  keydown ev None s = (ev, s)
  /\ step (KeyDown ev None) s = Some s
  /\ (forall text, step (KeyDown ev (Some text)) s = step ClickCopy s <-> text = "").
Proof.
  intros Hm Hctrl Hkey.
  assert (keydown ev None s = (ev, s)) as Hk.
  { apply keydown_untouched; [done|..].
    - rewrite Hkey. by rewrite andb_false_r.
    - by rewrite andb_false_r. }
  split; [done|]. split; [cbn [step]; by rewrite Hm, Hk|].
  intros text. split.
  - intros Hstep. destruct (decide (text = "")) as [|Hne]; [done|]. exfalso.
    assert (step (KeyDown ev (Some text)) s = Some s) as Hkd.
    { cbn [step]. rewrite Hm. rewrite keydown_untouched; [done|done|..].
      - rewrite Hkey. by rewrite andb_false_r.
      - rewrite (bool_decide_false (Some text = _)) by congruence.
        by rewrite andb_false_r. }
    rewrite Hkd in Hstep. destruct clipboardApi eqn:Hapi.
    + rewrite step_ClickCopy in Hstep by done. injection Hstep as Hs.
      apply (f_equal (fun x => length (pendingWrites (env x)))) in Hs.
      cbn in Hs. rewrite length_app in Hs. cbn in Hs. lia.
    + rewrite step_ClickCopy_no_api in Hstep by done. injection Hstep as Hs.
      apply (f_equal (fun x => length (timers (env x)))) in Hs.
      cbn in Hs. rewrite length_app in Hs. cbn in Hs. lia.
  - intros ->. cbn [step]. rewrite Hm.
    unfold keydown. by rewrite handleKeyDown_copy by done.
Qed.

(** C9, as the code has it.  On a page that has the Clipboard API,
    [copyToClipboard()] on a mounted instance starts a write of the whole
    current content and returns with the clipboard not yet written and the
    hooks as they were.  When the oldest pending write resolves, the
    clipboard holds its text and "Content copied to clipboard!" is shown.
    When it rejects, the error is logged, "Failed to copy content!" is
    shown, the write is dropped and not queued again, the clipboard keeps
    its value, and content, settings and store are unchanged.  On a page
    without the Clipboard API no write is started: the call fails before
    anything is awaited, and within the click the error is logged and
    "Failed to copy content!" is shown, with nothing pending and clipboard,
    content, settings and store unchanged. *)
Theorem copyToClipboard_settles s :
  mounted s = true ->
  (clipboardApi = true ->
     exists s1,
       step ClickCopy s = Some s1
       /\ pendingWrites (env s1) = pendingWrites (env s) ++ [content (hooks s)]
       /\ clipboard (env s1) = clipboard (env s)
       /\ hooks s1 = hooks s
       /\ saves (env s1) = saves (env s))
  /\ (clipboardApi = false ->
        exists s1,
          step ClickCopy s = Some s1
          /\ pendingWrites (env s1) = pendingWrites (env s)
          /\ clipboard (env s1) = clipboard (env s)
          /\ statusMessage (hooks s1) = "Failed to copy content!"
          /\ consoleErrors (env s1) = consoleErrors (env s) ++ ["Failed to copy text: "]
          /\ content (hooks s1) = content (hooks s)
          /\ editorSettings (hooks s1) = editorSettings (hooks s)
          /\ store (env s1) = store (env s)
          /\ saves (env s1) = saves (env s))
  /\ (forall text rest, pendingWrites (env s) = text :: rest ->
        (exists s2,
           step (ClipboardSettled true) s = Some s2
           /\ clipboard (env s2) = text
           /\ pendingWrites (env s2) = rest
           /\ statusMessage (hooks s2) = "Content copied to clipboard!")
        /\ (exists s3,
              step (ClipboardSettled false) s = Some s3
              /\ statusMessage (hooks s3) = "Failed to copy content!"
              /\ consoleErrors (env s3) = consoleErrors (env s) ++ ["Failed to copy text: "]
              /\ pendingWrites (env s3) = rest
              /\ clipboard (env s3) = clipboard (env s)
              /\ content (hooks s3) = content (hooks s)
              /\ editorSettings (hooks s3) = editorSettings (hooks s)
              /\ store (env s3) = store (env s)
              /\ saves (env s3) = saves (env s))).
Proof.
  intros Hm. split_and!.
  - intros Hapi. eexists. split; [by apply step_ClickCopy|]. by cbn.
  - intros Hapi. eexists. split; [by apply step_ClickCopy_no_api|]. by cbn.
  - intros text rest Hp. split.
    + eexists. split.
      * cbn [step]. unfold clipboard_settled. rewrite Hp. cbn.
        unfold showStatusMessage. by rewrite flush_status.
      * by cbn.
    + eexists. split.
      * cbn [step]. unfold clipboard_settled. rewrite Hp. cbn.
        unfold showStatusMessage. by rewrite flush_status.
      * by cbn.
Qed.

(** *** Loading (C4) *)

Lemma mount_content p e :
  content (hooks (mount p e))
  = js_or (loadEditorContent (editorId p) e) (initialContent p).
Proof.
  rewrite mount_eq. cbn zeta.
  match goal with |- context [auto_save_effect ?h ?e] =>
    destruct (auto_save_effect_frame h e) as (r & c & f & n & ->) end.
  done.
Qed.

Lemma reachable_saves_keys p s :
  Reachable p s ->
  Forall (fun kv => kv.1 = contentKey (editorId p) \/ kv.1 = settingsKey (editorId p))
    (saves (env s)).
Proof.
  induction 1 as [st t0|s ev s' Hr IH Hstep].
  - rewrite mount_saves. cbn.
    constructor; [by left|]. constructor; [by right|]. constructor.
  - pose proof (reachable_inv _ _ Hr) as [Hl _].
    rewrite (step_saves _ _ _ Hl Hstep), (reachable_props _ _ Hr).
    unfold content_write, settings_write.
    rewrite !Forall_app. split_and!; [done|..]; case_bool_decide;
      try apply Forall_nil_2; apply Forall_singleton; cbn; auto.
Qed.

(** C4, as the code has it.  The props default to the empty string and
    to ["default"].  After the load the content is the stored content when
    a non-empty content string is stored under [contentKey editorId]; it is
    [initialContent] when nothing is stored there and also when the stored
    content is the empty string.  Every key the instance ever writes is
    [contentKey editorId] or [settingsKey editorId], and both determine
    [editorId]. *)
Theorem mount_loads_content p st t0 :
  let s := mount p (fresh_env st t0) in
  default_props None None = mkProps "" "default"
  /\ (forall c, st !! contentKey (editorId p) = Some (VString c) -> c <> "" ->
        content (hooks s) = c)
  /\ (st !! contentKey (editorId p) = Some (VString "") ->
        content (hooks s) = initialContent p)
  /\ (st !! contentKey (editorId p) = None -> content (hooks s) = initialContent p)
  /\ (forall s', Reachable p s' ->
        Forall (fun kv => kv.1 = contentKey (editorId p)
                          \/ kv.1 = settingsKey (editorId p)) (saves (env s')))
  /\ (forall id, contentKey id = contentKey (editorId p) -> id = editorId p)
  /\ (forall id, settingsKey id = settingsKey (editorId p) -> id = editorId p).
Proof.
  cbn zeta. rewrite mount_content. unfold loadEditorContent, js_or. cbn.
  split_and!; [done|..].
  - intros c -> Hc. by rewrite bool_decide_false.
  - by intros ->.
  - by intros ->.
  - apply reachable_saves_keys.
  - intros id. apply contentKey_inj.
  - intros id. apply settingsKey_inj.
Qed.

(** *** Status messages (C3) *)

Lemma showStatus_eq message s :
  mounted s = true ->
  showStatus message s
  = mkState (props s) (apply_update (hooks s) (SetStatusMessage message))
      (snd (setTimeout ClearStatus 2000 (env s))) true.
Proof. intros Hm. unfold showStatus, showStatusMessage. by rewrite flush_status. Qed.

Lemma forallb_due (t0 : Z) (ts : list Timer) :
  forallb (fun t => bool_decide (t0 <= due t)) ts = true
  <-> Forall (fun t => t0 <= due t) ts.
Proof.
  induction ts as [|t ts IH]; cbn.
  - split; [constructor|done].
  - rewrite andb_true_iff, bool_decide_eq_true, IH. split.
    + intros [? ?]. by constructor.
    + by intros [? ?]%Forall_cons_1.
Qed.

Lemma Forall_due_le (b b' : Z) (ts : list Timer) :
  b' <= b -> Forall (fun t => b < due t) ts -> Forall (fun t => b' <= due t) ts.
Proof. intros Hb. induction 1; constructor; [lia|done]. Qed.

Lemma Forall_due_lt (b b' : Z) (ts : list Timer) :
  b' <= b -> Forall (fun t => b < due t) ts -> Forall (fun t => b' < due t) ts.
Proof. intros Hb. induction 1; constructor; [lia|done]. Qed.

Lemma step_Wait s dt :
  0 <= dt -> Forall (fun t => now (env s) + dt <= due t) (timers (env s)) ->
  step (Wait dt) s = Some (set_now (now (env s) + dt) s).
Proof.
  intros Hdt Hall. cbn [step].
  rewrite bool_decide_true by done.
  by rewrite (proj2 (forallb_due _ _) Hall).
Qed.

Lemma extract_next_elem ts t rest :
  extract_next ts = Some (t, rest) -> t ∈ ts.
Proof.
  intros (l1 & l2 & -> & _)%extract_next_split.
  apply elem_of_app. right. by left.
Qed.

(** The timer that is due strictly before the older ones and no later than
    the younger ones runs next. *)
Lemma extract_next_app l1 a l2 :
  Forall (fun t => due a < due t) l1 -> Forall (fun t => due a <= due t) l2 ->
  extract_next (l1 ++ a :: l2) = Some (a, l1 ++ l2).
Proof.
  intros H1 H2. induction H1 as [|x l1 Hx H1 IH]; cbn.
  - destruct (extract_next l2) as [[m r]|] eqn:E.
    + apply extract_next_elem in E.
      rewrite list.Forall_forall in H2. apply H2 in E.
      by rewrite (proj2 (Z.leb_le _ _)) by done.
    + by apply extract_next_None in E as ->.
  - rewrite IH. by rewrite (proj2 (Z.leb_gt _ _)) by done.
Qed.

Lemma step_Fire_timeout s t rest :
  mounted s = true ->
  extract_next (timers (env s)) = Some (t, rest) ->
  due t <= now (env s) -> period t = None -> callback t = ClearStatus ->
  step Fire s
  = Some (mkState (props s) (apply_update (hooks s) (SetStatusMessage ""))
            (with_timers (fun _ => rest) (nextTimerId (env s)) (env s)) true).
Proof.
  intros Hm Hx Hdue Hp Hcb. cbn [step]. rewrite Hx.
  rewrite bool_decide_true by done.
  unfold fire_timer. rewrite timer_task_eq, Hcb. unfold rearm. rewrite Hp.
  by rewrite flush_status.
Qed.

(** A pending clear of the status message that is the next timer to fire
    blanks the message, and nothing else changes. *)
Lemma clear_fires s c rest :
  mounted s = true ->
  extract_next (timers (env s)) = Some (c, rest) ->
  due c <= now (env s) -> period c = None -> callback c = ClearStatus ->
  exists s',
    step Fire s = Some s' /\ mounted s' = true
    /\ statusMessage (hooks s') = "" /\ timers (env s') = rest
    /\ content (hooks s') = content (hooks s)
    /\ editorSettings (hooks s') = editorSettings (hooks s)
    /\ store (env s') = store (env s) /\ saves (env s') = saves (env s)
    /\ downloads (env s') = downloads (env s).
Proof.
  intros Hm Hx Hdue Hp Hcb. eexists.
  split; [by apply (step_Fire_timeout s c rest)|]. by cbn.
Qed.

(** A clear that is due two seconds from now, with every older timer due
    later and no younger one due sooner, fires two seconds from now. *)
Lemma clear_after_two_seconds s l1 c l2 :
  mounted s = true -> timers (env s) = l1 ++ c :: l2 ->
  due c = now (env s) + 2000 -> period c = None -> callback c = ClearStatus ->
  Forall (fun t => now (env s) + 2000 < due t) l1 ->
  Forall (fun t => now (env s) + 2000 <= due t) l2 ->
  run [Wait 2000; Fire] s
  = Some (mkState (props s) (apply_update (hooks s) (SetStatusMessage ""))
            (with_timers (fun _ => l1 ++ l2) (nextTimerId (env s))
               (with_now (now (env s) + 2000) (env s)))
            true).
Proof.
  intros Hm Hts Hdue Hp Hcb H1 H2. cbn [run].
  rewrite step_Wait; [|lia|].
  - set (s1 := set_now _ s).
    assert (extract_next (timers (env s1)) = Some (c, l1 ++ l2)) as Hx.
    { subst s1. cbn [set_now env with_now timers]. rewrite Hts.
      apply extract_next_app; rewrite Hdue; [done|].
      eapply list.Forall_impl; [exact H2|]. cbn. intros. lia. }
    rewrite (step_Fire_timeout s1 c _ Hm Hx); [done| |done..].
    subst s1. cbn. lia.
  - rewrite Hts. apply Forall_app. split.
    + eapply list.Forall_impl; [exact H1|]. cbn. intros. lia.
    + constructor; [lia|]. eapply list.Forall_impl; [exact H2|]. cbn. intros. lia.
Qed.

(** C3, as the code has it.  [showStatusMessage] keeps no handle of its
    timeout and never cancels one.  When a message [A] is shown and, [d]
    milliseconds later ([d] under 2000), a message [B], with no other timer
    due in between: both clears are pending once [B] is shown; the display
    shows [B] until the clear scheduled for [A] fires at [A]'s 2-second
    mark, [2000 - d] milliseconds after [B] was shown, and blanks it; the
    clear scheduled for [B] fires at [B]'s 2-second mark on a display that
    is already blank. *)
Theorem status_clear_not_preempted s A B d :
  mounted s = true -> 0 <= d < 2000 ->
  Forall (fun t => now (env s) + d + 2000 < due t) (timers (env s)) ->
  let t0 := now (env s) in
  let tA := mkTimer (nextTimerId (env s)) (t0 + 2000) None ClearStatus in
  let tB := mkTimer (S (nextTimerId (env s))) (t0 + d + 2000) None ClearStatus in
  exists s2 s3 s5 s7,
    step (Wait d) (showStatus A s) = Some s2
    /\ s3 = showStatus B s2
    /\ statusMessage (hooks s3) = B /\ now (env s3) = t0 + d
    /\ timers (env s3) = timers (env s) ++ [tA; tB]
    /\ run [Wait (2000 - d); Fire] s3 = Some s5
    /\ now (env s5) = t0 + 2000 /\ statusMessage (hooks s5) = ""
    /\ timers (env s5) = timers (env s) ++ [tB]
    /\ run [Wait d; Fire] s5 = Some s7
    /\ now (env s7) = t0 + d + 2000 /\ statusMessage (hooks s7) = ""
    /\ timers (env s7) = timers (env s).
Proof.
  intros Hm Hd Hall t0 tA tB.
  assert (Forall (fun t => t0 + d + 2000 < due t) (timers (env s))) as Hall' by done.
  (* A is shown, d milliseconds pass *)
  rewrite showStatus_eq by done.
  set (s1 := mkState _ _ _ true).
  assert (step (Wait d) s1 = Some (set_now (t0 + d) s1)) as Hw1.
  { apply step_Wait; [lia|]. subst s1. cbn. apply Forall_app. split.
    - apply (Forall_due_le (t0 + d + 2000)); [lia|done].
    - repeat constructor. cbn. norm_delay. lia. }
  set (s2 := set_now (t0 + d) s1) in *.
  (* B is shown *)
  pose proof (showStatus_eq B s2 eq_refl) as Hs3.
  set (s3 := mkState _ _ _ true) in Hs3.
  assert (timers (env s3) = timers (env s) ++ [tA; tB]) as Ht3.
  { subst s3 s2 s1. cbn. by rewrite <- app_assoc. }
  (* time passes up to A's mark, and A's clear fires *)
  assert (step (Wait (2000 - d)) s3 = Some (set_now (t0 + 2000) s3)) as Hw2.
  { replace (t0 + 2000) with (now (env s3) + (2000 - d)) by (subst s3 s2 s1; cbn; norm_delay; lia).
    apply step_Wait; [lia|]. rewrite Ht3. subst s3 s2 s1. cbn. apply Forall_app. split.
    - apply (Forall_due_le (t0 + d + 2000)); [lia|done].
    - repeat constructor; cbn; norm_delay; lia. }
  set (s4 := set_now (t0 + 2000) s3) in *.
  assert (extract_next (timers (env s4)) = Some (tA, timers (env s) ++ [tB])) as Hx4.
  { subst s4. cbn [set_now env with_now timers]. rewrite Ht3.
    apply (extract_next_app _ tA [tB]).
    - apply (Forall_due_lt (t0 + d + 2000)); [cbn; norm_delay; lia|done].
    - repeat constructor. cbn. norm_delay. lia. }
  pose proof (step_Fire_timeout s4 tA _ eq_refl Hx4) as Hf4.
  specialize (Hf4 ltac:(subst s4; cbn; norm_delay; lia) eq_refl eq_refl).
  set (s5 := mkState _ _ _ true) in Hf4.
  (* time passes up to B's mark, and B's clear fires *)
  assert (step (Wait d) s5 = Some (set_now (t0 + d + 2000) s5)) as Hw3.
  { replace (t0 + d + 2000) with (now (env s5) + d) by (subst s5 s4; cbn; norm_delay; lia).
    apply step_Wait; [lia|]. subst s5 s4. cbn. apply Forall_app. split.
    - apply (Forall_due_le (t0 + d + 2000)); [lia|done].
    - repeat constructor; cbn; norm_delay; lia. }
  set (s6 := set_now (t0 + d + 2000) s5) in *.
  assert (extract_next (timers (env s6)) = Some (tB, timers (env s) ++ [])) as Hx6.
  { subst s6 s5. cbn [set_now env with_now with_timers timers].
    apply (extract_next_app _ tB []); [|constructor].
    apply (Forall_due_lt (t0 + d + 2000)); [cbn; norm_delay; lia|done]. }
  rewrite app_nil_r in Hx6.
  pose proof (step_Fire_timeout s6 tB _ eq_refl Hx6) as Hf6.
  specialize (Hf6 ltac:(subst s6; cbn; norm_delay; lia) eq_refl eq_refl).
  set (s7 := mkState _ _ _ true) in Hf6.
  exists s2, s3, s5, s7. split_and!; try done.
  - cbn [run]. by rewrite Hw2, Hf4.
  - cbn [run]. by rewrite Hw3, Hf6.
Qed.

(** *** Saving to a file (C7) *)

(** C7. [saveToFile()] on a mounted instance clicks one download: a blob of
    type [text/plain] whose only part is the current content, so that its
    text is the content, under the file name [editorId ++ "_note.txt"].  It
    shows "Content saved to file" and schedules the clear of that message
    for 2 seconds later; content, settings and store stay as they are.  The
    message is transient: that clear, whenever it fires, blanks the message
    and leaves content and downloads alone, and when the timers pending at
    the click are all due later than that, it fires 2 seconds after the
    click. *)
Theorem saveToFile_download s :
  mounted s = true ->
  let c := mkTimer (nextTimerId (env s)) (now (env s) + 2000) None ClearStatus in
  exists s',
    step ClickSave s = Some s'
    /\ downloads (env s')
       = downloads (env s)
         ++ [mkDownload (mkBlob [content (hooks s)] "text/plain")
               (editorId (props s) +:+ "_note.txt")]
    /\ blob_text (mkBlob [content (hooks s)] "text/plain") = content (hooks s)
    /\ statusMessage (hooks s') = "Content saved to file"
    /\ timers (env s') = timers (env s) ++ [c]
    /\ content (hooks s') = content (hooks s)
    /\ editorSettings (hooks s') = editorSettings (hooks s)
    /\ saves (env s') = saves (env s)
    /\ (forall s2 rest,
          mounted s2 = true ->
          extract_next (timers (env s2)) = Some (c, rest) ->
          due c <= now (env s2) ->
          exists s3,
            step Fire s2 = Some s3
            /\ statusMessage (hooks s3) = ""
            /\ timers (env s3) = rest
            /\ content (hooks s3) = content (hooks s2)
            /\ downloads (env s3) = downloads (env s2))
    /\ (Forall (fun t => now (env s) + 2000 < due t) (timers (env s)) ->
        exists s2,
          run [Wait 2000; Fire] s' = Some s2
          /\ now (env s2) = now (env s) + 2000
          /\ statusMessage (hooks s2) = ""
          /\ timers (env s2) = timers (env s)
          /\ content (hooks s2) = content (hooks s)
          /\ downloads (env s2) = downloads (env s')).
Proof.
  intros Hm c. pose proof (step_ClickSave s Hm) as Hstep.
  set (s' := mkState _ _ _ true) in Hstep.
  assert (timers (env s') = timers (env s) ++ [c]) as Hts by done.
  exists s'. split; [exact Hstep|].
  split_and!; try done.
  - unfold blob_text. cbn. apply append_nil_r.
  - intros s2 rest Hm2 Hx2 Hd2.
    destruct (clear_fires s2 c rest Hm2 Hx2 Hd2 eq_refl eq_refl)
      as (s3 & Hs3 & _ & Hmsg & Hts3 & Hc3 & _ & _ & _ & Hdl).
    by exists s3.
  - intros Hall.
    rewrite (clear_after_two_seconds s' (timers (env s)) c []); try done.
    + eexists. split; [done|]. cbn. rewrite app_nil_r. by split_and!.
Qed.

(** *** The auto-save interval (C5) *)













(** *** Sessions and the store (X2, X3, X4) *)

Lemma run_reachable p evs s s' :
  Reachable p s -> run evs s = Some s' -> Reachable p s'.
Proof.
  revert s. induction evs as [|ev evs IH]; intros s Hr; cbn.
  - by intros [= <-].
  - destruct (step ev s) as [s1|] eqn:Hstep; [|done].
    intros Hrun. apply (IH s1); [|done]. by eapply reach_step.
Qed.

Lemma replay_snoc ws k v st : replay (ws ++ [(k, v)]) st = <[k := v]> (replay ws st).
Proof. unfold replay. by rewrite foldl_snoc. Qed.

Lemma replay_lookup_other ws st k :
  Forall (fun kv => kv.1 <> k) ws -> replay ws st !! k = st !! k.
Proof.
  induction ws as [|[k' v] ws IH] using rev_ind; [done|].
  rewrite Forall_app, Forall_singleton. cbn. intros [Hws Hk].
  rewrite replay_snoc, lookup_insert_ne by done. auto.
Qed.

Lemma render_saves_replay p prev next e st :
  store e = replay (saves e) st ->
  store (render_saves p prev next e) = replay (saves (render_saves p prev next e)) st.
Proof.
  intros He. unfold render_saves, save_content_effect, save_settings_effect,
    saveFeatureState.
  do 2 case_bool_decide; destruct (initialLoadDone next);
    cbn [store saves with_store]; rewrite ?replay_snoc, ?He; done.
Qed.

Lemma step_replay ev s s' st :
  initialLoadDone (hooks s) = true -> step ev s = Some s' ->
  store (env s) = replay (saves (env s)) st ->
  store (env s') = replay (saves (env s')) st.
Proof.
  intros Hl Hstep Hst.
  destruct (step_cases _ _ _ Hstep) as [(q & e & -> & Hq & He & Hs)|(_ & -> & ->)];
    [|done].
  destruct (mounted s) eqn:Hm.
  - destruct (flush_frame s q e Hm Hq) as (r & c & f & n & ->). cbn.
    apply render_saves_replay. by rewrite He, Hs.
  - rewrite flush_unmounted by done. cbn. by rewrite He, Hs.
Qed.

Lemma mount_replay p st t0 :
  store (env (mount p (fresh_env st t0)))
  = replay (saves (env (mount p (fresh_env st t0)))) st.
Proof.
  rewrite mount_eq. cbn zeta.
  match goal with |- context [auto_save_effect ?h ?e] =>
    destruct (auto_save_effect_frame h e) as (r & c & f & n & ->) end.
  done.
Qed.

Lemma run_replay p st evs s0 s :
  Reachable p s0 -> store (env s0) = replay (saves (env s0)) st ->
  run evs s0 = Some s -> store (env s) = replay (saves (env s)) st.
Proof.
  revert s0. induction evs as [|ev evs IH]; intros s0 Hr Hst; cbn.
  - by intros [= <-].
  - destruct (step ev s0) as [s1|] eqn:Hstep; [|done].
    apply IH; [by eapply reach_step|].
    apply (step_replay ev s0); [|done..]. by apply reachable_inv in Hr as [? _].
Qed.

(** X2.  Whatever the user does after mounting, the store is the store the
    instance found with its own [saveFeatureState] calls applied in order,
    and every entry under a key other than [contentKey editorId] and
    [settingsKey editorId] is what it was before the mount: the instance
    never changes or removes another instance's records. *)
Theorem store_frame p st t0 evs s :
  run evs (mount p (fresh_env st t0)) = Some s ->
  store (env s) = replay (saves (env s)) st
  /\ forall k, k <> contentKey (editorId p) -> k <> settingsKey (editorId p) ->
       store (env s) !! k = st !! k.
Proof.
  intros Hrun.
  assert (Reachable p s) as Hr by (eapply run_reachable; [apply reach_mount|done]).
  assert (store (env s) = replay (saves (env s)) st) as Hst.
  { eapply run_replay; [apply reach_mount|apply mount_replay|done]. }
  split; [done|]. intros k Hc Hs. rewrite Hst. apply replay_lookup_other.
  eapply list.Forall_impl; [apply (reachable_saves_keys _ _ Hr)|].
  intros [k' v]. cbn. intros [->| ->]; done.
Qed.

Lemma step_unmounted ev s s' :
  mounted s = false -> step ev s = Some s' ->
  mounted s' = false /\ hooks s' = hooks s
  /\ store (env s') = store (env s) /\ saves (env s') = saves (env s)
  /\ downloads (env s') = downloads (env s)
  /\ (recurring_timers (env s) = [] -> recurring_timers (env s') = []).
Proof.
  intros Hm Hstep.
  destruct ev; cbn [step] in Hstep; rewrite ?Hm in Hstep; try done.
  - unfold clipboard_settled in Hstep.
    destruct (pendingWrites (env s)) as [|text rest]; [done|].
    destruct ok; cbn in Hstep; simplify_eq; rewrite flush_unmounted by done;
      cbn; (split_and!; try done); intros Hrec; solve_recurring.
  - case_match; simplify_eq. by cbn.
  - destruct (extract_next _) as [[t rest]|] eqn:Hx; [|done].
    case_bool_decide; simplify_eq. unfold fire_timer.
    rewrite flush_unmounted by done.
    assert (recurring_timers (env s) = [] -> filter recurring (rearm t rest) = []) as Hre.
    { intros Hrec. pose proof (recurring_rearm _ _ _ Hx) as Hr.
      destruct (period t).
      - destruct Hr as (F1 & F2 & HR & _). unfold recurring_timers in Hrec.
        rewrite Hrec in HR. by destruct F1.
      - by rewrite Hr. }
    rewrite timer_task_eq. destruct (callback t); cbn.
    + by split_and!.
    + split_and!; try done. intros Hrec. specialize (Hre Hrec).
      unfold recurring_timers. cbn. by rewrite recurring_rearm_snoc.
Qed.

(** X3.  Once unmounted, an instance is inert: whatever happens afterwards
    (pending clipboard writes settling, timers firing, time passing), its
    hooks, the store, the [saveFeatureState] calls and the downloads stay as
    they were at the unmount, no recurring timer is ever pending again, and
    no user event is accepted: the text area, the toolbar and the key
    listener are gone. *)
Theorem unmounted_is_inert p s evs s' :
  Reachable p s -> mounted s = false -> run evs s = Some s' ->
  mounted s' = false /\ hooks s' = hooks s
  /\ store (env s') = store (env s) /\ saves (env s') = saves (env s)
  /\ downloads (env s') = downloads (env s)
  /\ recurring_timers (env s') = []
  /\ (forall text, step (Typed text) s' = None)
  /\ step ClickSave s' = None /\ step ClickCopy s' = None
  /\ (forall b, step (ClickClear b) s' = None)
  /\ (forall k selection, step (KeyDown k selection) s' = None)
  /\ (forall k v, step (SettingChanged k v) s' = None).
Proof.
  intros Hr Hm Hrun.
  assert (recurring_timers (env s) = []) as Hrec.
  { apply reachable_inv in Hr as [_ (_ & _ & Ha)]. by rewrite Hm in Ha. }
  clear Hr. revert s Hm Hrec Hrun.
  induction evs as [|ev evs IH]; intros s Hm Hrec; cbn [run].
  - intros [= <-]. cbn [step]. by rewrite Hm.
  - destruct (step ev s) as [s1|] eqn:Hstep; [|done].
    destruct (step_unmounted _ _ _ Hm Hstep) as (Hm1 & Hh & Hst & Hsv & Hd & Hr1).
    intros Hrun.
    destruct (IH s1 Hm1 (Hr1 Hrec) Hrun) as (? & Hh' & Hst' & Hsv' & Hd' & ? & ? & ? & ? & ? & ? & ?).
    rewrite Hh', Hst', Hsv', Hd'. by split_and!.
Qed.

Lemma mount_settings p e :
  editorSettings (hooks (mount p e)) = loadEditorSettings (editorId p) e.
Proof.
  rewrite mount_eq. cbn zeta.
  match goal with |- context [auto_save_effect ?h ?e] =>
    destruct (auto_save_effect_frame h e) as (r & c & f & n & ->) end.
  done.
Qed.

(** X4.  What one session leaves in the store is what the next session of
    the same [editorId] loads: the settings record as it was in memory, and
    the content as it was in memory unless that was the empty string, in
    which case the new session starts from its [initialContent].  The two
    key prefixes are taken to differ. *)
Theorem reload_restores p s p' t1 :
  TEXT_EDITOR_STORAGE_KEY <> TEXT_EDITOR_SETTINGS_KEY ->
  Reachable p s -> editorId p' = editorId p ->
  let s2 := mount p' (fresh_env (store (env s)) t1) in
  editorSettings (hooks s2) = editorSettings (hooks s)
  /\ (content (hooks s) <> "" -> content (hooks s2) = content (hooks s))
  /\ (content (hooks s) = "" -> content (hooks s2) = initialContent p').
Proof.
  intros Hk Hr Hid s2. subst s2.
  destruct (reachable_mirrors _ _ Hk Hr) as [Hc Hs].
  rewrite (reachable_props _ _ Hr), <- Hid in Hc, Hs.
  rewrite mount_settings, mount_content.
  unfold loadEditorSettings, loadEditorContent, js_or. cbn. rewrite Hc, Hs.
  split_and!; try done.
  - intros Hne. by rewrite bool_decide_false.
  - intros ->. done.
Qed.

(** *** Status messages the component shows (X5) *)

Lemma foldl_status_ok h q :
  (statusMessage h = "" \/ statusMessage h ∈ shown_messages) ->
  Forall status_update_ok q ->
  statusMessage (foldl apply_update h q) = ""
  \/ statusMessage (foldl apply_update h q) ∈ shown_messages.
Proof.
  intros Hh Hq. revert h Hh. induction Hq as [|u q Hu Hq IH]; intros h Hh; [done|].
  cbn [foldl]. apply IH. by destruct u.
Qed.

Lemma flush_status_ok s q e :
  Forall user_update q -> Forall status_update_ok q ->
  (statusMessage (hooks s) = "" \/ statusMessage (hooks s) ∈ shown_messages) ->
  statusMessage (hooks (flush s (q, e))) = ""
  \/ statusMessage (hooks (flush s (q, e))) ∈ shown_messages.
Proof.
  intros Hq Hok Hs. destruct (mounted s) eqn:Hm.
  - destruct (flush_hooks s q e Hm Hq) as (r & c & ->). cbn.
    by apply foldl_status_ok.
  - by rewrite flush_unmounted.
Qed.

Lemma step_status ev s s' :
  step ev s = Some s' ->
  (statusMessage (hooks s) = "" \/ statusMessage (hooks s) ∈ shown_messages) ->
  statusMessage (hooks s') = "" \/ statusMessage (hooks s') ∈ shown_messages.
Proof.
  intros Hstep Hs.
  destruct ev; cbn [step] in Hstep.
  - destruct (mounted s); simplify_eq.
    apply flush_status_ok; [..|done]; solve_updates.
  - destruct (mounted s); simplify_eq.
    apply flush_status_ok; [..|done]; solve_updates.
  - destruct (mounted s); simplify_eq.
    apply flush_status_ok; [..|done]; solve_updates.
  - destruct (mounted s); simplify_eq.
    unfold handleSaveToFile, showStatusMessage.
    apply flush_status_ok; [..|done]; solve_updates.
  - destruct (mounted s); simplify_eq. unfold handleCopyToClipboard.
    destruct clipboardApi; cbn;
      (apply flush_status_ok; [..|done]); solve_updates.
  - destruct (mounted s); simplify_eq. destruct confirmed; cbn;
      (apply flush_status_ok; [..|done]); solve_updates.
  - destruct (mounted s); simplify_eq. unfold keydown, handleKeyDown.
    destruct (ctrlKey ev && _), (ctrlKey _ && _ && _); cbn;
      unfold handleCopyToClipboard; try destruct clipboardApi; cbn;
      (apply flush_status_ok; [..|done]); solve_updates.
  - unfold clipboard_settled in Hstep.
    destruct (pendingWrites (env s)) as [|text rest]; [done|].
    destruct ok; cbn in Hstep; simplify_eq;
      (apply flush_status_ok; [..|done]); solve_updates.
  - case_match; by simplify_eq.
  - destruct (extract_next _) as [[t rest]|]; [|done].
    case_bool_decide; simplify_eq. unfold fire_timer.
    rewrite timer_task_eq. destruct (callback t); cbn;
      (apply flush_status_ok; [..|done]); solve_updates.
  - destruct (mounted s); by simplify_eq.
Qed.

Lemma shown_messages_proper (m : string) :
  m ∈ shown_messages -> m <> "" /\ m <> "Ready".
Proof.
  rewrite list_elem_of_In. unfold shown_messages. cbn.
  intros [<-|[<-|[<-|[<-|[<-|[]]]]]]; by split.
Qed.

(** X5.  The status message of an instance is always empty or one of the
    five texts the component passes to [showStatusMessage]; so the status
    bar, which shows "Ready" for the empty message, shows one of six fixed
    texts, "Ready" exactly when no message is set, and never an empty
    text. *)
Theorem status_bar_texts p s :
  Reachable p s ->
  (statusMessage (hooks s) = "" \/ statusMessage (hooks s) ∈ shown_messages)
  /\ statusBarText (hooks s) ∈ "Ready" :: shown_messages
  /\ (statusBarText (hooks s) = "Ready" <-> statusMessage (hooks s) = "")
  /\ statusBarText (hooks s) <> "".
Proof.
  intros Hr.
  assert (statusMessage (hooks s) = "" \/ statusMessage (hooks s) ∈ shown_messages) as H.
  { induction Hr as [st t0|s ev s' Hr IH Hstep].
    - left. rewrite mount_eq. cbn zeta.
      match goal with |- context [auto_save_effect ?h ?e] =>
        destruct (auto_save_effect_frame h e) as (r & c & f & n & ->) end.
      done.
    - by eapply step_status. }
  split; [done|]. unfold statusBarText, js_or.
  destruct H as [->|Hin].
  - rewrite bool_decide_true by done. split_and!; [by left|done|done].
  - destruct (shown_messages_proper _ Hin) as [Hne Hready].
    rewrite bool_decide_false by done. split_and!; [by right| |done].
    by split.
Qed.

(** *** Instances side by side (X10) *)

Lemma auto_save_effect_hooks h e e' :
  nextTimerId e' = nextTimerId e ->
  fst (auto_save_effect h e') = fst (auto_save_effect h e).
Proof.
  intros Hn. unfold auto_save_effect. destruct (_ || _); [done|].
  cbn. by rewrite !nextTimerId_clear, Hn.
Qed.

(** What a mount leaves in the hooks depends on the store only through the
    two records of the instance. *)
Lemma mount_hooks_store p st st' t0 t1 :
  st' !! contentKey (editorId p) = st !! contentKey (editorId p) ->
  st' !! settingsKey (editorId p) = st !! settingsKey (editorId p) ->
  hooks (mount p (fresh_env st' t1)) = hooks (mount p (fresh_env st t0)).
Proof.
  intros Hc Hs. rewrite !mount_eq. cbn zeta. cbn [hooks].
  unfold loadEditorContent, loadEditorSettings. cbn [store fresh_env].
  rewrite Hc, Hs. by apply auto_save_effect_hooks.
Qed.

(** X10.  Editors with different [editorId]s that share a store do not
    interfere, provided the content key of the one is not the settings key
    of the other: whatever happens in a session of the one, an instance of
    the other mounted afterwards finds its two records as they were and
    starts in the state it would have started in had that session never
    taken place. *)
Theorem editors_do_not_interfere p st t0 evs s p' t1 :
  editorId p' <> editorId p ->
  contentKey (editorId p') <> settingsKey (editorId p) ->
  settingsKey (editorId p') <> contentKey (editorId p) ->
  run evs (mount p (fresh_env st t0)) = Some s ->
  store (env s) !! contentKey (editorId p') = st !! contentKey (editorId p')
  /\ store (env s) !! settingsKey (editorId p') = st !! settingsKey (editorId p')
  /\ hooks (mount p' (fresh_env (store (env s)) t1))
     = hooks (mount p' (fresh_env st t1)).
Proof.
  intros Hid Hcs Hsc Hrun.
  assert (Reachable p s) as Hr by (eapply run_reachable; [apply reach_mount|done]).
  assert (store (env s) = replay (saves (env s)) st) as Hst.
  { eapply run_replay; [apply reach_mount|apply mount_replay|done]. }
  assert (forall k, k <> contentKey (editorId p) -> k <> settingsKey (editorId p) ->
            store (env s) !! k = st !! k) as Hframe.
  { intros k Hc Hs. rewrite Hst. apply replay_lookup_other.
    eapply list.Forall_impl; [apply (reachable_saves_keys _ _ Hr)|].
    intros [k' v]. cbn. intros [->| ->]; done. }
  assert (store (env s) !! contentKey (editorId p') = st !! contentKey (editorId p')) as Hc.
  { apply Hframe; [|done]. intros E. by apply contentKey_inj in E. }
  assert (store (env s) !! settingsKey (editorId p') = st !! settingsKey (editorId p')) as Hs.
  { apply Hframe; [done|]. intros E. by apply settingsKey_inj in E. }
  split_and!; [done..|]. by apply mount_hooks_store.
Qed.

(** *** Downloads (X11) *)

Lemma downloads_render_saves p prev next e :
  downloads (render_saves p prev next e) = downloads e.
Proof.
  unfold render_saves, save_content_effect, save_settings_effect.
  do 2 case_bool_decide; by destruct (initialLoadDone next).
Qed.

Lemma flush_downloads s r :
  Forall user_update (fst r) -> downloads (env (flush s r)) = downloads (snd r).
Proof.
  destruct r as [q e]. cbn [fst snd]. intros Hq. destruct (mounted s) eqn:Hm.
  - destruct (flush_frame s q e Hm Hq) as (r & c & f & n & ->). cbn.
    apply downloads_render_saves.
  - by rewrite flush_unmounted.
Qed.

Lemma mount_downloads p st t0 : downloads (env (mount p (fresh_env st t0))) = [].
Proof.
  rewrite mount_eq. cbn zeta.
  match goal with |- context [auto_save_effect ?h ?e] =>
    destruct (auto_save_effect_frame h e) as (r & c & f & n & ->) end.
  done.
Qed.

Lemma step_downloads ev s s' :
  step ev s = Some s' ->
  downloads (env s') = downloads (env s)
  \/ (downloads (env s')
      = downloads (env s)
        ++ [mkDownload (mkBlob [content (hooks s)] "text/plain")
              (editorId (props s) +:+ "_note.txt")]
      /\ mounted s = true
      /\ (ev = ClickSave
          \/ exists k selection,
               ev = KeyDown k selection /\ ctrlKey k = true /\ key k = "s")).
Proof.
  intros Hstep. destruct ev; cbn [step] in Hstep.
  - destruct (mounted s); simplify_eq. left.
    apply flush_downloads. by repeat constructor.
  - destruct (mounted s); simplify_eq. left.
    apply flush_downloads. by repeat constructor.
  - destruct (mounted s); simplify_eq. left.
    apply flush_downloads. by repeat constructor.
  - destruct (mounted s) eqn:Hm; simplify_eq. right. split_and!; [|done|by left].
    unfold handleSaveToFile, showStatusMessage.
    rewrite flush_downloads by (by repeat constructor). done.
  - destruct (mounted s); simplify_eq. left. unfold handleCopyToClipboard.
    destruct clipboardApi; cbn;
      rewrite flush_downloads by (by repeat constructor); done.
  - destruct (mounted s); simplify_eq. left.
    destruct confirmed; cbn; rewrite flush_downloads by (by repeat constructor); done.
  - destruct (mounted s) eqn:Hm; simplify_eq. unfold keydown.
    destruct (bool_decide_reflect (ctrlKey ev = true /\ key ev = "s")) as [[Hc Hk]|Hns].
    + right. rewrite handleKeyDown_save by done. cbn [snd].
      split_and!; [|done|right; by exists ev, selection].
      unfold handleSaveToFile, showStatusMessage.
      rewrite flush_downloads by (by repeat constructor). done.
    + left. destruct (bool_decide_reflect
                  (ctrlKey ev = true /\ key ev = "c" /\ selection = Some ""))
        as [(Hc & Hk & ->)|Hnc].
      * rewrite handleKeyDown_copy by done. cbn [snd]. unfold handleCopyToClipboard.
        destruct clipboardApi; cbn;
          rewrite flush_downloads by (by repeat constructor); done.
      * rewrite handleKeyDown_none.
        -- cbn [snd]. by rewrite flush_downloads by constructor.
        -- destruct (ctrlKey ev); [|done]. cbn. apply bool_decide_eq_false.
           intros E. by apply Hns.
        -- destruct (ctrlKey ev); [|done]. cbn.
           destruct (bool_decide_reflect (key ev = "c")); [|done].
           cbn. apply bool_decide_eq_false. intros E. by apply Hnc.
  - unfold clipboard_settled in Hstep.
    destruct (pendingWrites (env s)) as [|text rest]; [done|]. left.
    destruct ok; cbn in Hstep; simplify_eq;
      rewrite flush_downloads by (by repeat constructor); done.
  - case_match; simplify_eq. by left.
  - destruct (extract_next _) as [[t rest]|]; [|done].
    case_bool_decide; simplify_eq. left. unfold fire_timer.
    rewrite timer_task_eq. destruct (callback t); cbn;
      rewrite flush_downloads by (by repeat constructor); done.
  - destruct (mounted s); simplify_eq. left. unfold unmount. cbn.
    by destruct (auto_save_cleanup_frame (hooks s) (env s)) as [f ->].
Qed.

(** X11.  An instance downloads only on request: an event adds a download
    only if it is a click on Save or a key press of Ctrl+S on the mounted
    instance, and then it adds exactly one, a plain-text blob whose text is
    the whole content at that moment, named [editorId] followed by
    [_note.txt]; no timer, render, setting or clipboard event downloads
    anything, and a download once made stays in the list.  So every
    download an instance has made is such a file. *)
Theorem downloads_only_on_request p s :
  Reachable p s ->
  Forall (note_download p) (downloads (env s))
  /\ forall ev s', step ev s = Some s' ->
       downloads (env s') = downloads (env s)
       \/ (mounted s = true
           /\ (ev = ClickSave
               \/ exists k selection,
                    ev = KeyDown k selection /\ ctrlKey k = true /\ key k = "s")
           /\ exists d, downloads (env s') = downloads (env s) ++ [d]
                /\ note_download p d
                /\ blob_text (href d) = content (hooks s)).
Proof.
  intros Hr. split.
  - induction Hr as [st t0|s ev s' Hr IH Hstep].
    + rewrite mount_downloads. constructor.
    + destruct (step_downloads _ _ _ Hstep) as [->|(-> & _ & _)]; [done|].
      apply Forall_app. split; [done|]. apply Forall_singleton.
      by rewrite (reachable_props _ _ Hr).
  - intros ev s' Hstep.
    destruct (step_downloads _ _ _ Hstep) as [->|(-> & Hm & Hev)]; [by left|].
    right. split_and!; [done..|]. eexists. split; [done|].
    rewrite (reachable_props _ _ Hr). split; [done|].
    unfold blob_text. cbn. apply append_nil_r.
Qed.

(** *** The clipboard (X12) *)

Lemma clipboard_render_saves p prev next e :
  clipboard (render_saves p prev next e) = clipboard e
  /\ pendingWrites (render_saves p prev next e) = pendingWrites e.
Proof.
  unfold render_saves, save_content_effect, save_settings_effect.
  do 2 case_bool_decide; by destruct (initialLoadDone next).
Qed.

Lemma flush_clipboard s r :
  Forall user_update (fst r) ->
  clipboard (env (flush s r)) = clipboard (snd r)
  /\ pendingWrites (env (flush s r)) = pendingWrites (snd r).
Proof.
  destruct r as [q e]. cbn [fst snd]. intros Hq. destruct (mounted s) eqn:Hm.
  - destruct (flush_frame s q e Hm Hq) as (r & c & f & n & ->). cbn.
    apply clipboard_render_saves.
  - by rewrite flush_unmounted.
Qed.

Lemma step_clipboard ev s s' :
  clipboard_event ev = false -> step ev s = Some s' ->
  clipboard (env s') = clipboard (env s)
  /\ pendingWrites (env s') = pendingWrites (env s).
Proof.
  intros Hev Hstep. destruct ev; try done; cbn [step] in Hstep.
  - destruct (mounted s); simplify_eq. apply flush_clipboard. by repeat constructor.
  - destruct (mounted s); simplify_eq. apply flush_clipboard. by repeat constructor.
  - destruct (mounted s); simplify_eq. apply flush_clipboard. by repeat constructor.
  - destruct (mounted s); simplify_eq. unfold handleSaveToFile, showStatusMessage.
    apply flush_clipboard. by repeat constructor.
  - destruct (mounted s); simplify_eq.
    destruct confirmed; cbn; apply flush_clipboard; by repeat constructor.
  - destruct (mounted s); simplify_eq. cbn in Hev. unfold keydown, handleKeyDown.
    destruct (ctrlKey ev && bool_decide (key ev = "s")) eqn:Hs; cbn [ctrlKey key preventDefault].
    + rewrite Hev. cbn. unfold handleSaveToFile, showStatusMessage.
      apply flush_clipboard. by repeat constructor.
    + rewrite Hev. cbn. apply flush_clipboard. constructor.
  - case_match; simplify_eq. done.
  - destruct (extract_next _) as [[t rest]|]; [|done].
    case_bool_decide; simplify_eq. unfold fire_timer.
    rewrite timer_task_eq. destruct (callback t); cbn; apply flush_clipboard; by repeat constructor.
  - destruct (mounted s); simplify_eq. unfold unmount. cbn.
    by destruct (auto_save_cleanup_frame (hooks s) (env s)) as [f ->].
Qed.

Lemma run_clipboard evs s s' :
  forallb (fun ev => negb (clipboard_event ev)) evs = true -> run evs s = Some s' ->
  clipboard (env s') = clipboard (env s)
  /\ pendingWrites (env s') = pendingWrites (env s).
Proof.
  revert s. induction evs as [|ev evs IH]; intros s Hevs; cbn [run].
  - by intros [= <-].
  - cbn in Hevs. apply andb_prop in Hevs as [Hev Hevs].
    apply negb_true_iff in Hev.
    destruct (step ev s) as [s1|] eqn:Hstep; [|done]. intros Hrun.
    destruct (IH s1 Hevs Hrun) as [-> ->]. by apply (step_clipboard ev).
Qed.

(** X12.  A copy takes the content as it is when Copy is clicked: with no
    other write pending, whatever happens between the click and the moment
    the write resolves, other than clipboard events (typing, clearing the
    text, settings, saves, timers, even the unmount of the instance), none
    of it writes to the clipboard, and once the write has resolved the
    clipboard holds the content of the moment of the click, not the content
    of the moment the write resolves.  (On a page that has the Clipboard
    API the write is pending and can resolve.) *)
Theorem copy_takes_content_at_click s s1 evs s2 :
  mounted s = true -> pendingWrites (env s) = [] ->
  step ClickCopy s = Some s1 ->
  forallb (fun ev => negb (clipboard_event ev)) evs = true ->
  run evs s1 = Some s2 ->
  clipboard (env s2) = clipboard (env s)
  /\ (forall s3, step (ClipboardSettled true) s2 = Some s3 ->
        clipboard (env s3) = content (hooks s)
        /\ pendingWrites (env s3) = [])
  /\ (clipboardApi = true -> exists s3, step (ClipboardSettled true) s2 = Some s3).
Proof.
  intros Hm Hp Hcopy Hevs Hrun.
  destruct (run_clipboard _ _ _ Hevs Hrun) as [Hc Hpw].
  destruct clipboardApi eqn:Hapi.
  - rewrite step_ClickCopy in Hcopy by done. simplify_eq.
    cbn in Hc, Hpw. rewrite Hp in Hpw. cbn in Hpw.
    assert (step (ClipboardSettled true) s2
            = Some (flush s2 (showStatusMessage "Content copied to clipboard!"
                                (with_clipboard (content (hooks s)) [] (env s2))))) as Hs.
    { cbn [step]. unfold clipboard_settled. by rewrite Hpw. }
    split; [done|]. split; [|by eexists].
    intros s3 Hs3. rewrite Hs in Hs3. injection Hs3 as <-.
    destruct (flush_clipboard s2
                (showStatusMessage "Content copied to clipboard!"
                   (with_clipboard (content (hooks s)) [] (env s2)))) as [-> ->];
      [by repeat constructor|]. done.
  - rewrite step_ClickCopy_no_api in Hcopy by done. simplify_eq.
    cbn in Hc, Hpw. rewrite Hp in Hpw.
    split; [done|]. split; [|done].
    intros s3 Hs3. cbn [step] in Hs3. unfold clipboard_settled in Hs3.
    by rewrite Hpw in Hs3.
Qed.

(** *** Status messages are transient (X6) *)

Lemma ids_inv_ref h h' e :
  autoSaveTimerRef h' = autoSaveTimerRef h -> ids_inv h e -> ids_inv h' e.
Proof. unfold ids_inv. by intros ->. Qed.

Lemma timeouts_kept_refl e : timeouts_kept e e.
Proof. by intros ?. Qed.

Lemma clear_keeps h e :
  ids_inv h e ->
  ids_inv h (clear_autoSaveTimer h e) /\ timeouts_kept e (clear_autoSaveTimer h e).
Proof.
  intros Hinv. unfold clear_autoSaveTimer.
  destruct (autoSaveTimerRef h) as [id|] eqn:E; [case_bool_decide|];
    try (split; [done|apply timeouts_kept_refl]).
  destruct Hinv as [Hts Href]. split.
  - split; [|exact Href]. cbn. by apply Forall_filter_timers.
  - intros t Hin Hp. cbn. apply list_elem_of_filter. split; [|done].
    rewrite list.Forall_forall in Hts. destruct (Hts t Hin) as [_ Hne].
    specialize (Hne Hp). congruence.
Qed.

Lemma setTimeout_ids h cb delay e :
  ids_inv h e -> ids_inv h (snd (setTimeout cb delay e)).
Proof.
  intros [Hts Href]. split; cbn.
  - apply Forall_app. split.
    + eapply list.Forall_impl; [exact Hts|]. cbn. intros t [? ?]. split; [lia|done].
    + apply Forall_singleton. cbn. split; [lia|]. intros _ E.
      apply Href in E. lia.
  - intros id E. apply Href in E. lia.
Qed.

Lemma effect_keeps h e h' e' :
  auto_save_effect h e = (h', e') -> ids_inv h e ->
  ids_inv h' e' /\ timeouts_kept e e' /\ now e' = now e
  /\ statusMessage h' = statusMessage h.
Proof.
  intros Heff Hinv. destruct (clear_keeps h e Hinv) as [[Hts Href] Hkept].
  pose proof (now_clear h e) as Hnow.
  unfold auto_save_effect in Heff. destruct (_ || _); cbn in Heff; simplify_eq.
  - by split_and!.
  - cbn. split_and!; try done.
    + split; cbn.
      * apply Forall_app. split.
        -- eapply list.Forall_impl; [exact Hts|]. cbn. intros t [Hlt Hne].
           split; [lia|]. intros _ [= E]. lia.
        -- apply Forall_singleton. cbn. split; [lia|done].
      * intros id [= <-]. lia.
    + intros t Hin Hp. apply elem_of_app. left. by apply Hkept.
Qed.

Lemma cleanup_keeps h e :
  ids_inv h e ->
  ids_inv h (auto_save_cleanup h e) /\ timeouts_kept e (auto_save_cleanup h e).
Proof.
  intros Hinv. unfold auto_save_cleanup. destruct (autoSaveCleanup h).
  - by apply clear_keeps.
  - split; [done|apply timeouts_kept_refl].
Qed.

Lemma commit_shape p prev next e :
  exists a c d : bool,
    commit p prev next e
    = let e1 := if a then auto_save_cleanup next e else e in
      let e2 := if c then save_content_effect p next e1 else e1 in
      let e3 := if d then save_settings_effect p next e2 else e2 in
      if a then auto_save_effect next e3 else (next, e3).
Proof. unfold commit. by eexists _, _, _. Qed.

(** A render neither cancels a pending timeout nor moves the clock. *)
Lemma commit_keeps p prev next e h' e' :
  commit p prev next e = (h', e') ->
  autoSaveTimerRef next = autoSaveTimerRef prev -> ids_inv prev e ->
  ids_inv h' e' /\ timeouts_kept e e' /\ now e' = now e
  /\ statusMessage h' = statusMessage next.
Proof.
  intros Hc Href Hinv. apply (ids_inv_ref prev next) in Hinv; [|done].
  destruct (commit_shape p prev next e) as (a & c & d & E).
  rewrite E in Hc. clear E. cbv zeta in Hc.
  set (e1 := if a then auto_save_cleanup next e else e) in Hc.
  assert (ids_inv next e1 /\ timeouts_kept e e1 /\ now e1 = now e) as (H1 & K1 & N1).
  { subst e1. destruct a; [|split_and!; [done|apply timeouts_kept_refl|done]].
    destruct (cleanup_keeps next e Hinv). split_and!; try done.
    by destruct (auto_save_cleanup_frame next e) as [f ->]. }
  clearbody e1.
  set (e2 := if c then save_content_effect p next e1 else e1) in Hc.
  set (e3 := if d then save_settings_effect p next e2 else e2) in Hc.
  assert (exists F G, e3 = with_store F G e1) as (F & G & E3).
  { subst e3 e2.
    destruct (save_content_effect_frame p next e1) as (F1 & G1 & ->).
    destruct (save_settings_effect_frame p next (with_store F1 G1 e1)) as (F2 & G2 & E2).
    destruct (save_settings_effect_frame p next e1) as (F3 & G3 & E3).
    destruct c, d; rewrite ?E2, ?E3.
    - by exists (fun st => F2 (F1 st)), (fun l => G2 (G1 l)).
    - by exists F1, G1.
    - by exists F3, G3.
    - exists (fun st => st), (fun l => l). by rewrite with_store_id. }
  rewrite E3 in Hc. clear E3 e3 e2.
  destruct a.
  - apply effect_keeps in Hc as (? & K & ? & ?); [|exact H1].
    split_and!; try done.
    + intros t Hin Hp. apply K; [|done]. cbn. by apply K1.
    + cbn in *. congruence.
  - simplify_eq. split_and!; try done.
Qed.

Lemma clear_due_now e e' t :
  now e <= now e' -> clear_due e t -> clear_due e' t.
Proof. unfold clear_due. intros Hn (? & ? & ?). split_and!; [done..|lia]. Qed.

Lemma Exists_kept e e' :
  timeouts_kept e e' -> now e <= now e' ->
  Exists (clear_due e) (timers e) -> Exists (clear_due e') (timers e').
Proof.
  intros Hk Hn. rewrite !list.Exists_exists. intros (t & Hin & Hd).
  exists t. split; [apply Hk; [done|by destruct Hd as (_ & ? & _)]|].
  by eapply clear_due_now.
Qed.

(** What a handler hands over while a message may be showing: ids in order,
    the clock where it was, and a pending clear for the message that the
    queued updates leave. *)
Lemma flush_transient s q e :
  Forall user_update q -> ids_inv (hooks s) e ->
  (mounted s = true ->
   statusMessage (foldl apply_update (hooks s) q) <> "" ->
   Exists (clear_due e) (timers e)) ->
  ids_inv (hooks (flush s (q, e))) (env (flush s (q, e)))
  /\ (mounted s = true ->
      clear_pending (hooks (flush s (q, e))) (env (flush s (q, e))))
  /\ now (env (flush s (q, e))) = now e.
Proof.
  intros Hq Hinv Hex. unfold flush. destruct (mounted s) eqn:Hm; cbn [fst snd].
  - destruct (commit _ _ _ _) as [h' e'] eqn:Hc.
    destruct (foldl_apply_update_ref (hooks s) q) as [Href _].
    apply commit_keeps in Hc as (? & K & Hn & Hmsg); [|done..].
    cbn. split_and!; try done. intros _ Hne. rewrite Hmsg in Hne.
    apply (Exists_kept e e'); [done|lia|]. by apply Hex.
  - cbn. by split_and!.
Qed.

Lemma showStatusMessage_clear_due message e :
  Exists (clear_due (snd (showStatusMessage message e)))
    (timers (snd (showStatusMessage message e))).
Proof.
  cbn. apply Exists_app. right. apply Exists_cons_hd.
  unfold clear_due. cbn. norm_delay. split_and!; [done..|lia].
Qed.

Lemma ids_inv_rearm h e t X n' :
  (forall id, autoSaveTimerRef h = Some id -> (id < n')%nat) ->
  (timerId t < n')%nat ->
  Forall (fun x => (timerId x < n')%nat
                   /\ (period x = None -> autoSaveTimerRef h <> Some (timerId x))) X ->
  ids_inv h (with_timers (fun _ => rearm t X) n' e).
Proof.
  intros Href Ht HX. split; [|done]. cbn. unfold rearm.
  destruct (period t) eqn:Hp; [|done].
  apply Forall_app. split; [done|]. apply Forall_singleton. by cbn.
Qed.

Lemma foldl_status_untouched h q :
  Forall (fun u => match u with SetStatusMessage _ => False | _ => True end) q ->
  statusMessage (foldl apply_update h q) = statusMessage h.
Proof.
  intros Hq. revert h. induction Hq as [|u q Hu Hq IH]; intros h; [done|].
  cbn [foldl]. rewrite IH. by destruct u.
Qed.

Lemma step_transient ev s s' :
  Inv s -> step ev s = Some s' ->
  ids_inv (hooks s) (env s) ->
  (mounted s = true -> clear_pending (hooks s) (env s)) ->
  ids_inv (hooks s') (env s')
  /\ (mounted s' = true -> clear_pending (hooks s') (env s')).
Proof.
  intros Hinv Hstep Hids Hcp.
  assert (forall q, Forall user_update q ->
            Forall (fun u => match u with SetStatusMessage _ => False | _ => True end) q ->
            ids_inv (hooks (flush s (q, env s))) (env (flush s (q, env s)))
            /\ (mounted (flush s (q, env s)) = true ->
                clear_pending (hooks (flush s (q, env s))) (env (flush s (q, env s)))))
    as Hquiet.
  { intros q Hq Hno. destruct (flush_transient s q (env s) Hq Hids) as (? & Hc & _).
    - intros Hm. rewrite foldl_status_untouched by done. by apply Hcp.
    - split; [done|]. rewrite flush_mounted. done. }
  assert (forall message (e : Env) q,
            ids_inv (hooks s) e ->
            Forall user_update (q ++ [SetStatusMessage message]) ->
            let r := showStatusMessage message e in
            ids_inv (hooks (flush s (q ++ fst r, snd r))) (env (flush s (q ++ fst r, snd r)))
            /\ (mounted (flush s (q ++ fst r, snd r)) = true ->
                clear_pending (hooks (flush s (q ++ fst r, snd r)))
                  (env (flush s (q ++ fst r, snd r)))))
    as Hshow.
  { intros message e q He Hq r. subst r.
    destruct (flush_transient s (q ++ [SetStatusMessage message])
                (snd (showStatusMessage message e)) Hq) as (? & Hc & _).
    - by apply setTimeout_ids.
    - intros _ _. apply showStatusMessage_clear_due.
    - split; [done|]. by rewrite flush_mounted. }
  destruct ev; cbn [step] in Hstep.
  - destruct (mounted s) eqn:Hm; simplify_eq. apply Hquiet; by repeat constructor.
  - destruct (mounted s) eqn:Hm; simplify_eq. apply Hquiet; by repeat constructor.
  - destruct (mounted s) eqn:Hm; simplify_eq. apply Hquiet; by repeat constructor.
  - destruct (mounted s) eqn:Hm; simplify_eq. unfold handleSaveToFile.
    apply (Hshow _ _ []); [exact Hids|by repeat constructor].
  - destruct (mounted s) eqn:Hm; simplify_eq. unfold handleCopyToClipboard.
    destruct clipboardApi.
    + destruct (flush_transient s [] (with_clipboard (clipboard (env s))
                  (pendingWrites (env s) ++ [content (hooks s)]) (env s)))
        as (? & Hc & _); [constructor|exact Hids| |].
      * intros _. cbn. intros Hne. by apply Hcp.
      * split; [done|]. by rewrite flush_mounted.
    + apply (Hshow _ _ []); [exact Hids|by repeat constructor].
  - destruct (mounted s) eqn:Hm; simplify_eq. destruct confirmed.
    + unfold handleClearText.
      apply (Hshow "All text cleared" (env s) [SetContent ""]);
        [exact Hids|by repeat constructor].
    + apply Hquiet; constructor.
  - destruct (mounted s) eqn:Hm; simplify_eq. unfold keydown.
    destruct (bool_decide_reflect (ctrlKey ev = true /\ key ev = "s")) as [[Hc Hk]|Hns].
    + rewrite handleKeyDown_save by done. cbn [snd]. unfold handleSaveToFile.
      apply (Hshow _ _ []); [exact Hids|by repeat constructor].
    + destruct (bool_decide_reflect
                  (ctrlKey ev = true /\ key ev = "c" /\ selection = Some ""))
        as [(Hc & Hk & ->)|Hnc].
      * rewrite handleKeyDown_copy by done. cbn [snd]. unfold handleCopyToClipboard.
        destruct clipboardApi.
        -- destruct (flush_transient s [] (with_clipboard (clipboard (env s))
                       (pendingWrites (env s) ++ [content (hooks s)]) (env s)))
             as (? & Hcl & _); [constructor|exact Hids| |].
           ++ intros _. cbn. intros Hne. by apply Hcp.
           ++ split; [done|]. by rewrite flush_mounted.
        -- apply (Hshow _ _ []); [exact Hids|by repeat constructor].
      * rewrite handleKeyDown_none.
        -- cbn [snd]. apply Hquiet; constructor.
        -- destruct (ctrlKey ev); [|done]. cbn. apply bool_decide_eq_false.
           intros E. by apply Hns.
        -- destruct (ctrlKey ev); [|done]. cbn.
           destruct (bool_decide_reflect (key ev = "c")); [|done].
           cbn. apply bool_decide_eq_false. intros E. by apply Hnc.
  - unfold clipboard_settled in Hstep.
    destruct (pendingWrites (env s)) as [|text rest]; [done|].
    destruct ok; cbn [fmap option_fmap option_map] in Hstep; simplify_eq.
    + apply (Hshow _ _ []); [exact Hids|by repeat constructor].
    + apply (Hshow _ _ []); [exact Hids|by repeat constructor].
  - case_match eqn:Hg; simplify_eq. apply andb_prop in Hg as [Hdt _].
    apply bool_decide_eq_true in Hdt. cbn. split; [exact Hids|].
    intros Hm Hne. specialize (Hcp Hm Hne).
    rewrite !list.Exists_exists in *. destruct Hcp as (t & Hin & Hd).
    exists t. split; [done|]. eapply clear_due_now; [|done]. cbn. lia.
  - destruct (extract_next _) as [[t rest]|] eqn:Hx; [|done].
    case_bool_decide as Hdue; simplify_eq. unfold fire_timer. rewrite timer_task_eq.
    destruct Hids as [Hts Href].
    apply extract_next_split in Hx as (l1 & l2 & Hsplit & ->).
    rewrite Hsplit in Hts. apply Forall_app in Hts as [H1 H2].
    apply Forall_cons_1 in H2 as [[Ht _] H2].
    assert (Forall (fun x => (timerId x < nextTimerId (env s))%nat
                             /\ (period x = None
                                 -> autoSaveTimerRef (hooks s) <> Some (timerId x)))
              (l1 ++ l2)) as H12 by (apply Forall_app; by split).
    destruct (callback t) eqn:Hcb.
    + destruct (flush_transient s [SetStatusMessage ""]
                  (with_timers (fun _ => rearm t (l1 ++ l2)) (nextTimerId (env s)) (env s)))
        as (? & Hc & _); [by repeat constructor|by apply ids_inv_rearm|by cbn|].
      split; [done|]. by rewrite flush_mounted.
    + set (c := mkTimer (nextTimerId (env s)) (now (env s) + 2000) None ClearStatus).
      destruct (flush_transient s [SetStatusMessage "Auto-saved"]
                  (with_timers (fun _ => rearm t ((l1 ++ l2) ++ [c]))
                     (S (nextTimerId (env s))) (env s)))
        as (? & Hc & _); [by repeat constructor| | |].
      * apply ids_inv_rearm; [intros id E; apply Href in E; lia|lia|].
        apply Forall_app. split.
        -- eapply list.Forall_impl; [exact H12|]. cbn. intros x [? ?]. split; [lia|done].
        -- apply Forall_singleton. subst c. cbn. split; [lia|].
           intros _ E. apply Href in E. lia.
      * intros _ _. cbn. unfold rearm.
        assert (Exists (clear_due
                          (with_timers (fun _ => rearm t ((l1 ++ l2) ++ [c]))
                             (S (nextTimerId (env s))) (env s)))
                  ((l1 ++ l2) ++ [c])) as Hex.
        { apply Exists_app. right. apply Exists_cons_hd.
          unfold clear_due. subst c. cbn. split_and!; [done..|lia]. }
        destruct (period t); [|exact Hex]. apply Exists_app. by left.
      * split; [done|]. by rewrite flush_mounted.
  - destruct (mounted s) eqn:Hm; simplify_eq. unfold unmount. cbn.
    split; [|done]. by apply cleanup_keeps.
Qed.

Lemma mount_transient p st t0 :
  ids_inv (hooks (mount p (fresh_env st t0))) (env (mount p (fresh_env st t0)))
  /\ clear_pending (hooks (mount p (fresh_env st t0))) (env (mount p (fresh_env st t0))).
Proof.
  rewrite mount_eq. cbn zeta.
  match goal with |- context [auto_save_effect ?h ?e] =>
    destruct (auto_save_effect h e) as [h' e'] eqn:E end.
  apply effect_keeps in E as (? & _ & _ & Hmsg).
  - cbn. split; [done|]. intros Hne. by rewrite Hmsg in Hne.
  - split; [constructor|done].
Qed.

(** X6.  While an instance is mounted, a status message that is showing
    always has a clear of its own pending, due no later than two seconds
    from now: no event, render or auto-save teardown cancels a status clear
    (the id the auto-save ref holds is never the id of a timeout), so a
    message cannot stay on display for good. *)
Theorem status_message_is_transient p s :
  Reachable p s -> mounted s = true -> statusMessage (hooks s) <> "" ->
  exists t, t ∈ timers (env s) /\ callback t = ClearStatus /\ period t = None
            /\ now (env s) <= due t <= now (env s) + 2000
            /\ autoSaveTimerRef (hooks s) <> Some (timerId t).
Proof.
  intros Hr Hm Hne.
  assert (ids_inv (hooks s) (env s)
          /\ (mounted s = true -> clear_pending (hooks s) (env s))) as [Hids Hcp].
  { clear Hm Hne. induction Hr as [st t0|s ev s' Hr IH Hstep].
    - destruct (mount_transient p st t0). by split.
    - destruct IH as [Hids Hcp]. apply (step_transient ev s s'); try done.
      by eapply reachable_inv. }
  specialize (Hcp Hm Hne). apply list.Exists_exists in Hcp as (t & Hin & Hcb & Hp & Hd).
  exists t. split_and!; try done.
  - apply reachable_inv in Hr as [_ (_ & Hdue & _)].
    rewrite list.Forall_forall in Hdue. by apply Hdue.
  - destruct Hids as [Hts _]. rewrite list.Forall_forall in Hts.
    destruct (Hts t Hin) as [_ Hx]. by apply Hx.
Qed.

(** *** The toolbar (X7, X8, X9) *)

Lemma radix_digit_char d :
  (d < 10)%N -> radix_digit 10 (pretty_N_char d) = Some (Z.of_N d).
Proof. intros Hd. digit_cases d Hd; reflexivity. Qed.

Lemma parse_digits_pretty x s :
  (0 < x)%N ->
  parse_digits 10 (pretty_N_go x s) None = parse_digits 10 s (Some (Z.of_N x)).
Proof.
  revert s. induction (N.lt_wf_0 x) as [x _ IH]; intros s Hx.
  rewrite pretty_N_go_step by done.
  pose proof (N.div_mod x 10 ltac:(done)) as Hdm.
  assert (x `mod` 10 < 10)%N as Hm by (apply N.mod_lt; lia).
  assert (x `div` 10 < x)%N as Hlt by (apply N.div_lt; lia).
  destruct (decide (x `div` 10 = 0)%N) as [E|E].
  - rewrite E, pretty_N_go_0. cbn [parse_digits].
    rewrite radix_digit_char by done. cbn [default]. do 2 f_equal.
    rewrite E in Hdm. clear IH Hlt E. generalize dependent (x `mod` 10)%N. intros. unfold id. lia.
  - rewrite IH; [|done|lia]. cbn [parse_digits].
    rewrite radix_digit_char by done. cbn [default]. do 2 f_equal.
    clear IH Hlt. generalize dependent (x `mod` 10)%N.
    generalize dependent (x `div` 10)%N. intros. unfold id. lia.
Qed.

Lemma pretty_N_go_digits x s :
  (0 < x)%N -> digit_or_end s ->
  exists d r, (d < 10)%N /\ pretty_N_go x s = String (pretty_N_char d) r
              /\ digit_or_end r.
Proof.
  revert s. induction (N.lt_wf_0 x) as [x _ IH]; intros s Hx Hs.
  rewrite pretty_N_go_step by done.
  assert (x `mod` 10 < 10)%N as Hm by (apply N.mod_lt; lia).
  destruct (decide (x `div` 10 = 0)%N) as [E|E].
  - rewrite E, pretty_N_go_0. by exists (x `mod` 10)%N, s.
  - apply IH; [apply N.div_lt; lia|by apply N.neq_0_lt_0|]. right. by exists (x `mod` 10)%N, s.
Qed.

Lemma trim_start_digit d r :
  (d < 10)%N -> trim_start (String (pretty_N_char d) r) = String (pretty_N_char d) r.
Proof. intros Hd. digit_cases d Hd; by destruct r as [|b [|c r3]]. Qed.

Lemma trim_start_minus r : trim_start (String "-" r) = String "-"%char r.
Proof. by destruct r as [|b [|c r3]]. Qed.

Lemma parse_sign_digit d r :
  (d < 10)%N ->
  parse_sign (String (pretty_N_char d) r) = (1, String (pretty_N_char d) r).
Proof. intros Hd. by digit_cases d Hd. Qed.

Lemma parse_radix_digit d r :
  (d < 10)%N -> digit_or_end r ->
  parse_radix (String (pretty_N_char d) r) = (10, String (pretty_N_char d) r).
Proof.
  intros Hd [->|(d' & r' & Hd' & ->)]; [by digit_cases d Hd|].
  digit_cases d Hd; try done. by digit_cases d' Hd'.
Qed.

(** [parseInt] reads back what [toString] printed. *)
Lemma parseInt_toString n : parseInt (number_toString n) = Some n.
Proof.
  assert (forall p : positive,
            exists d r, (d < 10)%N /\ pretty p = String (pretty_N_char d) r
                        /\ digit_or_end r
                        /\ parse_digits 10 (pretty p) None = Some (Z.pos p)) as Hpos.
  { intros p. change (pretty p) with (pretty (N.pos p)).
    unfold pretty, pretty_N. rewrite decide_False by done.
    destruct (pretty_N_go_digits (N.pos p) "") as (d & r & Hd & E & Hr);
      [lia|by left|].
    exists d, r. split_and!; try done. by rewrite parse_digits_pretty by lia. }
  destruct n as [|p|p]; [done|..].
  - destruct (Hpos p) as (d & r & Hd & E & Hr & Hv).
    unfold parseInt, number_toString. change (pretty (Z.pos p)) with (pretty p).
    rewrite E, trim_start_digit, parse_sign_digit, parse_radix_digit by done.
    rewrite <- E, Hv. done.
  - destruct (Hpos p) as (d & r & Hd & E & Hr & Hv).
    unfold parseInt, number_toString.
    change (pretty (Z.neg p)) with (String "-" (pretty p)).
    rewrite trim_start_minus. cbn [parse_sign].
    rewrite E, parse_radix_digit by done.
    rewrite <- E, Hv. done.
Qed.

Lemma number_toString_inj n m : number_toString n = number_toString m -> n = m.
Proof. apply (inj pretty). Qed.

(** X7.  The text-style toggle group.  Whatever list of values the group
    hands to its handler, the three flags become whether ["bold"],
    ["italic"] and ["underline"] occur in it, and the group then shows those
    of the three that occur, in that order: order, repetitions and other
    strings in the list make no difference.  The text area is styled
    accordingly, no other setting and not the content is touched, and
    handing the group what it shows back to the handler leaves the settings
    as they are. *)
Theorem textStyles_group_normalises h values :
  let st' := editorSettings (foldl apply_update h (textStylesChanged values)) in
  textStylesValue st' = filter (fun v => v ∈ values) ["bold"; "italic"; "underline"]
  /\ (style_fontWeight (textareaStyle st') = "bold" <-> "bold" ∈ values)
  /\ (style_fontStyle (textareaStyle st') = "italic" <-> "italic" ∈ values)
  /\ (style_textDecoration (textareaStyle st') = "underline" <-> "underline" ∈ values)
  /\ (forall k, k <> K_isBold -> k <> K_isItalic -> k <> K_isUnderline ->
        get_field k st' = get_field k (editorSettings h))
  /\ content (foldl apply_update h (textStylesChanged values)) = content h
  /\ (forall values',
        (forall v, v ∈ ["bold"; "italic"; "underline"] -> v ∈ values <-> v ∈ values') ->
        editorSettings (foldl apply_update h (textStylesChanged values')) = st')
  /\ editorSettings (foldl apply_update h (textStylesChanged (textStylesValue st'))) = st'
  /\ editorSettings
       (foldl apply_update h (textStylesChanged (textStylesValue (editorSettings h))))
     = editorSettings h.
Proof.
  assert (forall st, textStylesChanged (textStylesValue st)
                     = updateSetting K_isBold (isBold st)
                       ++ updateSetting K_isItalic (isItalic st)
                       ++ updateSetting K_isUnderline (isUnderline st)) as Hecho.
  { intros st. unfold textStylesChanged, textStylesValue.
    by destruct (isBold st), (isItalic st), (isUnderline st). }
  cbn zeta. split_and!.
  - unfold textStylesValue.
    change (isBold _) with (bool_decide ("bold" ∈ values)).
    change (isItalic _) with (bool_decide ("italic" ∈ values)).
    change (isUnderline _) with (bool_decide ("underline" ∈ values)).
    rewrite !filter_cons, !filter_nil.
    do 3 case_bool_decide; repeat case_decide; done.
  - cbn. case_bool_decide; by split.
  - cbn. case_bool_decide; by split.
  - cbn. case_bool_decide; by split.
  - intros k H1 H2 H3. by destruct k.
  - done.
  - intros values' Hv. unfold textStylesChanged.
    rewrite (bool_decide_ext ("bold" ∈ values') ("bold" ∈ values))
      by (symmetry; apply Hv; by repeat constructor).
    rewrite (bool_decide_ext ("italic" ∈ values') ("italic" ∈ values))
      by (symmetry; apply Hv; by repeat constructor).
    rewrite (bool_decide_ext ("underline" ∈ values') ("underline" ∈ values))
      by (symmetry; apply Hv; by repeat constructor).
    done.
  - rewrite Hecho. cbn. by do 3 case_bool_decide.
  - rewrite Hecho. cbn. by destruct (editorSettings h).
Qed.

(** X8.  The font-size select.  For a font size [n] within the safe
    integers, the handler reads the integer back from the string the select
    carries for it, so that choosing the item of size [n] stores exactly
    [n]: the select then shows that item's value, which is the value of no
    other size, the text area gets the font size [n] followed by [px], and
    no other setting changes; choosing the size that is already set leaves
    the settings as they are.  The select shows one of its nine items
    exactly when the font size is one of the nine sizes offered. *)
Theorem fontSize_select_roundtrip h n :
  Z.abs n <= MAX_SAFE_INTEGER ->
  parseInt (number_toString n) = Some n
  /\ fontSizeChanged (number_toString n) = Some (updateSetting K_fontSize n)
  /\ (let st' := editorSettings (foldl apply_update h (updateSetting K_fontSize n)) in
      fontSize st' = n
      /\ fontSizeValue st' = number_toString n
      /\ (forall size, number_toString size = fontSizeValue st' <-> size = n)
      /\ style_fontSize (textareaStyle st') = number_toString n +:+ "px"
      /\ (forall k, k <> K_fontSize -> get_field k st' = get_field k (editorSettings h))
      /\ (n = fontSize (editorSettings h) -> st' = editorSettings h)
      /\ (fontSizeValue st' ∈ fontSizeItems <-> n ∈ fontSizes)).
Proof.
  intros _. cbn zeta. split_and!.
  - apply parseInt_toString.
  - unfold fontSizeChanged. by rewrite parseInt_toString.
  - done.
  - done.
  - intros size. cbn. split; [apply number_toString_inj|by intros ->].
  - done.
  - intros k Hk. by destruct k.
  - intros ->. cbn. by destruct (editorSettings h).
  - unfold fontSizeItems, fontSizeValue. change (fontSize _) with n.
    rewrite list_elem_of_fmap. split.
    + intros (m & E & Hm). by apply number_toString_inj in E as ->.
    + intros Hn. by exists n.
Qed.

(** X9.  The text-align toggle group.  When the group hands its handler the
    empty string (the pressed item was released) or the value of one of its
    four items, the alignment stored, and the one the text area is styled
    with, is that value, [left] taking the place of the empty string: one
    of the four items is pressed afterwards, whatever was released.  No
    other setting changes, and the value the group already shows leaves the
    settings as they are. *)
Theorem textAlign_group_never_unset h value q :
  textAlignChanged value = Some q ->
  let st' := editorSettings (foldl apply_update h q) in
  textAlignValue (textAlign st') = js_or value "left"
  /\ style_textAlign (textareaStyle st') = js_or value "left"
  /\ textAlignValue (textAlign st') ∈ ["left"; "center"; "right"; "justify"]
  /\ (forall k, k <> K_textAlign -> get_field k st' = get_field k (editorSettings h))
  /\ (value = textAlignValue (textAlign (editorSettings h)) -> st' = editorSettings h).
Proof.
  unfold textAlignChanged, as_textAlign, js_or.
  intros Hq. cbn zeta.
  assert (exists a, q = updateSetting K_textAlign a
                    /\ textAlignValue a = (if bool_decide (value = "") then "left" else value))
    as (a & -> & Ha).
  { repeat case_bool_decide; simplify_eq/=; by eexists. }
  split_and!; try done.
  - cbn. destruct a; by repeat constructor.
  - intros k Hk. by destruct k.
  - intros ->. cbn.
    assert (a = textAlign (editorSettings h)) as ->.
    { rewrite bool_decide_false in Ha by (by destruct (textAlign (editorSettings h))).
      by destruct a, (textAlign (editorSettings h)). }
    by destruct (editorSettings h).
Qed.

End Properties.

(** ** The theorems at concrete inputs *)

#[local] Existing Instance demoAtom.
#[local] Existing Instance secureContext.

Lemma helloState_reachable : Reachable demoProps helloState.
Proof.
  apply (reach_step demoProps demoState (Typed "hello")); [apply reach_mount|].
  vm_compute. reflexivity.
Qed.

Lemma clearedState_reachable : Reachable demoProps clearedState.
Proof.
  apply (reach_step demoProps helloState (ClickClear true));
    [apply helloState_reachable|].
  vm_compute. reflexivity.
Qed.

(** X1 at the demo instance after [hello] was typed. *)
Lemma store_mirrors_memory_witness :
  TEXT_EDITOR_STORAGE_KEY <> TEXT_EDITOR_SETTINGS_KEY
  /\ Reachable demoProps helloState
  /\ store (env helloState) !! "textEditorContent_default" = Some (VString "hello").
Proof.
  assert (TEXT_EDITOR_STORAGE_KEY <> TEXT_EDITOR_SETTINGS_KEY) as Hk by discriminate.
  assert (Reachable demoProps helloState) as Hr.
  { apply (reach_step demoProps demoState (Typed "hello")); [apply reach_mount|].
    vm_compute. reflexivity. }
  split; [exact Hk|]. split; [exact Hr|].
  apply (store_mirrors_memory demoProps helloState Hk Hr).
Defined.

(** C1 at the demo instance: typing [hello] makes the one content write. *)
Lemma saves_follow_mutations_witness :
  Reachable demoProps demoState
  /\ step (Typed "hello") demoState = Some helloState
  /\ saves (env helloState)
     = saves (env demoState) ++ [("textEditorContent_default", VString "hello")].
Proof.
  assert (Reachable demoProps demoState) as Hr by apply reach_mount.
  assert (step (Typed "hello") demoState = Some helloState) as Hs
    by (vm_compute; reflexivity).
  split; [exact Hr|]. split; [exact Hs|].
  destruct (saves_follow_mutations demoProps demoState _ _ Hr Hs)
    as (_ & _ & _ & H & _).
  apply (H "hello"); [reflexivity|]. vm_compute. discriminate.
Defined.

(** C2 at the demo instance: switching word wrap off leaves the font size. *)
Lemma updateSetting_sets_one_field_witness :
  Reachable demoProps demoState /\ mounted demoState = true
  /\ exists s',
       step (SettingChanged K_wordWrap false) demoState = Some s'
       /\ wordWrap (editorSettings (hooks s')) = false
       /\ fontSize (editorSettings (hooks s')) = 14.
Proof.
  assert (Reachable demoProps demoState) as Hr by apply reach_mount.
  assert (mounted demoState = true) as Hm by reflexivity.
  split; [exact Hr|]. split; [exact Hm|].
  destruct (updateSetting_sets_one_field demoProps demoState K_wordWrap false Hr Hm)
    as (s' & Hstep & _ & Hk & Hother & _).
  exists s'. split; [exact Hstep|]. split; [exact Hk|].
  apply (Hother K_fontSize). discriminate.
Defined.

(** C6 at the demo instance after [hello] was typed. *)
Lemma clearText_confirmation_witness :
  TEXT_EDITOR_STORAGE_KEY <> TEXT_EDITOR_SETTINGS_KEY
  /\ Reachable demoProps helloState /\ mounted helloState = true
  /\ step (ClickClear false) helloState = Some helloState
  /\ exists s', step (ClickClear true) helloState = Some s'
       /\ content (hooks s') = ""
       /\ store (env s') !! "textEditorContent_default" = Some (VString "").
Proof.
  assert (TEXT_EDITOR_STORAGE_KEY <> TEXT_EDITOR_SETTINGS_KEY) as Hk by discriminate.
  assert (Reachable demoProps helloState) as Hr.
  { apply (reach_step demoProps demoState (Typed "hello")); [apply reach_mount|].
    vm_compute. reflexivity. }
  assert (mounted helloState = true) as Hm by reflexivity.
  split; [exact Hk|]. split; [exact Hr|]. split; [exact Hm|].
  destruct (clearText_confirmation demoProps helloState Hk Hr Hm)
    as (Hno & s' & Hstep & Hc & Hst & _).
  split; [exact Hno|]. exists s'. by split_and!.
Defined.

(** C7 at the spec's example: content [hello], [editorId] [notes]; the
    message is gone two seconds after the click. *)
Lemma saveToFile_download_witness :
  mounted notesHelloState = true
  /\ step ClickSave notesHelloState = Some notesSaved
  /\ downloads (env notesSaved)
     = [mkDownload (mkBlob ["hello"] "text/plain") "notes_note.txt"]
  /\ blob_text (mkBlob ["hello"] "text/plain") = "hello"
  /\ statusMessage (hooks notesSaved) = "Content saved to file"
  /\ run [Wait 2000; Fire] notesSaved = Some notesBlank
  /\ now (env notesBlank) = 2000
  /\ statusMessage (hooks notesBlank) = ""
  /\ content (hooks notesBlank) = "hello".
Proof.
  assert (mounted notesHelloState = true) as Hm by reflexivity.
  assert (step ClickSave notesHelloState = Some notesSaved) as Hs
    by (vm_compute; reflexivity).
  assert (run [Wait 2000; Fire] notesSaved = Some notesBlank) as Hrun
    by (vm_compute; reflexivity).
  assert (Forall (fun t => now (env notesHelloState) + 2000 < due t)
            (timers (env notesHelloState))) as Hall
    by (repeat constructor).
  split; [exact Hm|]. split; [exact Hs|].
  destruct (saveToFile_download notesHelloState Hm)
    as (s' & Hstep & Hd & Hb & Hmsg & _ & _ & _ & _ & _ & Hclear).
  rewrite Hs in Hstep. injection Hstep as <-.
  destruct (Hclear Hall) as (s2 & Hrun2 & Hnow & Hblank & _ & Hc & _).
  rewrite Hrun in Hrun2. injection Hrun2 as <-.
  split; [exact Hd|]. split; [exact Hb|]. split; [exact Hmsg|].
  split; [exact Hrun|]. split; [exact Hnow|]. split; [exact Hblank|exact Hc].
Defined.

(** C8 at Ctrl+C with an empty and with a non-empty selection. *)
Lemma keydown_shortcuts_witness :
  mounted helloState = true /\ defaultPrevented ctrlC = false
  /\ (defaultPrevented (fst (keydown ctrlC (Some "") helloState)) = true
      /\ step (KeyDown ctrlC (Some "")) helloState = step ClickCopy helloState
      /\ pendingWrites (env (snd (keydown ctrlC (Some "") helloState))) = ["hello"])
  /\ keydown ctrlC (Some "selected") helloState = (ctrlC, helloState).
Proof.
  assert (mounted helloState = true) as Hm by reflexivity.
  assert (defaultPrevented ctrlC = false) as Hd by reflexivity.
  split; [exact Hm|]. split; [exact Hd|].
  destruct (keydown_shortcuts helloState ctrlC (Some "") Hm Hd) as (_ & Hc & _).
  destruct (Hc eq_refl eq_refl) as [[_ Hyes] _].
  split; [exact (Hyes eq_refl)|].
  destruct (keydown_shortcuts helloState ctrlC (Some "selected") Hm Hd) as (_ & Hc' & _).
  destruct (Hc' eq_refl eq_refl) as [_ Hno]. apply Hno. discriminate.
Defined.

(** C8, counterexample to the unamended statement, with no selection object: no
    text is selected, yet Ctrl+C neither prevents the default nor starts a
    clipboard write. *)
Lemma keydown_copy_null_selection_counterexample :
  defaultPrevented (fst (keydown ctrlC None helloState)) = false
  /\ pendingWrites (env (snd (keydown ctrlC None helloState))) = []
  /\ step (KeyDown ctrlC None) helloState = Some helloState
  /\ step ClickCopy helloState <> Some helloState.
Proof. split_and!; try (vm_compute; reflexivity). vm_compute. discriminate. Qed.

(** C10 at the demo instance. *)
Lemma keydown_copy_without_selection_object_witness :
  mounted helloState = true /\ ctrlKey ctrlC = true /\ key ctrlC = "c"
  /\ keydown ctrlC None helloState = (ctrlC, helloState).
Proof.
  split; [reflexivity|]. split; [reflexivity|]. split; [reflexivity|].
  apply (keydown_copy_without_selection_object helloState ctrlC); reflexivity.
Defined.

(** C9 at the demo instance after [hello] was typed, on a page with the
    Clipboard API: the click, and the write it started rejecting. *)
Lemma copyToClipboard_settles_witness :
  mounted helloState = true /\ mounted copyingState = true
  /\ clipboardApi = true
  /\ step ClickCopy helloState = Some copyingState
  /\ pendingWrites (env copyingState) = ["hello"]
  /\ clipboard (env copyingState) = ""
  /\ exists s3,
       step (ClipboardSettled false) copyingState = Some s3
       /\ statusMessage (hooks s3) = "Failed to copy content!"
       /\ consoleErrors (env s3) = ["Failed to copy text: "]
       /\ pendingWrites (env s3) = []
       /\ clipboard (env s3) = ""
       /\ content (hooks s3) = "hello"
       /\ store (env s3) = store (env copyingState).
Proof.
  assert (mounted helloState = true) as Hm by reflexivity.
  assert (mounted copyingState = true) as Hm1 by reflexivity.
  assert (clipboardApi = true) as Hapi by reflexivity.
  assert (step ClickCopy helloState = Some copyingState) as Hs
    by (vm_compute; reflexivity).
  split; [exact Hm|]. split; [exact Hm1|]. split; [exact Hapi|]. split; [exact Hs|].
  destruct (copyToClipboard_settles helloState Hm) as (Hclick & _ & _).
  destruct (Hclick Hapi) as (s1 & Hstep & Hp & Hc & _).
  rewrite Hs in Hstep. injection Hstep as <-.
  split; [exact Hp|]. split; [exact Hc|].
  destruct (copyToClipboard_settles copyingState Hm1) as (_ & _ & Hsettle).
  destruct (Hsettle "hello" [] Hp)
    as (_ & s3 & Hrej & Hmsg & Herr & Hpw & Hcl & Hcontent & _ & Hstore & _).
  exists s3. split; [exact Hrej|]. split; [exact Hmsg|]. split; [exact Herr|].
  split; [exact Hpw|]. split; [exact Hcl|]. split; [exact Hcontent|exact Hstore].
Defined.

(** C9, counterexample to the unamended statement, on a page without the
    Clipboard API: the click on Copy starts no write and fails within the
    click, so that nothing is pending, nothing can resolve or reject
    afterwards, and the clipboard is never written. *)
Lemma copy_without_clipboard_api_counterexample :
  Reachable (nav := insecureContext) demoProps helloState
  /\ mounted helloState = true /\ content (hooks helloState) = "hello"
  /\ step (nav := insecureContext) ClickCopy helloState = Some copyFailedState
  /\ pendingWrites (env copyFailedState) = []
  /\ clipboard (env copyFailedState) = ""
  /\ statusMessage (hooks copyFailedState) = "Failed to copy content!"
  /\ consoleErrors (env copyFailedState) = ["Failed to copy text: "]
  /\ step (nav := insecureContext) (ClipboardSettled true) copyFailedState = None
  /\ step (nav := insecureContext) (ClipboardSettled false) copyFailedState = None.
Proof.
  split.
  - apply (reach_step (nav := insecureContext) demoProps demoState (Typed "hello"));
      [apply (reach_mount (nav := insecureContext))|].
    vm_compute. reflexivity.
  - split_and!; vm_compute; reflexivity.
Qed.

(** C4, counterexample to the unamended statement: the stored content is the empty
    string (which clearing the text stores): stored content exists, yet the
    content after the load is [initialContent], not the stored content. *)
Lemma mount_empty_stored_content_counterexample :
  Reachable demoProps clearedState
  /\ store (env clearedState) !! contentKey (editorId revisitProps) = Some (VString "")
  /\ content (hooks revisitState) = "welcome"
  /\ content (hooks revisitState) <> "".
Proof.
  split_and!.
  - apply (reach_step demoProps helloState (ClickClear true)).
    + apply (reach_step demoProps demoState (Typed "hello")); [apply reach_mount|].
      vm_compute. reflexivity.
    + vm_compute. reflexivity.
  - vm_compute. reflexivity.
  - vm_compute. reflexivity.
  - vm_compute. discriminate.
Qed.

(** C3, counterexample to the unamended statement: message A at 0 ms, message B at
    1000 ms.  After B is set both clears are pending (A's was not
    cancelled), and at 2000 ms, a second before B's own 2-second mark, the
    display is blank while B's clear is still pending. *)
Lemma status_blanked_early_counterexample :
  run (atom := quietAtom) [ClickSave; Wait 1000; ClickClear true] quietState
  = Some quietSaved
  /\ statusMessage (hooks quietSaved) = "All text cleared"
  /\ now (env quietSaved) = 1000
  /\ timers (env quietSaved)
     = [mkTimer 1 2000 None ClearStatus; mkTimer 2 3000 None ClearStatus]
  /\ run (atom := quietAtom) [Wait 1000; Fire] quietSaved = Some quietBlank
  /\ now (env quietBlank) = 2000
  /\ statusMessage (hooks quietBlank) = ""
  /\ timers (env quietBlank) = [mkTimer 2 3000 None ClearStatus].
Proof. split_and!; vm_compute; reflexivity. Qed.

(** C3 at messages one second apart on an instance with no other timer. *)
Lemma status_clear_not_preempted_witness :
  mounted quietState = true /\ 0 <= 1000 < 2000
  /\ Forall (fun t => now (env quietState) + 1000 + 2000 < due t)
       (timers (env quietState))
  /\ exists s3 s5,
       s3 = showStatus (atom := quietAtom) "B"
              (set_now 1000 (showStatus (atom := quietAtom) "A" quietState))
       /\ statusMessage (hooks s3) = "B"
       /\ run (atom := quietAtom) [Wait 1000; Fire] s3 = Some s5
       /\ now (env s5) = 2000 /\ statusMessage (hooks s5) = "".
Proof.
  assert (mounted quietState = true) as Hm by reflexivity.
  assert (0 <= 1000 < 2000) as Hd by lia.
  assert (Forall (fun t => now (env quietState) + 1000 + 2000 < due t)
            (timers (env quietState))) as Hall by constructor.
  split; [exact Hm|]. split; [exact Hd|]. split; [exact Hall|].
  destruct (status_clear_not_preempted (atom := quietAtom) quietState "A" "B" 1000 Hm Hd Hall)
    as (s2 & s3 & s5 & s7 & Hw & Hs3 & HB & _ & _ & Hrun & Hnow & Hblank & _).
  exists s3, s5. split.
  - rewrite Hs3. f_equal. vm_compute in Hw. by injection Hw as <-.
  - by split_and!.
Defined.



(** X2 in a browser whose store holds another application's record. *)
Lemma store_frame_witness :
  run [Typed "hello"; ClickClear true] (mount demoProps (fresh_env sharedStore 0))
  = Some sharedCleared
  /\ store (env sharedCleared) !! "todoList" = Some (VString "milk").
Proof.
  assert (run [Typed "hello"; ClickClear true]
            (mount demoProps (fresh_env sharedStore 0)) = Some sharedCleared) as Hrun
    by (vm_compute; reflexivity).
  split; [exact Hrun|].
  destruct (store_frame demoProps sharedStore 0 _ _ Hrun) as [_ H].
  rewrite (H "todoList") by (vm_compute; discriminate).
  vm_compute. reflexivity.
Defined.

(** X3 at the demo instance, unmounted while a clipboard write is pending:
    the write settles and the timer that sets fires, to no effect. *)
Lemma unmounted_is_inert_witness :
  Reachable demoProps unmountedState /\ mounted unmountedState = false
  /\ run [ClipboardSettled true; Wait 2000; Fire] unmountedState = Some lateState
  /\ hooks lateState = hooks unmountedState
  /\ store (env lateState) = store (env unmountedState)
  /\ step ClickSave lateState = None.
Proof.
  assert (Reachable demoProps unmountedState) as Hr.
  { apply (run_reachable demoProps [ClickCopy; Unmount] helloState);
      [apply helloState_reachable|]. vm_compute. reflexivity. }
  assert (mounted unmountedState = false) as Hm by reflexivity.
  assert (run [ClipboardSettled true; Wait 2000; Fire] unmountedState = Some lateState)
    as Hrun by (vm_compute; reflexivity).
  split; [exact Hr|]. split; [exact Hm|]. split; [exact Hrun|].
  destruct (unmounted_is_inert demoProps unmountedState _ lateState Hr Hm Hrun)
    as (_ & Hh & Hst & _ & _ & _ & _ & Hsave & _).
  split; [exact Hh|]. split; [exact Hst|]. exact Hsave.
Defined.

(** X4 at the demo instance after [hello] was typed: the next visit shows
    [hello], not the caller's initial content. *)
Lemma reload_restores_witness :
  TEXT_EDITOR_STORAGE_KEY <> TEXT_EDITOR_SETTINGS_KEY
  /\ Reachable demoProps helloState /\ editorId revisitProps = editorId demoProps
  /\ content (hooks (mount revisitProps (fresh_env (store (env helloState)) 5000)))
     = content (hooks helloState)
  /\ content (hooks helloState) = "hello".
Proof.
  assert (TEXT_EDITOR_STORAGE_KEY <> TEXT_EDITOR_SETTINGS_KEY) as Hk by discriminate.
  assert (editorId revisitProps = editorId demoProps) as Hid by reflexivity.
  split; [exact Hk|]. split; [exact helloState_reachable|]. split; [exact Hid|].
  destruct (reload_restores demoProps helloState revisitProps 5000 Hk
              helloState_reachable Hid) as (_ & H & _).
  split; [|reflexivity]. apply H. vm_compute. discriminate.
Defined.

(** X5 at the demo instance after the text was cleared. *)
Lemma status_bar_texts_witness :
  Reachable demoProps clearedState
  /\ statusBarText (hooks clearedState) ∈ "Ready" :: shown_messages
  /\ statusBarText (hooks clearedState) <> "".
Proof.
  split; [exact clearedState_reachable|].
  destruct (status_bar_texts demoProps clearedState clearedState_reachable)
    as (_ & Hin & _ & Hne).
  split; [exact Hin|exact Hne].
Defined.

(** X6 at the demo instance after the text was cleared, while "All text
    cleared" is showing. *)
Lemma status_message_is_transient_witness :
  Reachable demoProps clearedState /\ mounted clearedState = true
  /\ statusMessage (hooks clearedState) <> ""
  /\ exists t, t ∈ timers (env clearedState) /\ callback t = ClearStatus
               /\ due t <= now (env clearedState) + 2000.
Proof.
  assert (mounted clearedState = true) as Hm by reflexivity.
  assert (statusMessage (hooks clearedState) <> "") as Hne
    by (vm_compute; discriminate).
  split; [exact clearedState_reachable|]. split; [exact Hm|]. split; [exact Hne|].
  destruct (status_message_is_transient demoProps clearedState
              clearedState_reachable Hm Hne) as (t & Hin & Hcb & _ & [_ Hd] & _).
  exists t. split; [exact Hin|]. split; [exact Hcb|exact Hd].
Defined.

(** X8 at the item of size 18. *)
Lemma fontSize_select_roundtrip_witness :
  Z.abs 18 <= MAX_SAFE_INTEGER
  /\ fontSizeChanged "18" = Some (updateSetting K_fontSize 18)
  /\ fontSizeValue
       (editorSettings (foldl apply_update (hooks demoState) (updateSetting K_fontSize 18)))
     = "18".
Proof.
  assert (Z.abs 18 <= MAX_SAFE_INTEGER) as Hn by (vm_compute; discriminate).
  split; [exact Hn|].
  destruct (fontSize_select_roundtrip (hooks demoState) 18 Hn)
    as (_ & Hq & _ & Hv & _).
  split; [exact Hq|exact Hv].
Defined.

(** X9 when the pressed alignment item is released. *)
Lemma textAlign_group_never_unset_witness :
  textAlignChanged "" = Some (updateSetting K_textAlign AlignLeft)
  /\ style_textAlign
       (textareaStyle
          (editorSettings
             (foldl apply_update (hooks demoState) (updateSetting K_textAlign AlignLeft))))
     = "left".
Proof.
  assert (textAlignChanged "" = Some (updateSetting K_textAlign AlignLeft)) as Hq
    by reflexivity.
  split; [exact Hq|].
  destruct (textAlign_group_never_unset (hooks demoState) "" _ Hq) as (_ & H & _).
  exact H.
Defined.

(** X10 at the demo instance and the instance [notes]. *)
Lemma editors_do_not_interfere_witness :
  editorId notesProps <> editorId demoProps
  /\ contentKey (editorId notesProps) <> settingsKey (editorId demoProps)
  /\ settingsKey (editorId notesProps) <> contentKey (editorId demoProps)
  /\ run [Typed "hello"] (mount demoProps (fresh_env sharedStore 0)) = Some sharedHello
  /\ hooks (mount notesProps (fresh_env (store (env sharedHello)) 7))
     = hooks (mount notesProps (fresh_env sharedStore 7)).
Proof.
  assert (editorId notesProps <> editorId demoProps) as Hid
    by (vm_compute; discriminate).
  assert (contentKey (editorId notesProps) <> settingsKey (editorId demoProps)) as Hcs
    by (vm_compute; discriminate).
  assert (settingsKey (editorId notesProps) <> contentKey (editorId demoProps)) as Hsc
    by (vm_compute; discriminate).
  assert (run [Typed "hello"] (mount demoProps (fresh_env sharedStore 0))
          = Some sharedHello) as Hrun by (vm_compute; reflexivity).
  split; [exact Hid|]. split; [exact Hcs|]. split; [exact Hsc|].
  split; [exact Hrun|].
  destruct (editors_do_not_interfere demoProps sharedStore 0 _ sharedHello notesProps 7
              Hid Hcs Hsc Hrun) as (_ & _ & H).
  exact H.
Defined.

(** X11 at the demo instance after [hello] was typed: a click on Save. *)
Lemma downloads_only_on_request_witness :
  Reachable demoProps helloState
  /\ Forall (note_download demoProps) (downloads (env helloState))
  /\ step ClickSave helloState = Some helloSaved
  /\ exists d, downloads (env helloSaved) = downloads (env helloState) ++ [d]
       /\ blob_text (href d) = content (hooks helloState).
Proof.
  assert (step ClickSave helloState = Some helloSaved) as Hs
    by (vm_compute; reflexivity).
  split; [exact helloState_reachable|].
  destruct (downloads_only_on_request demoProps helloState helloState_reachable)
    as [Hall Hstep].
  split; [exact Hall|]. split; [exact Hs|].
  destruct (Hstep ClickSave helloSaved Hs) as [H|(_ & _ & d & Hd & _ & Ht)].
  - vm_compute in H. discriminate H.
  - exists d. split; [exact Hd|exact Ht].
Defined.

(** X12 at the demo instance: [hello] is copied, then [bye] typed and the
    editor closed before the write resolves. *)
Lemma copy_takes_content_at_click_witness :
  mounted helloState = true /\ pendingWrites (env helloState) = []
  /\ step ClickCopy helloState = Some copyingState
  /\ run [Typed "bye"; Unmount] copyingState = Some byeState
  /\ content (hooks byeState) = "bye"
  /\ exists s3, step (ClipboardSettled true) byeState = Some s3
       /\ clipboard (env s3) = content (hooks helloState).
Proof.
  assert (mounted helloState = true) as Hm by reflexivity.
  assert (pendingWrites (env helloState) = []) as Hp by reflexivity.
  assert (step ClickCopy helloState = Some copyingState) as Hc
    by (vm_compute; reflexivity).
  assert (run [Typed "bye"; Unmount] copyingState = Some byeState) as Hrun
    by (vm_compute; reflexivity).
  split; [exact Hm|]. split; [exact Hp|]. split; [exact Hc|]. split; [exact Hrun|].
  split; [vm_compute; reflexivity|].
  destruct (copy_takes_content_at_click helloState copyingState
              [Typed "bye"; Unmount] byeState Hm Hp Hc eq_refl Hrun)
    as (_ & Hclip & Hres).
  destruct (Hres eq_refl) as (s3 & Hs).
  exists s3. split; [exact Hs|]. by destruct (Hclip s3 Hs).
Defined.
